(** * MODBUS/TCP parser: a shallow embedding of
      [src/parsers/modbus_parser/parser.py] and the properties of its
      decoder, transaction store and statistics.

    Conventions of the embedding:
    - a Python [bytes] value is a [list byte]; a byte read out of it is the
      Python [int] [Z.of_N (Byte.to_N b)], and Python integers are [Z];
    - indexing [b[i]] raises [IndexError] out of range; the embedding keeps
      that as the [Raise] case of a small exception monad, so that "no read
      past the end of the buffer" is a statement about the model;
    - a [for] loop is [for_] over the list its [range] produces, with
      [break] as an explicit outcome of the loop body;
    - the module-level logger is a writer: each operation returns the list
      of records it logged;
    - dictionaries with integer or string keys are [gmap]s, the set of unit
      ids is a [gset]. *)

From Stdlib Require Import ZArith List Lia.
From Stdlib Require Import Strings.Byte Strings.Ascii.
From stdpp Require Import gmap strings list fin_maps pretty.
Import ListNotations.
Open Scope Z_scope.

(** ** Python values and control flow *)

(** The [int] a [bytes] object yields at one index. *)
Definition byte_to_Z (b : byte) : Z := Z.of_N (Byte.to_N b).

(** [len(x)] as a Python integer. *)
Definition len {A} (l : list A) : Z := Z.of_nat (length l).

(** The outcome of a computation that may raise. [msg] is [str(e)]. *)
Inductive exn (A : Type) : Type :=
| Ok (a : A)
| Raise (msg : string).
Arguments Ok {A} a.
Arguments Raise {A} msg.

#[global] Instance exn_ret : MRet exn := fun A a => Ok a.

#[global] Instance exn_bind : MBind exn := fun A B k m =>
  match m with
  | Ok a => k a
  | Raise e => Raise e
  end.

(** [b[i]] on a [bytes] object: a negative index counts from the end, and
    anything outside the buffer raises [IndexError]. *)
Definition getitem (b : list byte) (i : Z) : exn Z :=
  let j := if i <? 0 then i + len b else i in
  if (0 <=? j) && (j <? len b)
  then match b !! Z.to_nat j with
       | Some x => Ok (byte_to_Z x)
       | None => Raise "index out of range"
       end
  else Raise "index out of range".

(** The bound of a slice, clamped as Python does. *)
Definition clamp {A} (l : list A) (i : Z) : Z :=
  if i <? 0 then Z.max (i + len l) 0 else Z.min i (len l).

(** [l[a:b]]; a slice never raises. *)
Definition slice {A} (l : list A) (a b : Z) : list A :=
  let a' := clamp l a in
  let b' := clamp l b in
  firstn (Z.to_nat (b' - a')) (skipn (Z.to_nat a') l).

(** [l[a:]]. *)
Definition slice_from {A} (l : list A) (a : Z) : list A :=
  skipn (Z.to_nat (clamp l a)) l.

(** [range(a, b, step)] for a positive [step], and [range(a, b)]. *)
Definition range_step (a b step : Z) : list Z :=
  map (fun k => a + step * Z.of_nat k)
      (seq 0 (Z.to_nat ((b - a + step - 1) / step))).

Definition range (a b : Z) : list Z := range_step a b 1.

(** What one iteration of a loop body does to the loop. *)
Inductive flow (S : Type) : Type :=
| Next (s : S)
| Break (s : S).
Arguments Next {S} s.
Arguments Break {S} s.

(** [for x in xs: body], the loop variables threaded as [s]. *)
Fixpoint for_ {A S} (xs : list A) (body : A -> S -> exn (flow S)) (s : S)
  : exn S :=
  match xs with
  | [] => Ok s
  | x :: xs' =>
      match body x s with
      | Raise e => Raise e
      | Ok (Break s') => Ok s'
      | Ok (Next s') => for_ xs' body s'
      end
  end.

(** [x in [a, b, ...]] on integers. *)
Definition in_list (x : Z) (l : list Z) : bool := existsb (Z.eqb x) l.

(** [bytes.hex()]: two lower-case digits per byte. *)
Definition hex_digit (n : Z) : ascii :=
  if n <? 10 then ascii_of_nat (Z.to_nat (48 + n))
  else ascii_of_nat (Z.to_nat (87 + n)).

Fixpoint hex (b : list byte) : string :=
  match b with
  | [] => EmptyString
  | x :: b' =>
      String (hex_digit (byte_to_Z x / 16))
        (String (hex_digit (byte_to_Z x mod 16)) (hex b'))
  end.

(** [bytes.decode('ascii', errors='replace')]: a Python [str] as the list of
    its code points; a byte that is not ASCII becomes U+FFFD. *)
Definition decode_ascii_replace (b : list byte) : list Z :=
  map (fun x => if byte_to_Z x <? 128 then byte_to_Z x else 65533) b.

(** ** The decoder *)

(** MODBUS function codes. *)
Definition FUNCTION_CODES : gmap Z string :=
  list_to_map
    [ (1, "Read Coils");
      (2, "Read Discrete Inputs");
      (3, "Read Holding Registers");
      (4, "Read Input Registers");
      (5, "Write Single Coil");
      (6, "Write Single Register");
      (15, "Write Multiple Coils");
      (16, "Write Multiple Registers");
      (43, "Read Device Identification") ].

(** One entry of the ['objects'] list of a device identification. *)
Record DeviceObject := {
  id : Z;
  value : list Z
}.

(** The dictionary [_parse_function] returns, by the keys it holds. *)
Inductive Payload :=
| ErrorPayload (error : string)
| ReadPayload (byte_count : Z) (values : list Z)
| WriteSinglePayload (address value : Z)
| WriteMultiplePayload (address quantity : Z)
| DeviceIdPayload (mei_type reading_device_id conformity_level
                   more_follows next_object_id : Z)
                  (objects : list DeviceObject)
| RawPayload (raw : string)
| ExceptionPayload (error : string) (raw : string).

(** The loop of function codes 1 and 2. *)
Definition read_bits (payload : list byte) (byte_count : Z) : exn (list Z) :=
  for_ (range 1 (Z.min (1 + byte_count) (len payload)))
    (fun i values =>
       values' ←
         for_ (range 0 8)
           (fun bit values =>
              if (i - 1) * 8 + bit <? byte_count * 8
              then x ← getitem payload i;
                   Ok (Next (values ++ [Z.land (Z.shiftr x bit) 1]))
              else Ok (Next values))
           values;
       Ok (Next values'))
    [].

(** The loop of function codes 3 and 4. *)
Definition read_registers (payload : list byte) (byte_count : Z)
  : exn (list Z) :=
  for_ (range_step 1 (Z.min (1 + byte_count) (len payload)) 2)
    (fun i values =>
       if i + 1 <? len payload
       then hi ← getitem payload i;
            lo ← getitem payload (i + 1);
            Ok (Next (values ++ [Z.lor (Z.shiftl hi 8) lo]))
       else Ok (Next values))
    [].

(** The loop of function code 43; its variables are [offset] and
    [objects]. *)
Definition read_objects (payload : list byte) (object_count : Z)
  (offset : Z) (objects : list DeviceObject)
  : exn (Z * list DeviceObject) :=
  for_ (range 0 object_count)
    (fun _ '(offset, objects) =>
       if offset + 1 >=? len payload then Ok (Break (offset, objects))
       else
         object_id ← getitem payload offset;
         object_len ← getitem payload (offset + 1);
         let offset := offset + 2 in
         if offset + object_len >? len payload
         then Ok (Break (offset, objects))
         else
           let object_value :=
             decode_ascii_replace
               (slice payload offset (offset + object_len)) in
           let offset := offset + object_len in
           Ok (Next (offset,
                     objects ++ [{| id := object_id;
                                    value := object_value |}])))
    (offset, objects).

(** The body of the [try] of [_parse_function]. *)
Definition parse_function_body (function_code : Z) (payload : list byte)
  : exn Payload :=
  if in_list function_code [1; 2; 3; 4] then
    if len payload <? 1
    then Ok (ErrorPayload "Payload too short for read response")
    else
      byte_count ← getitem payload 0;
      values ←
        (if in_list function_code [1; 2] then read_bits payload byte_count
         else if in_list function_code [3; 4]
              then read_registers payload byte_count
              else Ok []);
      Ok (ReadPayload byte_count values)
  else if in_list function_code [5; 6] then
    if len payload <? 4
    then Ok (ErrorPayload "Payload too short for write single response")
    else
      a0 ← getitem payload 0;
      a1 ← getitem payload 1;
      let address := Z.lor (Z.shiftl a0 8) a1 in
      v0 ← getitem payload 2;
      v1 ← getitem payload 3;
      let value := Z.lor (Z.shiftl v0 8) v1 in
      let value :=
        if function_code =? 5
        then (if value =? 65280 then 1 else 0)
        else value in
      Ok (WriteSinglePayload address value)
  else if in_list function_code [15; 16] then
    if len payload <? 4
    then Ok (ErrorPayload "Payload too short for write multiple response")
    else
      a0 ← getitem payload 0;
      a1 ← getitem payload 1;
      let address := Z.lor (Z.shiftl a0 8) a1 in
      q0 ← getitem payload 2;
      q1 ← getitem payload 3;
      let quantity := Z.lor (Z.shiftl q0 8) q1 in
      Ok (WriteMultiplePayload address quantity)
  else if function_code =? 43 then
    if len payload <? 6
    then Ok (ErrorPayload "Payload too short for device identification")
    else
      mei_type ← getitem payload 0;
      reading_device_id ← getitem payload 1;
      conformity_level ← getitem payload 2;
      more_follows ← getitem payload 3;
      next_object_id ← getitem payload 4;
      object_count ← getitem payload 5;
      r ← read_objects payload object_count 6 [];
      Ok (DeviceIdPayload mei_type reading_device_id conformity_level
            more_follows next_object_id (snd r))
  else Ok (RawPayload (hex payload)).

(** The levels the logger is called at. *)
Inductive LogLevel := DEBUG | WARNING | ERROR.

(** [_parse_function]: the [try] body, and the handler that turns any
    exception into an error dictionary and logs it. *)
Definition _parse_function (function_code : Z) (payload : list byte)
  : Payload * list (LogLevel * string) :=
  match parse_function_body function_code payload with
  | Ok parsed_data => (parsed_data, [])
  | Raise e =>
      (ExceptionPayload e (hex payload),
       [(ERROR,
         "Error parsing function " +:+ pretty function_code +:+ ": " +:+ e)])
  end.

(** ** The parser instance *)

Module Packet.

(** The dictionary [parse_packet] builds for one frame. *)
Record t := {
  transaction_id : Z;
  protocol_id : Z;
  length : Z;
  unit_id : Z;
  function_code : Z;
  function_name : string;
  payload : Payload;
  raw_data : string
}.

End Packet.

(** The attributes [__init__] creates. *)
Record ModbusParser := {
  transaction_count : Z;
  packets : list Packet.t
}.

Definition init : ModbusParser :=
  {| transaction_count := 0; packets := [] |}.

(** A call of the logger, whatever the handlers then write. The debug call
    for an accepted frame carries the packet whose JSON dump makes its
    message. *)
Inductive LogRecord :=
| Log (level : LogLevel) (msg : string)
| LogParsed (parsed_packet : Packet.t).

(** The five header fields, read inside the [try] of [parse_packet]. *)
Definition read_header (packet : list byte) : exn (Z * Z * Z * Z * Z) :=
  t0 ← getitem packet 0;
  t1 ← getitem packet 1;
  let transaction_id := Z.lor (Z.shiftl t0 8) t1 in
  p0 ← getitem packet 2;
  p1 ← getitem packet 3;
  let protocol_id := Z.lor (Z.shiftl p0 8) p1 in
  l0 ← getitem packet 4;
  l1 ← getitem packet 5;
  let length := Z.lor (Z.shiftl l0 8) l1 in
  unit_id ← getitem packet 6;
  function_code ← getitem packet 7;
  Ok (transaction_id, protocol_id, length, unit_id, function_code).

(** The payload slice [parse_packet] hands to [_parse_function]. *)
Definition payload_of (packet : list byte) (length : Z) : list byte :=
  if 8 + length - 2 <=? len packet
  then slice packet 8 (8 + length - 2)
  else slice_from packet 8.

(** [parse_packet]: the value returned, the instance after the call, and
    the calls of the logger, in order. An exception of the header reads
    would reach the handler before any attribute is assigned; past them
    nothing in the
    [try] can raise ([_parse_function] handles its own exceptions, and the
    JSON dump of the debug message is of integers, strings and lists and
    dictionaries of them). *)
Definition parse_packet (self : ModbusParser) (packet : list byte)
  : option Packet.t * ModbusParser * list LogRecord :=
  if (len packet =? 0) || (len packet <? 8)
  then (None, self, [Log WARNING "Invalid packet: too short"])
  else
    match read_header packet with
    | Raise e => (None, self, [Log ERROR ("Error parsing packet: " +:+ e)])
    | Ok (transaction_id, protocol_id, length, unit_id, function_code) =>
        if negb (protocol_id =? 0)
        then (None, self,
              [Log WARNING
                 ("Invalid MODBUS protocol ID: " +:+ pretty protocol_id)])
        else
          let payload := payload_of packet length in
          let '(parsed_data, logged) :=
            _parse_function function_code payload in
          let transaction_count := transaction_count self + 1 in
          let parsed_packet :=
            {| Packet.transaction_id := transaction_id;
               Packet.protocol_id := protocol_id;
               Packet.length := length;
               Packet.unit_id := unit_id;
               Packet.function_code := function_code;
               Packet.function_name :=
                 default ("Unknown (" +:+ pretty function_code +:+ ")")
                         (FUNCTION_CODES !! function_code);
               Packet.payload := parsed_data;
               Packet.raw_data := hex packet |} in
          (Some parsed_packet,
           {| transaction_count := transaction_count;
              packets := packets self ++ [parsed_packet] |},
           map (fun r => Log (fst r) (snd r)) logged
             ++ [LogParsed parsed_packet])
    end.

(** The loop of the command line over the frames of a capture: every frame
    goes through [parse_packet] on the same instance. *)
Fixpoint parse_all (self : ModbusParser) (frames : list (list byte))
  : list Packet.t * ModbusParser * list LogRecord :=
  match frames with
  | [] => ([], self, [])
  | packet :: frames' =>
      let '(parsed, self', logged) := parse_packet self packet in
      let '(results, self'', logged') := parse_all self' frames' in
      (match parsed with
       | Some p => p :: results
       | None => results
       end, self'', logged ++ logged')
  end.

(** ** Statistics *)

(** A value of the statistics dictionary. *)
Inductive StatValue :=
| IntValue (n : Z)
| CountsValue (d : gmap Z Z)
| ListValue (l : list Z).

(** The four local variables of the loop of [get_statistics]. *)
Record Counters := {
  function_counts : gmap Z Z;
  unit_ids : gset Z;
  write_operations : Z;
  read_operations : Z
}.

Definition no_counters : Counters :=
  {| function_counts := ∅; unit_ids := ∅;
     write_operations := 0; read_operations := 0 |}.

(** One iteration of that loop. *)
Definition count_packet (c : Counters) (packet : Packet.t) : Counters :=
  let fc := Packet.function_code packet in
  {| function_counts :=
       <[fc := default 0 (function_counts c !! fc) + 1]> (function_counts c);
     unit_ids := unit_ids c ∪ {[Packet.unit_id packet]};
     write_operations :=
       if in_list fc [1; 2; 3; 4] then write_operations c
       else if in_list fc [5; 6; 15; 16] then write_operations c + 1
            else write_operations c;
     read_operations :=
       if in_list fc [1; 2; 3; 4] then read_operations c + 1
       else read_operations c |}.

(** The loop itself, over the stored packets. *)
Definition count_packets (packets : list Packet.t) : Counters :=
  fold_left count_packet packets no_counters.

(** [get_statistics]. [list(unit_ids)] enumerates the set in an order Python
    leaves to the implementation; [elements] fixes one. *)
Definition get_statistics (self : ModbusParser) : gmap string StatValue :=
  match packets self with
  | [] => {[ "transaction_count" := IntValue 0 ]}
  | _ =>
      let c := count_packets (packets self) in
      <["transaction_count" := IntValue (transaction_count self)]>
      (<["function_codes" := CountsValue (function_counts c)]>
      (<["unit_ids" := ListValue (elements (unit_ids c))]>
      (<["read_operations" := IntValue (read_operations c)]>
      {[ "write_operations" := IntValue (write_operations c) ]})))
  end.

(** ** Reading the specification *)

(** The least number of payload bytes [_parse_function] decodes a function
    family from: the thresholds of its guards, below which it returns an
    error dictionary. It is not the size of a complete message: the data
    bytes a read response announces in its byte count are no part of it. *)
Definition required_len (function_code : Z) : Z :=
  if in_list function_code [1; 2; 3; 4] then 1
  else if in_list function_code [5; 6] then 4
  else if in_list function_code [15; 16] then 4
  else if function_code =? 43 then 6
  else 0.

(** The bits of one byte, least significant first, as Python integers. *)
Definition bits_lsb_first (x : byte) : list Z :=
  map (fun k => Z.b2z (Z.testbit (byte_to_Z x) k)) [0; 1; 2; 3; 4; 5; 6; 7].

(** The bit vector of a run of bytes. *)
Definition unpack_bits (b : list byte) : list Z :=
  flat_map bits_lsb_first b.

(** [sum(d.values())] for a dictionary of counts. *)
Definition sum_counts (d : gmap Z Z) : Z :=
  map_fold (fun _ v acc => v + acc) 0 d.

(** The objects of a device identification laid out one after the other in
    the payload from [off] up to [off']: one byte of id, one byte of length,
    then that many bytes of text, all of them inside the payload. *)
Inductive objects_at (payload : list byte)
  : Z -> list DeviceObject -> Z -> Prop :=
| objects_at_nil off :
    objects_at payload off [] off
| objects_at_cons off o os off' :
    0 <= off ->
    off + 2 + len (value o) <= len payload ->
    getitem payload off = Ok (id o) ->
    getitem payload (off + 1) = Ok (len (value o)) ->
    value o =
      decode_ascii_replace (slice payload (off + 2)
                              (off + 2 + len (value o))) ->
    objects_at payload (off + 2 + len (value o)) os off' ->
    objects_at payload off (o :: os) off'.

(** No complete object starts at [off]: its two header bytes are not both
    there, or the length it declares runs over the end of the payload. *)
Definition overruns (payload : list byte) (off : Z) : Prop :=
  off + 1 >= len payload \/
  exists object_len,
    getitem payload (off + 1) = Ok object_len /\
    off + 2 + object_len > len payload.

(** The dictionary [parse_packet] builds for an accepted frame, given the
    header fields it read and the payload it decoded. *)
Definition parsed_packet_of (packet : list byte)
  (transaction_id length unit_id function_code : Z) (parsed_data : Payload)
  : Packet.t :=
  {| Packet.transaction_id := transaction_id;
     Packet.protocol_id := 0;
     Packet.length := length;
     Packet.unit_id := unit_id;
     Packet.function_code := function_code;
     Packet.function_name :=
       default ("Unknown (" +:+ pretty function_code +:+ ")")
               (FUNCTION_CODES !! function_code);
     Packet.payload := parsed_data;
     Packet.raw_data := hex packet |}.

(** The instance once [parse_packet] has counted and stored a packet. *)
Definition stored (self : ModbusParser) (parsed_packet : Packet.t)
  : ModbusParser :=
  {| transaction_count := transaction_count self + 1;
     packets := packets self ++ [parsed_packet] |}.

(** The keys of a full statistics dictionary. *)
Definition all_fields : gset string :=
  {[ "transaction_count"; "function_codes"; "unit_ids";
     "read_operations"; "write_operations" ]}.

(** The full statistics dictionary [get_statistics] builds from the
    counter and the variables of its loop. *)
Definition statistics_of (transaction_count : Z) (c : Counters)
  : gmap string StatValue :=
  <["transaction_count" := IntValue transaction_count]>
  (<["function_codes" := CountsValue (function_counts c)]>
  (<["unit_ids" := ListValue (elements (unit_ids c))]>
  (<["read_operations" := IntValue (read_operations c)]>
  {[ "write_operations" := IntValue (write_operations c) ]}))).

(** The frames of the concrete scenarios. *)
Definition scenario_A : list byte :=
  [x00; x01; x00; x00; x00; x07; x01; x03; x04; x00; x01; x00; xff].

(** Function code 3, no payload byte, length field 2. *)
Definition scenario_C : list byte :=
  [x00; x01; x00; x00; x00; x02; x01; x03].

(** The payload of a function code 43 frame: two objects announced, the
    second one cut short. *)
Definition scenario_D : list byte :=
  [x0e; x01; x01; x00; x00; x02; x00; x03; x41; x42; x43; x01; x05; x58].

(** Function code 3, a length field of 7 and nothing after the header. *)
Definition truncated_frame : list byte :=
  [x00; x01; x00; x00; x00; x07; x01; x03].

(** Function code 3, a length field of 9 (seven payload bytes) and three
    payload bytes. *)
Definition overlong_frame : list byte :=
  [x00; x02; x00; x00; x00; x09; x01; x03; x04; x00; x01].

(** Function code 1, a byte count of 2 and one data byte. *)
Definition short_coils_frame : list byte :=
  [x00; x01; x00; x00; x00; x04; x01; x01; x02; xff].

(** Protocol id 1. *)
Definition bad_protocol_frame : list byte :=
  [x00; x01; x00; x01; x00; x02; x01; x03].

(** ** The capture reader *)

Module Scapy.

(** What [load_pcap] looks at in the TCP layer of a captured packet. The
    payload is the bytes [bytes(packet[TCP].payload)] gives; a segment
    without data has the empty payload, which is false as a condition. *)
Record TCP := {
  dport : Z;
  sport : Z;
  payload : list byte
}.

(** A captured packet, by its first TCP layer if it has one. *)
Definition Packet := option TCP.

(** [packet[TCP]]: the layer, or [IndexError] when the packet has none. *)
Definition getlayer (packet : Packet) : exn TCP :=
  match packet with
  | Some layer => Ok layer
  | None => Raise "Layer [TCP] not found"
  end.

End Scapy.

(** The condition of the loop of [load_pcap]. [and] binds tighter than
    [or]: the source port is looked at whenever the left conjunction is
    false, also on a packet without a TCP layer. *)
Definition on_modbus_port (packet : Scapy.Packet) : exn bool :=
  lhs ←
    (if bool_decide (is_Some packet)
     then layer ← Scapy.getlayer packet; Ok (Scapy.dport layer =? 502)
     else Ok false);
  if (lhs : bool) then Ok true
  else layer ← Scapy.getlayer packet; Ok (Scapy.sport layer =? 502).

(** The body of the [try] of [load_pcap], given what [rdpcap] returned. *)
Definition load_pcap_body (packets : list Scapy.Packet)
  : exn (list (list byte)) :=
  for_ packets
    (fun packet modbus_packets =>
       selected ← on_modbus_port packet;
       if (selected : bool) then
         layer ← Scapy.getlayer packet;
         if negb (len (Scapy.payload layer) =? 0)
         then Ok (Next (modbus_packets ++ [Scapy.payload layer]))
         else Ok (Next modbus_packets)
       else Ok (Next modbus_packets))
    [].

(** [load_pcap]: [rdpcap] is the list of packets of the capture, or the
    exception the import or the read raised; any exception, of the loop as
    well, is logged and an empty list is returned. *)
Definition load_pcap (rdpcap : exn (list Scapy.Packet))
  : list (list byte) * list LogRecord :=
  match packets ← rdpcap; load_pcap_body packets with
  | Ok modbus_packets => (modbus_packets, [])
  | Raise e => ([], [Log ERROR ("Error loading pcap file: " +:+ e)])
  end.

(** The [--pcap] branch of the command line: the frames of the capture go
    through [parse_packet] on one fresh instance, and the statistics are
    taken at the end. *)
Definition main_pcap (rdpcap : exn (list Scapy.Packet))
  : list Packet.t * gmap string StatValue :=
  let '(packets, _) := load_pcap rdpcap in
  let '(results, modbus_parser, _) := parse_all init packets in
  (results, get_statistics modbus_parser).

(** ** The simulated server: [src/simulation/simple_modbus_server.py] *)

(** The byte of a number below 256. *)
Definition byte_of_Z (v : Z) : byte :=
  default x00 (Byte.of_N (Z.to_N v)).

(** [struct.pack('>H', v)]: two bytes, the high one first; a number that
    does not fit raises [struct.error]. *)
Definition pack_H (v : Z) : exn (list byte) :=
  if (0 <=? v) && (v <=? 65535)
  then Ok [byte_of_Z (v / 256); byte_of_Z (v mod 256)]
  else Raise "'H' format requires 0 <= number <= 65535".

(** [struct.unpack('>H', b)[0]]: the buffer has to be of two bytes. *)
Definition unpack_H (b : list byte) : exn Z :=
  match b with
  | [hi; lo] => Ok (256 * byte_to_Z hi + byte_to_Z lo)
  | _ => Raise "unpack requires a buffer of 2 bytes"
  end.

(** [response.append(v)] on a [bytearray]: a number that is not a byte
    raises [ValueError]. *)
Definition bytearray_append (response : list byte) (v : Z)
  : exn (list byte) :=
  if (0 <=? v) && (v <? 256)
  then Ok (response ++ [byte_of_Z v])
  else Raise "byte must be in range(0, 256)".

(** [response.extend(b)] with the bytes [struct.pack] made. *)
Definition bytearray_extend (response b : list byte) : list byte :=
  response ++ b.

Module SimpleModbusServer.

(** The two dictionaries of simulated data of an instance. *)
Record t := {
  holding_registers : gmap Z Z;
  coils : gmap Z bool
}.

(** The list of register values of a read holding registers response. *)
Definition response_data (self : t) (start_addr quantity : Z)
  : exn (list Z) :=
  for_ (range 0 quantity)
    (fun i response_data =>
       let addr := start_addr + i in
       let value := default 0 (holding_registers self !! addr) in
       Ok (Next (response_data ++ [value])))
    [].

(** The list of bytes of a read coils response. *)
Definition coil_bytes (self : t) (start_addr quantity byte_count : Z)
  : exn (list Z) :=
  for_ (range 0 byte_count)
    (fun i coil_bytes =>
       byte_val ←
         for_ (range 0 8)
           (fun j byte_val =>
              let bit_addr := start_addr + i * 8 + j in
              if bit_addr <? start_addr + quantity
              then if default false (coils self !! bit_addr)
                   then Ok (Next (Z.lor byte_val (Z.shiftl 1 j)))
                   else Ok (Next byte_val)
              else Ok (Next byte_val))
           0;
       Ok (Next (coil_bytes ++ [byte_val])))
    [].

(** The body of the [try] of [_handle_modbus_request]: the response, or
    [None] where the function falls through to its last [return None]. *)
Definition handle_modbus_request_body (self : t) (data : list byte)
  : exn (option (list byte)) :=
  transaction_id ← unpack_H (slice data 0 2);
  protocol_id ← unpack_H (slice data 2 4);
  length ← unpack_H (slice data 4 6);
  unit_id ← getitem data 6;
  function_code ← getitem data 7;
  if function_code =? 3 then
    if len data >=? 12 then
      start_addr ← unpack_H (slice data 8 10);
      quantity ← unpack_H (slice data 10 12);
      response_data ← response_data self start_addr quantity;
      let response := [] in
      b ← pack_H transaction_id;
      let response := bytearray_extend response b in
      b ← pack_H 0;
      let response := bytearray_extend response b in
      b ← pack_H (3 + len response_data * 2);
      let response := bytearray_extend response b in
      response ← bytearray_append response unit_id;
      response ← bytearray_append response function_code;
      response ← bytearray_append response (len response_data * 2);
      response ←
        for_ response_data
          (fun value response =>
             b ← pack_H value;
             Ok (Next (bytearray_extend response b)))
          response;
      Ok (Some response)
    else Ok None
  else if function_code =? 1 then
    if len data >=? 12 then
      start_addr ← unpack_H (slice data 8 10);
      quantity ← unpack_H (slice data 10 12);
      let byte_count := (quantity + 7) / 8 in
      coil_bytes ← coil_bytes self start_addr quantity byte_count;
      let response := [] in
      b ← pack_H transaction_id;
      let response := bytearray_extend response b in
      b ← pack_H 0;
      let response := bytearray_extend response b in
      b ← pack_H (3 + byte_count);
      let response := bytearray_extend response b in
      response ← bytearray_append response unit_id;
      response ← bytearray_append response function_code;
      response ← bytearray_append response byte_count;
      response ←
        for_ coil_bytes
          (fun byte_val response =>
             response ← bytearray_append response byte_val;
             Ok (Next response))
          response;
      Ok (Some response)
    else Ok None
  else Ok None.

(** [_handle_modbus_request], by what it returns: [None] for a request of
    less than 8 bytes, for an unsupported request and for any exception.
    The records it logs are left out. *)
Definition _handle_modbus_request (self : t) (data : list byte)
  : option (list byte) :=
  if len data <? 8 then None
  else
    match handle_modbus_request_body self data with
    | Ok response => response
    | Raise _ => None
    end.

End SimpleModbusServer.

(** The state of the coil a read coils request asks for as its bit [k]:
    off past the quantity asked and for a coil that is not in the
    dictionary. *)
Definition coil_asked (server : SimpleModbusServer.t)
  (start_addr quantity k : Z) : bool :=
  (k <? quantity)
  && default false (SimpleModbusServer.coils server !! (start_addr + k)).

(** The number whose bit [j] is [c j], for [j] from 0 to 7. *)
Definition byte_of_bits (c : Z -> bool) : Z :=
  fold_left (fun byte_val j =>
               if c j then Z.lor byte_val (Z.shiftl 1 j) else byte_val)
    [0; 1; 2; 3; 4; 5; 6; 7] 0.

(** ** Reading the rest of the decoder *)

(** The 16-bit number two bytes make, the high one first. *)
Definition be16 (hi lo : byte) : Z := 256 * byte_to_Z hi + byte_to_Z lo.

(** The numbers a run of bytes makes, two bytes each; a last byte without
    a partner is left out. *)
Fixpoint words (b : list byte) : list Z :=
  match b with
  | hi :: lo :: b' => be16 hi lo :: words b'
  | _ => []
  end.

(** The function codes [get_statistics] counts as reads, and as writes. *)
Definition is_read (p : Packet.t) : bool :=
  in_list (Packet.function_code p) [1; 2; 3; 4].

Definition is_write (p : Packet.t) : bool :=
  in_list (Packet.function_code p) [5; 6; 15; 16].

(** The segments [load_pcap] keeps when no packet stops it. *)
Definition modbus_segment (layer : Scapy.TCP) : bool :=
  ((Scapy.dport layer =? 502) || (Scapy.sport layer =? 502))
  && negb (len (Scapy.payload layer) =? 0).

(** One read of the decoder in a goal [body = Ok p -> _]: it gives a value,
    or the whole body raises. *)
Ltac read_or_raise payload i :=
  destruct (getitem payload i); cbn [mbind exn_bind]; [|intros [=]].

(** ** Reading the specification: consumed bytes and written records *)

(** The [payload_byte_length] of the specification: the number of payload
    bytes the decoder reads for the function family, and the raw remainder
    for an error result and for an unknown code. The bit reads go through
    the indices below [min(1 + byte_count, len(payload))], the register
    reads through the first byte and two bytes per value, the writes
    through four bytes, and device identification up to the [offset] its
    loop ends with. *)
Definition payload_byte_length (function_code : Z) (payload : list byte)
  : Z :=
  if len payload <? required_len function_code then len payload
  else if in_list function_code [1; 2] then
    match getitem payload 0 with
    | Ok byte_count => Z.min (1 + byte_count) (len payload)
    | Raise _ => len payload
    end
  else if in_list function_code [3; 4] then
    match byte_count ← getitem payload 0;
          read_registers payload byte_count with
    | Ok values => 1 + 2 * len values
    | Raise _ => len payload
    end
  else if in_list function_code [5; 6] then 4
  else if in_list function_code [15; 16] then 4
  else if function_code =? 43 then
    match object_count ← getitem payload 5;
          read_objects payload object_count 6 [] with
    | Ok (offset, _) => offset
    | Raise _ => len payload
    end
  else len payload.

(** The payload bytes a list of decoded objects takes: two header bytes and
    the text of each. *)
Definition objects_size (objects : list DeviceObject) : Z :=
  foldr (fun o n => 2 + len (value o) + n) 0 objects.

(** The records the handlers write: [basicConfig] sets the level [INFO],
    under which the debug calls are dropped. *)
Definition emitted (logged : list LogRecord) : list LogRecord :=
  List.filter
    (fun record =>
       match record with
       | LogParsed _ | Log DEBUG _ => false
       | Log _ _ => true
       end)
    logged.

(** Function code 16, a length field of 11 and the nine payload bytes of a
    request: address 100, quantity 2, a byte count and two registers. *)
Definition write_multiple_request_frame : list byte :=
  [x00; x03; x00; x00; x00; x0b; x01; x10;
   x00; x64; x00; x02; x04; x00; x0a; x00; x0b].

(** Function code 3, a byte count of 4 and two data bytes; the length field
    is in step with the frame. *)
Definition short_registers_frame : list byte :=
  [x00; x01; x00; x00; x00; x05; x01; x03; x04; x00; x01].

(** ** Python values: basic facts *)

Lemma len_nonneg {A} (l : list A) : 0 <= len l.
Proof. unfold len. lia. Qed.

Lemma len_app {A} (l k : list A) : len (l ++ k) = len l + len k.
Proof. unfold len. rewrite length_app. lia. Qed.

Lemma byte_to_Z_bounds (b : byte) : 0 <= byte_to_Z b < 256.
Proof.
  unfold byte_to_Z. pose proof (Byte.to_N_bounded b). lia.
Qed.

Lemma getitem_lookup (b : list byte) (i : Z) (x : byte) :
  0 <= i -> b !! Z.to_nat i = Some x -> getitem b i = Ok (byte_to_Z x).
Proof.
  intros Hi Hx. unfold getitem.
  apply lookup_lt_Some in Hx as Hlt.
  destruct (Z.ltb_spec i 0); [lia|].
  destruct (Z.leb_spec 0 i); [|lia].
  destruct (Z.ltb_spec i (len b)); [|unfold len in *; lia].
  simpl. now rewrite Hx.
Qed.

Lemma getitem_ok (b : list byte) (i : Z) :
  0 <= i < len b ->
  exists x, b !! Z.to_nat i = Some x /\ getitem b i = Ok (byte_to_Z x).
Proof.
  intros Hi. destruct (lookup_lt_is_Some_2 b (Z.to_nat i)) as [x Hx].
  { unfold len in Hi. lia. }
  exists x. split; [done|]. apply getitem_lookup; [lia|done].
Qed.

Lemma getitem_bounds (b : list byte) (i v : Z) :
  getitem b i = Ok v -> 0 <= v < 256.
Proof.
  unfold getitem.
  destruct (_ && _); [|discriminate].
  destruct (b !! _); [|discriminate].
  intros [= <-]. apply byte_to_Z_bounds.
Qed.

Lemma range_length (a b : Z) : length (range a b) = Z.to_nat (b - a).
Proof.
  unfold range, range_step. rewrite length_map, length_seq.
  f_equal. rewrite Z.div_1_r. lia.
Qed.

Lemma range_lookup (a b : Z) (k : nat) (i : Z) :
  range a b !! k = Some i -> i = a + Z.of_nat k /\ a <= i < b.
Proof.
  intros H. apply lookup_lt_Some in H as Hlt. rewrite range_length in Hlt.
  unfold range, range_step in H. rewrite list_lookup_fmap in H.
  destruct (seq _ _ !! k) as [j|] eqn:Hj; [|discriminate].
  apply lookup_seq in Hj as [-> _]. simpl in H. injection H as <-. lia.
Qed.

Lemma clamp_id {A} (l : list A) (i : Z) : 0 <= i <= len l -> clamp l i = i.
Proof.
  intros Hi. unfold clamp. destruct (Z.ltb_spec i 0); lia.
Qed.

Lemma slice_take_drop {A} (l : list A) (a b : Z) :
  0 <= a <= len l -> 0 <= b <= len l ->
  slice l a b = take (Z.to_nat (b - a)) (drop (Z.to_nat a) l).
Proof.
  intros Ha Hb. unfold slice. now rewrite !clamp_id.
Qed.

Lemma slice_length {A} (l : list A) (a b : Z) :
  0 <= a <= b -> b <= len l -> len (slice l a b) = b - a.
Proof.
  intros Ha Hb. rewrite slice_take_drop by lia.
  unfold len in *. rewrite length_take, length_drop. lia.
Qed.

(** The indices of [range(a, b)] and the bytes of the slice [l[a:b]] go
    together. *)
Lemma range_slice (l : list byte) (a b : Z) :
  0 <= a -> 0 <= b <= len l ->
  Forall2 (fun i x => a <= i < b /\ getitem l i = Ok (byte_to_Z x))
          (range a b) (slice l a b).
Proof.
  intros Ha Hb.
  destruct (Z.le_gt_cases a b) as [Hab|Hab].
  - rewrite slice_take_drop by lia.
    apply Forall2_same_length_lookup_2.
    + rewrite range_length, length_take, length_drop.
      unfold len in Hb. lia.
    + intros k i x Hi Hx. apply range_lookup in Hi as [-> Hi].
      split; [done|]. apply getitem_lookup; [lia|].
      apply lookup_take_Some in Hx as [Hx _]. rewrite lookup_drop in Hx.
      rewrite <- Hx. f_equal. lia.
  - assert (range a b = []) as ->.
    { apply length_zero_iff_nil. rewrite range_length. lia. }
    assert (slice l a b = []) as ->; [|constructor].
    unfold slice. replace (Z.to_nat _) with 0%nat; [done|].
    unfold clamp.
    destruct (Z.ltb_spec b 0), (Z.ltb_spec a 0);
      pose proof (len_nonneg l); lia.
Qed.

(** ** Loops *)

(** A loop whose body only ever appends [f x] for the element [y] that goes
    with the index [x]. *)
Lemma for__append {A B C} (R : A -> B -> Prop) (f : B -> list C)
  (body : A -> list C -> exn (flow (list C))) (xs : list A) (ys : list B) :
  (forall x y s, R x y -> body x s = Ok (Next (s ++ f y))) ->
  Forall2 R xs ys ->
  forall s, for_ xs body s = Ok (s ++ flat_map f ys).
Proof.
  intros Hbody HR. induction HR as [|x y xs ys Hxy _ IH]; intros s; simpl.
  - now rewrite app_nil_r.
  - rewrite (Hbody _ _ _ Hxy), IH. now rewrite <- app_assoc.
Qed.

Lemma bit_value (x k : Z) :
  0 <= k -> Z.land (Z.shiftr x k) 1 = Z.b2z (Z.testbit x k).
Proof.
  intros Hk. change 1 with (Z.ones 1). rewrite Z.land_ones by lia.
  rewrite <- Z.bit0_mod, Z.shiftr_spec by lia. reflexivity.
Qed.

(** A loop whose body never raises on the elements it is run on. *)
Lemma for__total {A S} (P : A -> Prop)
  (body : A -> S -> exn (flow S)) (xs : list A) :
  (forall x s, P x -> exists f, body x s = Ok f) ->
  Forall P xs ->
  forall s, exists s', for_ xs body s = Ok s'.
Proof.
  intros Hbody HP. induction HP as [|x xs Hx _ IH]; intros s; simpl.
  - eauto.
  - destruct (Hbody x s Hx) as [[s'|s'] ->]; eauto.
Qed.

Lemma unpack_bits_length (b : list byte) :
  len (unpack_bits b) = 8 * len b.
Proof.
  unfold unpack_bits, len. induction b as [|x b IH]; simpl; [done|].
  lia.
Qed.

(** *** Function codes 1 and 2 *)

Lemma read_bits_spec (payload : list byte) (byte_count : Z) :
  0 <= byte_count -> 1 <= len payload ->
  read_bits payload byte_count =
    Ok (unpack_bits
          (slice payload 1 (Z.min (1 + byte_count) (len payload)))).
Proof.
  intros Hbc Hlen. unfold read_bits, unpack_bits.
  set (m := Z.min (1 + byte_count) (len payload)).
  change (Ok (flat_map bits_lsb_first (slice payload 1 m)))
    with (Ok (A := list Z) ([] ++ flat_map bits_lsb_first (slice payload 1 m))).
  apply for__append
    with (R := fun i x => 1 <= i < m /\ getitem payload i = Ok (byte_to_Z x));
    [|apply range_slice; lia].
  intros i x s [Hi Hget].
  change (range 0 8) with [0; 1; 2; 3; 4; 5; 6; 7].
  cbn [for_].
  rewrite Hget. cbn [mbind exn_bind].
  repeat rewrite (proj2 (Z.ltb_lt _ _)) by lia.
  rewrite !bit_value by lia. unfold bits_lsb_first. cbn [map].
  now rewrite <- !app_assoc.
Qed.

(** *** Function codes 3 and 4 *)

Lemma range_step_nonneg (a b step : Z) :
  0 <= a -> 0 <= step -> Forall (fun i => 0 <= i) (range_step a b step).
Proof.
  intros Ha Hs. unfold range_step. apply Forall_fmap, Forall_forall.
  intros k _. simpl. lia.
Qed.

Lemma read_registers_total (payload : list byte) (byte_count : Z) :
  exists values, read_registers payload byte_count = Ok values.
Proof.
  unfold read_registers.
  apply for__total with (P := fun i => 0 <= i);
    [|apply range_step_nonneg; lia].
  intros i s Hi. destruct (Z.ltb_spec (i + 1) (len payload)); [|eauto].
  destruct (getitem_ok payload i) as (hi & _ & ->); [lia|].
  destruct (getitem_ok payload (i + 1)) as (lo & _ & ->); [lia|].
  cbn [mbind exn_bind]. eauto.
Qed.

(** *** Function code 43 *)

Lemma decode_ascii_replace_length (b : list byte) :
  len (decode_ascii_replace b) = len b.
Proof. unfold decode_ascii_replace, len. now rewrite length_map. Qed.

(** The object loop, from any offset inside the payload: it never raises,
    it keeps the objects it had, the ones it adds are laid out from
    [offset] on, and it stops short of [object_count] only in front of an
    object that overruns the payload. *)
Lemma read_objects_spec (payload : list byte) (object_count : Z) :
  forall offset objects,
    0 <= offset <= len payload ->
    exists offset' more end_off,
      read_objects payload object_count offset objects
        = Ok (offset', objects ++ more) /\
      objects_at payload offset more end_off /\
      offset <= end_off <= len payload /\
      len more <= Z.max 0 object_count /\
      (len more = Z.max 0 object_count \/ overruns payload end_off).
Proof.
  unfold read_objects.
  assert (len (range 0 object_count) = Z.max 0 object_count) as <-.
  { unfold len. rewrite range_length. lia. }
  induction (range 0 object_count) as [|x xs IH]; intros offset objects Hoff.
  - exists offset, [], offset. rewrite app_nil_r.
    split_and!;
      [done|once constructor|unfold len in *; cbn [length]; lia..|left; reflexivity].
  - cbn [for_]. rewrite Z.geb_leb.
    destruct (Z.leb_spec (len payload) (offset + 1)) as [Hshort|Hhdr].
    { exists offset, [], offset. rewrite app_nil_r.
      split_and!; [done|once constructor|unfold len in *; cbn [length]; lia..|].
      right. left. lia. }
    destruct (getitem_ok payload offset) as (xi & _ & Hid); [lia|].
    destruct (getitem_ok payload (offset + 1)) as (xl & _ & Hlen); [lia|].
    rewrite Hid, Hlen. cbn [mbind exn_bind]. rewrite Z.gtb_ltb.
    pose proof (byte_to_Z_bounds xl) as Hxl.
    destruct (Z.ltb_spec (len payload) (offset + 2 + byte_to_Z xl))
      as [Hover|Hfit].
    { exists (offset + 2), [], offset. rewrite app_nil_r.
      split_and!; [done|once constructor|unfold len in *; cbn [length]; lia..|].
      right. right. exists (byte_to_Z xl). split; [done|lia]. }
    set (o := {| id := byte_to_Z xi;
                 value := decode_ascii_replace
                            (slice payload (offset + 2)
                               (offset + 2 + byte_to_Z xl)) |}).
    assert (len (value o) = byte_to_Z xl) as Hvo.
    { unfold o. cbn [value].
      rewrite decode_ascii_replace_length, slice_length; lia. }
    destruct (IH (offset + 2 + byte_to_Z xl) (objects ++ [o]))
      as (offset' & more & end_off & -> & Hat & Hend & Hle & Hstop); [lia|].
    exists offset', (o :: more), end_off.
    rewrite <- app_assoc. cbn [app].
    replace (len (o :: more)) with (1 + len more)
      by (unfold len; cbn [length]; lia).
    replace (len (x :: xs)) with (1 + len xs) in *
      by (unfold len; cbn [length]; lia).
    split_and!; [done| |lia..|].
    + constructor; rewrite ?Hvo; try done; lia.
    + destruct Hstop as [Hall|Hover]; [left; lia|now right].
Qed.

(** ** The decoder never raises *)

Lemma getitem_head (x : byte) (rest : list byte) :
  getitem (x :: rest) 0 = Ok (byte_to_Z x).
Proof. now apply getitem_lookup. Qed.

(** The body of [_parse_function] returns a dictionary on every input: no
    index it reads is outside the payload. *)
Lemma parse_function_body_total (function_code : Z) (payload : list byte) :
  exists parsed_data,
    parse_function_body function_code payload = Ok parsed_data.
Proof.
  unfold parse_function_body.
  destruct (in_list function_code [1; 2; 3; 4]).
  { destruct (Z.ltb_spec (len payload) 1); [eauto|].
    destruct (getitem_ok payload 0) as (x & _ & ->); [lia|].
    cbn [mbind exn_bind]. pose proof (byte_to_Z_bounds x).
    destruct (in_list function_code [1; 2]).
    - rewrite read_bits_spec by lia. cbn [mbind exn_bind]. eauto.
    - destruct (in_list function_code [3; 4]); [|cbn; eauto].
      destruct (read_registers_total payload (byte_to_Z x)) as [v ->].
      cbn [mbind exn_bind]. eauto. }
  destruct (in_list function_code [5; 6]).
  { destruct (Z.ltb_spec (len payload) 4); [eauto|].
    destruct (getitem_ok payload 0) as (? & _ & ->); [lia|].
    destruct (getitem_ok payload 1) as (? & _ & ->); [lia|].
    destruct (getitem_ok payload 2) as (? & _ & ->); [lia|].
    destruct (getitem_ok payload 3) as (? & _ & ->); [lia|].
    cbn [mbind exn_bind]. eauto. }
  destruct (in_list function_code [15; 16]).
  { destruct (Z.ltb_spec (len payload) 4); [eauto|].
    destruct (getitem_ok payload 0) as (? & _ & ->); [lia|].
    destruct (getitem_ok payload 1) as (? & _ & ->); [lia|].
    destruct (getitem_ok payload 2) as (? & _ & ->); [lia|].
    destruct (getitem_ok payload 3) as (? & _ & ->); [lia|].
    cbn [mbind exn_bind]. eauto. }
  destruct (function_code =? 43); [|eauto].
  destruct (Z.ltb_spec (len payload) 6); [eauto|].
  destruct (getitem_ok payload 0) as (? & _ & ->); [lia|].
  destruct (getitem_ok payload 1) as (? & _ & ->); [lia|].
  destruct (getitem_ok payload 2) as (? & _ & ->); [lia|].
  destruct (getitem_ok payload 3) as (? & _ & ->); [lia|].
  destruct (getitem_ok payload 4) as (? & _ & ->); [lia|].
  destruct (getitem_ok payload 5) as (n & _ & ->); [lia|].
  cbn [mbind exn_bind].
  destruct (read_objects_spec payload (byte_to_Z n) 6 [])
    as (? & ? & ? & -> & _); [lia|].
  cbn [mbind exn_bind]. eauto.
Qed.

(** So the handler of [_parse_function] is never entered and nothing is
    logged. *)
Lemma _parse_function_quiet (function_code : Z) (payload : list byte) :
  exists parsed_data,
    parse_function_body function_code payload = Ok parsed_data /\
    _parse_function function_code payload = (parsed_data, []).
Proof.
  destruct (parse_function_body_total function_code payload) as [p Hp].
  exists p. split; [done|]. unfold _parse_function. now rewrite Hp.
Qed.

(** A payload shorter than its family asks for decodes to an error
    dictionary. *)
Lemma parse_function_body_short (function_code : Z) (payload : list byte) :
  len payload < required_len function_code ->
  exists msg,
    parse_function_body function_code payload = Ok (ErrorPayload msg).
Proof.
  unfold required_len, parse_function_body. intros Hshort.
  pose proof (len_nonneg payload).
  destruct (in_list function_code [1; 2; 3; 4]).
  { rewrite (proj2 (Z.ltb_lt _ _)) by lia. eauto. }
  destruct (in_list function_code [5; 6]).
  { rewrite (proj2 (Z.ltb_lt _ _)) by lia. eauto. }
  destruct (in_list function_code [15; 16]).
  { rewrite (proj2 (Z.ltb_lt _ _)) by lia. eauto. }
  destruct (function_code =? 43); [|lia].
  rewrite (proj2 (Z.ltb_lt _ _)) by lia. eauto.
Qed.

(** The bit-oriented reads, on a payload that has its first byte. *)
Lemma parse_function_body_bits (function_code : Z) (x : byte)
  (rest : list byte) :
  function_code = 1 \/ function_code = 2 ->
  parse_function_body function_code (x :: rest) =
    Ok (ReadPayload (byte_to_Z x)
          (unpack_bits (take (Z.to_nat (byte_to_Z x)) rest))).
Proof.
  intros Hfc. unfold parse_function_body.
  assert (in_list function_code [1; 2; 3; 4] = true) as ->
    by (destruct Hfc as [-> | ->]; reflexivity).
  assert (in_list function_code [1; 2] = true) as ->
    by (destruct Hfc as [-> | ->]; reflexivity).
  assert (len (x :: rest) = 1 + len rest) as Hlen
    by (unfold len; cbn [length]; lia).
  pose proof (len_nonneg rest). pose proof (byte_to_Z_bounds x).
  rewrite (proj2 (Z.ltb_ge _ _)) by lia.
  rewrite getitem_head. cbn [mbind exn_bind].
  rewrite read_bits_spec by lia. cbn [mbind exn_bind].
  do 3 f_equal. rewrite slice_take_drop by lia.
  change (Z.to_nat 1) with 1%nat. cbn [drop]. rewrite drop_0, Hlen.
  destruct (Z.le_gt_cases (byte_to_Z x) (len rest)).
  - f_equal. lia.
  - rewrite !take_ge; [done|unfold len in *; lia..].
Qed.

(** ** One call of [parse_packet] *)

Lemma read_header_ok (packet : list byte) :
  8 <= len packet ->
  exists transaction_id protocol_id length unit_id function_code,
    read_header packet =
      Ok (transaction_id, protocol_id, length, unit_id, function_code).
Proof.
  intros Hlen. unfold read_header.
  destruct (getitem_ok packet 0) as (? & _ & ->); [lia|].
  destruct (getitem_ok packet 1) as (? & _ & ->); [lia|].
  destruct (getitem_ok packet 2) as (? & _ & ->); [lia|].
  destruct (getitem_ok packet 3) as (? & _ & ->); [lia|].
  destruct (getitem_ok packet 4) as (? & _ & ->); [lia|].
  destruct (getitem_ok packet 5) as (? & _ & ->); [lia|].
  destruct (getitem_ok packet 6) as (? & _ & ->); [lia|].
  destruct (getitem_ok packet 7) as (? & _ & ->); [lia|].
  cbn [mbind exn_bind]. eauto 6.
Qed.

(** The length field is an unsigned number. *)
Lemma read_header_length_nonneg (packet : list byte)
  (transaction_id protocol_id length unit_id function_code : Z) :
  read_header packet =
    Ok (transaction_id, protocol_id, length, unit_id, function_code) ->
  0 <= length.
Proof.
  unfold read_header.
  destruct (getitem packet 0) eqn:?; cbn [mbind exn_bind]; [|intros [=]].
  destruct (getitem packet 1) eqn:?; cbn [mbind exn_bind]; [|intros [=]].
  destruct (getitem packet 2) eqn:?; cbn [mbind exn_bind]; [|intros [=]].
  destruct (getitem packet 3) eqn:?; cbn [mbind exn_bind]; [|intros [=]].
  destruct (getitem packet 4) eqn:?; cbn [mbind exn_bind]; [|intros [=]].
  destruct (getitem packet 5) eqn:?; cbn [mbind exn_bind]; [|intros [=]].
  destruct (getitem packet 6) eqn:?; cbn [mbind exn_bind]; [|intros [=]].
  destruct (getitem packet 7) eqn:?; cbn [mbind exn_bind]; [|intros [=]].
  intros Heq. inversion Heq. subst. clear Heq.
  repeat match goal with
         | H : getitem _ _ = Ok _ |- _ => apply getitem_bounds in H
         end.
  apply Z.lor_nonneg. split; [apply Z.shiftl_nonneg|]; lia.
Qed.

(** A frame that passes both checks is decoded, counted and stored, and the
    only record logged is the debug record of the packet. *)
Lemma parse_packet_accepted (self : ModbusParser) (packet : list byte)
  (transaction_id length unit_id function_code : Z) :
  8 <= len packet ->
  read_header packet =
    Ok (transaction_id, 0, length, unit_id, function_code) ->
  exists parsed_data,
    parse_function_body function_code (payload_of packet length)
      = Ok parsed_data /\
    parse_packet self packet =
      (Some (parsed_packet_of packet transaction_id length unit_id
               function_code parsed_data),
       stored self (parsed_packet_of packet transaction_id length unit_id
                      function_code parsed_data),
       [LogParsed (parsed_packet_of packet transaction_id length unit_id
                     function_code parsed_data)]).
Proof.
  intros Hlen Hhdr.
  destruct (_parse_function_quiet function_code (payload_of packet length))
    as (parsed_data & Hbody & Hfun).
  exists parsed_data. split; [done|]. unfold parse_packet.
  destruct (Z.eqb_spec (len packet) 0); [lia|].
  destruct (Z.ltb_spec (len packet) 8); [lia|].
  cbn [orb]. rewrite Hhdr. cbn [Z.eqb negb]. rewrite Hfun. reflexivity.
Qed.

(** A frame with another protocol id is turned away with a warning. *)
Lemma parse_packet_rejected (self : ModbusParser) (packet : list byte)
  (transaction_id protocol_id length unit_id function_code : Z) :
  8 <= len packet ->
  read_header packet =
    Ok (transaction_id, protocol_id, length, unit_id, function_code) ->
  protocol_id <> 0 ->
  parse_packet self packet =
    (None, self,
     [Log WARNING ("Invalid MODBUS protocol ID: " +:+ pretty protocol_id)]).
Proof.
  intros Hlen Hhdr Hpid. unfold parse_packet.
  destruct (Z.eqb_spec (len packet) 0); [lia|].
  destruct (Z.ltb_spec (len packet) 8); [lia|].
  cbn [orb]. rewrite Hhdr.
  destruct (Z.eqb_spec protocol_id 0); [lia|]. reflexivity.
Qed.

(** Every call either leaves the instance alone or stores one packet. *)
Lemma parse_packet_cases (self : ModbusParser) (packet : list byte) :
  (exists logged, parse_packet self packet = (None, self, logged)) \/
  (exists parsed_packet logged,
     parse_packet self packet =
       (Some parsed_packet, stored self parsed_packet, logged)).
Proof.
  unfold parse_packet.
  destruct (_ || _); [eauto|].
  destruct (read_header packet) as [[[[[? ?] ?] ?] ?]|]; [|eauto].
  destruct (negb _); [eauto|].
  destruct (_parse_function _ _). right. eauto.
Qed.

(** What a call returns and logs does not depend on the instance. *)
Lemma parse_packet_independent (self self' : ModbusParser)
  (packet : list byte) :
  (parse_packet self packet).1.1 = (parse_packet self' packet).1.1 /\
  (parse_packet self packet).2 = (parse_packet self' packet).2.
Proof.
  unfold parse_packet.
  destruct (_ || _); [done|].
  destruct (read_header packet) as [[[[[? ?] ?] ?] ?]|]; [|done].
  destruct (negb _); [done|].
  now destruct (_parse_function _ _).
Qed.

(** The payload slice, by the three shapes a frame can have. *)
Lemma payload_of_complete (packet : list byte) (length : Z) :
  2 <= length -> 8 + length - 2 <= len packet ->
  len (payload_of packet length) = length - 2.
Proof.
  intros Hl Hfit. unfold payload_of.
  rewrite (proj2 (Z.leb_le _ _)) by lia. rewrite slice_length; lia.
Qed.

Lemma payload_of_no_payload (packet : list byte) (length : Z) :
  0 <= length < 2 -> 8 <= len packet -> payload_of packet length = [].
Proof.
  intros Hl Hlen. unfold payload_of.
  rewrite (proj2 (Z.leb_le _ _)) by lia.
  rewrite slice_take_drop by lia.
  replace (Z.to_nat _) with 0%nat by lia. reflexivity.
Qed.

Lemma payload_of_truncated (packet : list byte) (length : Z) :
  8 <= len packet -> 8 + length - 2 > len packet ->
  payload_of packet length = drop 8 packet /\
  len (payload_of packet length) = len packet - 8.
Proof.
  intros Hlen Hover. unfold payload_of.
  rewrite (proj2 (Z.leb_gt _ _)) by lia.
  unfold slice_from. rewrite clamp_id by lia.
  split; [reflexivity|]. unfold len in *.
  change (Z.to_nat 8) with 8%nat. rewrite length_drop. lia.
Qed.

(** ** Counting *)

Lemma count_packets_snoc (l : list Packet.t) (p : Packet.t) :
  count_packets (l ++ [p]) = count_packet (count_packets l) p.
Proof.
  unfold count_packets. rewrite fold_left_app. cbn [fold_left]. reflexivity.
Qed.

(** Bumping one count adds one to the total. *)
Lemma sum_counts_bump (d : gmap Z Z) (k : Z) :
  sum_counts (<[k := default 0 (d !! k) + 1]> d) = sum_counts d + 1.
Proof.
  unfold sum_counts.
  assert (forall (m : gmap Z Z) j1 j2 z1 z2 y,
             j1 ≠ j2 -> m !! j1 = Some z1 -> m !! j2 = Some z2 ->
             z1 + (z2 + y) = z2 + (z1 + y)) as Hcomm by (intros; lia).
  destruct (d !! k) as [v|] eqn:Hk; cbn [from_option Datatypes.id].
  - rewrite <- insert_delete_eq.
    rewrite map_fold_insert_L;
      [|apply Hcomm|apply lookup_delete_eq].
    rewrite (map_fold_delete_L _ 0 k v d); [lia|apply Hcomm|done].
  - rewrite map_fold_insert_L; [lia|apply Hcomm|done].
Qed.

(** The totals of the loop of [get_statistics] over any list of packets. *)
Lemma count_packets_totals (l : list Packet.t) :
  sum_counts (function_counts (count_packets l)) = len l /\
  0 <= read_operations (count_packets l) /\
  0 <= write_operations (count_packets l) /\
  read_operations (count_packets l) + write_operations (count_packets l)
    <= len l.
Proof.
  induction l as [|p l IH] using rev_ind.
  - unfold count_packets, sum_counts.
    cbn [fold_left no_counters function_counts read_operations
           write_operations].
    rewrite map_fold_empty. unfold len. cbn [length]. lia.
  - rewrite count_packets_snoc, len_app.
    destruct IH as (Hsum & Hr & Hw & Hrw).
    unfold count_packet. cbn [function_counts read_operations
                                write_operations].
    rewrite sum_counts_bump, Hsum.
    change (len [p]) with 1.
    destruct (in_list (Packet.function_code p) [1; 2; 3; 4]);
      [|destruct (in_list (Packet.function_code p) [5; 6; 15; 16])];
      lia.
Qed.

(** ** Sequences of calls *)

(** [transaction_count] and the store grow together. *)
Lemma parse_packet_count (self : ModbusParser) (packet : list byte) :
  transaction_count self = len (packets self) ->
  transaction_count (parse_packet self packet).1.2
    = len (packets (parse_packet self packet).1.2).
Proof.
  intros Hinv.
  destruct (parse_packet_cases self packet)
    as [[logged ->]|(p & logged & ->)]; cbn [fst snd]; [done|].
  unfold stored. cbn [transaction_count packets].
  rewrite len_app. change (len [p]) with 1. lia.
Qed.

Lemma parse_all_count (frames : list (list byte)) :
  forall self,
    transaction_count self = len (packets self) ->
    transaction_count (parse_all self frames).1.2
      = len (packets (parse_all self frames).1.2).
Proof.
  induction frames as [|packet frames IH]; intros self Hinv; [done|].
  cbn [parse_all].
  pose proof (parse_packet_count self packet Hinv) as Hstep.
  destruct (parse_packet self packet) as [[parsed self'] logged].
  cbn [fst snd] in Hstep. specialize (IH self' Hstep).
  destruct (parse_all self' frames) as [[results self''] logged'].
  exact IH.
Qed.

(** The two shapes of the statistics dictionary. *)
Lemma get_statistics_empty (self : ModbusParser) :
  packets self = [] ->
  get_statistics self = {[ "transaction_count" := IntValue 0 ]}.
Proof. intros H. unfold get_statistics. now rewrite H. Qed.

Lemma get_statistics_full (self : ModbusParser) :
  packets self <> [] ->
  get_statistics self =
    statistics_of (transaction_count self) (count_packets (packets self)).
Proof.
  intros H. unfold get_statistics. now destruct (packets self).
Qed.

Lemma statistics_of_lookup (tc : Z) (c : Counters) :
  statistics_of tc c !! "transaction_count" = Some (IntValue tc) /\
  statistics_of tc c !! "function_codes"
    = Some (CountsValue (function_counts c)) /\
  statistics_of tc c !! "unit_ids"
    = Some (ListValue (elements (unit_ids c))) /\
  statistics_of tc c !! "read_operations"
    = Some (IntValue (read_operations c)) /\
  statistics_of tc c !! "write_operations"
    = Some (IntValue (write_operations c)).
Proof. unfold statistics_of. split_and!; by simplify_map_eq. Qed.

Lemma statistics_of_dom (tc : Z) (c : Counters) :
  dom (statistics_of tc c) = all_fields.
Proof.
  unfold statistics_of, all_fields.
  rewrite !dom_insert_L, dom_singleton_L. set_solver.
Qed.

(** The statistics once a packet has been stored. *)
Lemma get_statistics_stored (self : ModbusParser) (p : Packet.t) :
  get_statistics (stored self p) =
    statistics_of (transaction_count self + 1)
      (count_packet (count_packets (packets self)) p).
Proof.
  rewrite get_statistics_full.
  - unfold stored. cbn [transaction_count packets].
    now rewrite count_packets_snoc.
  - unfold stored. cbn [packets]. now destruct (packets self).
Qed.

(** ** The claims *)

(** *** Frames of another protocol *)

(** C3: a frame of at least 8 bytes whose protocol id is not 0 is turned
    away with the invalid protocol id warning: [parse_packet] returns
    [None], and the instance, with its packet list and its
    [transaction_count], is as it was. *)
Theorem C3_invalid_protocol_id_is_rejected (self : ModbusParser)
  (packet : list byte)
  (transaction_id protocol_id length unit_id function_code : Z) :
  8 <= len packet ->
  read_header packet =
    Ok (transaction_id, protocol_id, length, unit_id, function_code) ->
  protocol_id <> 0 ->
  parse_packet self packet =
    (None, self,
     [Log WARNING ("Invalid MODBUS protocol ID: " +:+ pretty protocol_id)])
  /\ packets (parse_packet self packet).1.2 = packets self
  /\ transaction_count (parse_packet self packet).1.2
       = transaction_count self
  /\ get_statistics (parse_packet self packet).1.2 = get_statistics self.
Proof.
  intros Hlen Hhdr Hpid.
  rewrite (parse_packet_rejected self packet _ _ _ _ _ Hlen Hhdr Hpid).
  now split_and!.
Qed.

Lemma C3_invalid_protocol_id_is_rejected_witness :
  8 <= len bad_protocol_frame /\
  read_header bad_protocol_frame = Ok (1, 1, 2, 1, 3) /\
  1 <> 0 /\
  parse_packet init bad_protocol_frame =
    (None, init, [Log WARNING "Invalid MODBUS protocol ID: 1"]).
Proof.
  assert (8 <= len bad_protocol_frame) as H1 by (vm_compute; discriminate).
  assert (read_header bad_protocol_frame = Ok (1, 1, 2, 1, 3)) as H2
    by reflexivity.
  assert (1 <> 0) as H3 by lia.
  split_and!; try assumption.
  exact (proj1 (C3_invalid_protocol_id_is_rejected init bad_protocol_frame
                  1 1 2 1 3 H1 H2 H3)).
Defined.

(** *** Scenario A *)

(** C4: the frame [00 01 00 00 00 07 01 03 04 00 01 00 FF] gives a packet
    with transaction id 1, protocol id 0, length 7, unit id 1, function
    code 3 and the payload of byte count 4 and values 1 and 255. *)
Theorem C4_scenario_A :
  let parsed_packet :=
    {| Packet.transaction_id := 1;
       Packet.protocol_id := 0;
       Packet.length := 7;
       Packet.unit_id := 1;
       Packet.function_code := 3;
       Packet.function_name := "Read Holding Registers";
       Packet.payload := ReadPayload 4 [1; 255];
       Packet.raw_data := "000100000007010304000100ff" |} in
  parse_packet init scenario_A =
    (Some parsed_packet,
     {| transaction_count := 1; packets := [parsed_packet] |},
     [LogParsed parsed_packet]).
Proof. vm_compute. reflexivity. Qed.

(** *** Bit-oriented reads *)

(** C5, as stated, fails on a frame of function code 1 whose byte count is 2
    and which carries one data byte: the bit vector has 8 values, not
    [2 * 8]. *)
Lemma C5_short_coils_bit_vector :
  exists parsed_packet self',
    parse_packet init short_coils_frame
      = (Some parsed_packet, self', [LogParsed parsed_packet]) /\
    payload_of short_coils_frame 4 = [x02; xff] /\
    Packet.payload parsed_packet
      = ReadPayload 2 [1; 1; 1; 1; 1; 1; 1; 1] /\
    len [1; 1; 1; 1; 1; 1; 1; 1] <> 2 * 8.
Proof.
  do 2 eexists. split; [vm_compute; reflexivity|].
  split_and!; try reflexivity. vm_compute. discriminate.
Qed.

(** C5, amended: for function code 1 or 2 and a payload with a first byte
    [byte_count], the values are the bits, least significant first and as
    integers 0 and 1, of the bytes that follow, up to [byte_count] of them
    and no further than the payload goes; there are
    [8 * min(byte_count, len(payload) - 1)] of them, which is
    [byte_count * 8] when the payload holds [byte_count] bytes after the
    first, and nothing trims them to a requested quantity. *)
Theorem C5_bit_reads_unpack_available_bytes (self : ModbusParser)
  (packet : list byte) (transaction_id length unit_id function_code : Z)
  (x : byte) (rest : list byte) :
  8 <= len packet ->
  read_header packet =
    Ok (transaction_id, 0, length, unit_id, function_code) ->
  function_code = 1 \/ function_code = 2 ->
  payload_of packet length = x :: rest ->
  let byte_count := byte_to_Z x in
  let values := unpack_bits (take (Z.to_nat byte_count) rest) in
  _parse_function function_code (x :: rest)
    = (ReadPayload byte_count values, []) /\
  (parse_packet self packet).1.1
    = Some (parsed_packet_of packet transaction_id length unit_id
              function_code (ReadPayload byte_count values)) /\
  len values = 8 * Z.min byte_count (len rest) /\
  (byte_count <= len rest -> len values = byte_count * 8) /\
  Forall (fun v => v = 0 \/ v = 1) values.
Proof.
  intros Hlen Hhdr Hfc Hpayload byte_count values.
  pose proof (parse_function_body_bits function_code x rest Hfc) as Hbits.
  fold byte_count values in Hbits.
  assert (len values = 8 * Z.min byte_count (len rest)) as Hcount.
  { unfold values. rewrite unpack_bits_length. unfold len.
    rewrite length_take.
    pose proof (byte_to_Z_bounds x). unfold byte_count. lia. }
  split_and!.
  - unfold _parse_function. now rewrite Hbits.
  - destruct (parse_packet_accepted self packet _ _ _ _ Hlen Hhdr)
      as (parsed_data & Hbody & ->).
    rewrite Hpayload, Hbits in Hbody. now injection Hbody as <-.
  - exact Hcount.
  - intros Hall. rewrite Hcount. lia.
  - unfold values, unpack_bits. apply Forall_flat_map, Forall_forall.
    intros b _. unfold bits_lsb_first. apply Forall_fmap, Forall_forall.
    intros k _. cbn. destruct (Z.testbit (byte_to_Z b) k); cbn; lia.
Qed.

Lemma C5_bit_reads_unpack_available_bytes_witness :
  8 <= len short_coils_frame /\
  read_header short_coils_frame = Ok (1, 0, 4, 1, 1) /\
  (1 = 1 \/ 1 = 2) /\
  payload_of short_coils_frame 4 = [x02; xff] /\
  _parse_function 1 [x02; xff]
    = (ReadPayload 2 (unpack_bits (take (Z.to_nat 2) [xff])), []).
Proof.
  assert (8 <= len short_coils_frame) as H1 by (vm_compute; discriminate).
  assert (read_header short_coils_frame = Ok (1, 0, 4, 1, 1)) as H2
    by reflexivity.
  assert (1 = 1 \/ 1 = 2) as H3 by (left; reflexivity).
  assert (payload_of short_coils_frame 4 = [x02; xff]) as H4 by reflexivity.
  split_and!; try assumption.
  exact (proj1 (C5_bit_reads_unpack_available_bytes init short_coils_frame
                  1 4 1 1 x02 [xff] H1 H2 H3 H4)).
Defined.

(** *** The totals of the statistics *)

(** C6: after any sequence of calls on a fresh instance, the snapshot gives
    [transaction_count]; the counts of [function_codes] add up to it, and
    [read_operations + write_operations] is at most it. The snapshot of an
    instance that stored no packet has none of these three entries, no
    count to add up, and a [transaction_count] of 0. *)
Theorem C6_statistics_totals (frames : list (list byte)) :
  let self := (parse_all init frames).1.2 in
  let stats := get_statistics self in
  stats !! "transaction_count" = Some (IntValue (transaction_count self)) /\
  match stats !! "function_codes",
        stats !! "read_operations",
        stats !! "write_operations" with
  | Some (CountsValue d), Some (IntValue r), Some (IntValue w) =>
      sum_counts d = transaction_count self /\
      0 <= r /\ 0 <= w /\
      r + w <= transaction_count self
  | None, None, None =>
      packets self = [] /\ transaction_count self = 0
  | _, _, _ => False
  end.
Proof.
  intros self stats.
  assert (transaction_count self = len (packets self)) as Hinv
    by (apply parse_all_count; reflexivity).
  subst stats. destruct (packets self) as [|p l] eqn:Hpackets.
  - rewrite get_statistics_empty by done.
    change (len []) with 0 in Hinv. rewrite Hinv.
    split; [reflexivity|]. cbn. done.
  - rewrite get_statistics_full by (rewrite Hpackets; done).
    destruct (statistics_of_lookup (transaction_count self)
                (count_packets (packets self))) as (-> & -> & _ & -> & ->).
    split; [reflexivity|].
    destruct (count_packets_totals (packets self)) as (Hsum & Hr & Hw & Hrw).
    rewrite Hpackets in *. lia.
Qed.

(** The totals on a capture of four frames, two of them turned away. *)
Example statistics_of_a_capture :
  let self :=
    (parse_all init
       [scenario_A; bad_protocol_frame; [x00; x01]; scenario_C]).1.2 in
  let stats := get_statistics self in
  stats !! "transaction_count" = Some (IntValue 2) /\
  stats !! "function_codes" = Some (CountsValue {[ 3 := 2 ]}) /\
  stats !! "unit_ids" = Some (ListValue [1]) /\
  stats !! "read_operations" = Some (IntValue 2) /\
  stats !! "write_operations" = Some (IntValue 0).
Proof. split_and!; vm_compute; reflexivity. Qed.

(** *** The fields of the snapshot *)

(** C7, as stated, fails on a fresh instance: its snapshot holds
    [transaction_count] and nothing else. *)
Lemma C7_fresh_parser_statistics :
  get_statistics init = {[ "transaction_count" := IntValue 0 ]} /\
  get_statistics init !! "function_codes" = None /\
  get_statistics init !! "unit_ids" = None /\
  get_statistics init !! "read_operations" = None /\
  get_statistics init !! "write_operations" = None.
Proof. split_and!; reflexivity. Qed.

(** C7, amended: the snapshot of an instance that has stored a packet holds
    the five fields [transaction_count], [function_codes], [unit_ids],
    [read_operations] and [write_operations]; the snapshot of an instance
    with an empty store, a fresh one for example, holds [transaction_count]
    alone, with the value 0. *)
Theorem C7_statistics_fields (self : ModbusParser) :
  match packets self with
  | [] => get_statistics self = {[ "transaction_count" := IntValue 0 ]}
  | _ :: _ => dom (get_statistics self) = all_fields
  end.
Proof.
  destruct (packets self) as [|p l] eqn:Hpackets.
  - now apply get_statistics_empty.
  - rewrite get_statistics_full by (rewrite Hpackets; done).
    apply statistics_of_dom.
Qed.

(** *** Device identification *)

(** C8: on a payload of at least 6 bytes, function code 43 is decoded
    without any read outside the payload (the exception handler is not
    entered and nothing is logged); the objects returned are laid out one
    after the other from offset 6, each with its two header bytes and its
    value bytes inside the payload; there are at most [object_count] of
    them, and fewer only when the next object overruns the payload, in
    which case the objects decoded before it are returned. *)
Theorem C8_device_identification_stays_in_bounds (payload : list byte) :
  6 <= len payload ->
  exists mei_type reading_device_id conformity_level more_follows
         next_object_id object_count objects end_off,
    getitem payload 5 = Ok object_count /\
    _parse_function 43 payload =
      (DeviceIdPayload mei_type reading_device_id conformity_level
         more_follows next_object_id objects, []) /\
    objects_at payload 6 objects end_off /\
    end_off <= len payload /\
    len objects <= object_count /\
    (len objects = object_count \/ overruns payload end_off).
Proof.
  intros Hlen. unfold _parse_function, parse_function_body.
  change (in_list 43 [1; 2; 3; 4]) with false.
  change (in_list 43 [5; 6]) with false.
  change (in_list 43 [15; 16]) with false.
  change (43 =? 43) with true. cbn match.
  rewrite (proj2 (Z.ltb_ge _ _)) by lia.
  destruct (getitem_ok payload 0) as (x0 & _ & ->); [lia|].
  destruct (getitem_ok payload 1) as (x1 & _ & ->); [lia|].
  destruct (getitem_ok payload 2) as (x2 & _ & ->); [lia|].
  destruct (getitem_ok payload 3) as (x3 & _ & ->); [lia|].
  destruct (getitem_ok payload 4) as (x4 & _ & ->); [lia|].
  destruct (getitem_ok payload 5) as (n & _ & ->); [lia|].
  cbn [mbind exn_bind].
  destruct (read_objects_spec payload (byte_to_Z n) 6 [])
    as (offset' & objects & end_off & -> & Hat & Hend & Hle & Hstop); [lia|].
  cbn [mbind exn_bind snd app].
  pose proof (byte_to_Z_bounds n) as Hn.
  rewrite Z.max_r in Hle, Hstop by lia.
  exists (byte_to_Z x0), (byte_to_Z x1), (byte_to_Z x2), (byte_to_Z x3),
    (byte_to_Z x4), (byte_to_Z n), objects, end_off.
  split_and!; try done. lia.
Qed.

Lemma C8_device_identification_stays_in_bounds_witness :
  6 <= len scenario_D /\
  exists mei_type reading_device_id conformity_level more_follows
         next_object_id object_count objects end_off,
    getitem scenario_D 5 = Ok object_count /\
    _parse_function 43 scenario_D =
      (DeviceIdPayload mei_type reading_device_id conformity_level
         more_follows next_object_id objects, []) /\
    objects_at scenario_D 6 objects end_off /\
    end_off <= len scenario_D /\
    len objects <= object_count /\
    (len objects = object_count \/ overruns scenario_D end_off).
Proof.
  assert (6 <= len scenario_D) as H1 by (vm_compute; discriminate).
  split; [exact H1|].
  exact (C8_device_identification_stays_in_bounds scenario_D H1).
Defined.

(** Scenario D: two objects announced, the bytes of one; the first is
    returned and the read stops in front of the second. *)
Example scenario_D_decodes_one_object :
  _parse_function 43 scenario_D =
    (DeviceIdPayload 14 1 1 0 0 [{| id := 0; value := [65; 66; 67] |}], [])
  /\ overruns scenario_D 11.
Proof.
  split; [vm_compute; reflexivity|].
  right. exists 5. split; [reflexivity|]. vm_compute. reflexivity.
Qed.

(** ** Further properties of the decoder *)

(** *** Numbers on the wire *)

Lemma lor_shiftl_8 (hi lo : Z) :
  0 <= lo < 256 -> Z.lor (Z.shiftl hi 8) lo = 256 * hi + lo.
Proof.
  intros Hlo.
  assert (Z.land (Z.shiftl hi 8) lo = 0) as Hland.
  { apply Z.bits_inj'. intros n Hn. rewrite Z.land_spec, Z.bits_0.
    destruct (Z.lt_ge_cases n 8) as [Hlow|Hhigh].
    - now rewrite Z.shiftl_spec_low.
    - apply andb_false_intro2.
      destruct (Z.eq_dec lo 0) as [->|Hne]; [apply Z.bits_0|].
      apply Z.bits_above_log2; [lia|].
      assert (Z.log2 lo < 8); [|lia].
      apply Z.log2_lt_pow2; [lia|]. change (2 ^ 8) with 256. lia. }
  pose proof (Z.add_lor_land (Z.shiftl hi 8) lo) as Hadd.
  rewrite Hland in Hadd.
  assert (Z.shiftl hi 8 = hi * 256) as Hshift
    by (now rewrite Z.shiftl_mul_pow2 by lia).
  lia.
Qed.

Lemma lor_shiftl_bytes (hi lo : byte) :
  Z.lor (Z.shiftl (byte_to_Z hi) 8) (byte_to_Z lo) = be16 hi lo.
Proof. apply lor_shiftl_8, byte_to_Z_bounds. Qed.

Lemma be16_bounds (hi lo : byte) : 0 <= be16 hi lo < 65536.
Proof.
  unfold be16. pose proof (byte_to_Z_bounds hi).
  pose proof (byte_to_Z_bounds lo). lia.
Qed.

Lemma byte_to_Z_inj (x y : byte) : byte_to_Z x = byte_to_Z y -> x = y.
Proof.
  unfold byte_to_Z. intros H. apply N2Z.inj in H.
  pose proof (Byte.of_to_N x) as Hx. rewrite H, Byte.of_to_N in Hx.
  now injection Hx.
Qed.

Lemma be16_zero (hi lo : byte) : be16 hi lo = 0 <-> hi = x00 /\ lo = x00.
Proof.
  unfold be16. pose proof (byte_to_Z_bounds hi).
  pose proof (byte_to_Z_bounds lo). split.
  - intros Hz. split; apply byte_to_Z_inj; change (byte_to_Z x00) with 0; lia.
  - intros [-> ->]. reflexivity.
Qed.

(** The header of a frame whose first eight bytes are given. *)
Lemma read_header_bytes (b0 b1 b2 b3 b4 b5 b6 b7 : byte)
  (rest : list byte) :
  read_header (b0 :: b1 :: b2 :: b3 :: b4 :: b5 :: b6 :: b7 :: rest) =
    Ok (be16 b0 b1, be16 b2 b3, be16 b4 b5, byte_to_Z b6, byte_to_Z b7).
Proof.
  unfold read_header.
  rewrite (getitem_lookup _ 0 b0), (getitem_lookup _ 1 b1),
    (getitem_lookup _ 2 b2), (getitem_lookup _ 3 b3),
    (getitem_lookup _ 4 b4), (getitem_lookup _ 5 b5),
    (getitem_lookup _ 6 b6), (getitem_lookup _ 7 b7) by (done || lia).
  cbn [mbind exn_bind]. now rewrite !lor_shiftl_bytes.
Qed.

(** A list of at least eight elements, by its first eight. *)
Lemma eight_bytes (packet : list byte) :
  8 <= len packet ->
  exists b0 b1 b2 b3 b4 b5 b6 b7 rest,
    packet = b0 :: b1 :: b2 :: b3 :: b4 :: b5 :: b6 :: b7 :: rest.
Proof.
  unfold len. intros H.
  do 8 (destruct packet as [|? packet]; [cbn [length] in H; lia|]).
  eauto 10.
Qed.

(** *** Which frames are accepted *)

Lemma parse_packet_short (self : ModbusParser) (packet : list byte) :
  len packet < 8 ->
  parse_packet self packet =
    (None, self, [Log WARNING "Invalid packet: too short"]).
Proof.
  intros Hlen. unfold parse_packet.
  destruct (len packet =? 0); [done|].
  now rewrite (proj2 (Z.ltb_lt _ _)) by lia.
Qed.

(** X1: [parse_packet] returns a packet exactly for the frames of at least
    8 bytes whose bytes 2 and 3 are both zero; on every other frame it
    returns [None], leaves the instance as it was and logs one warning. *)
Theorem parse_packet_accepts_exactly (self : ModbusParser)
  (packet : list byte) :
  (is_Some (parse_packet self packet).1.1 <->
   8 <= len packet /\
   packet !! 2%nat = Some x00 /\ packet !! 3%nat = Some x00) /\
  ((parse_packet self packet).1.1 = None ->
   (parse_packet self packet).1.2 = self /\
   exists msg, (parse_packet self packet).2 = [Log WARNING msg]).
Proof.
  destruct (Z.lt_ge_cases (len packet) 8) as [Hshort|Hlen].
  { rewrite parse_packet_short by done. cbn [fst snd]. split.
    - split; [intros [? [=]]|lia].
    - intros _. eauto. }
  destruct (eight_bytes packet) as
    (b0 & b1 & b2 & b3 & b4 & b5 & b6 & b7 & rest & ->); [lia|].
  pose proof (read_header_bytes b0 b1 b2 b3 b4 b5 b6 b7 rest) as Hhdr.
  cbn [lookup list_lookup].
  destruct (Z.eq_dec (be16 b2 b3) 0) as [Hzero|Hpid].
  - rewrite Hzero in Hhdr.
    destruct (parse_packet_accepted self _ _ _ _ _ Hlen Hhdr)
      as (parsed_data & _ & ->).
    cbn [fst snd]. apply be16_zero in Hzero as [-> ->].
    split; [|intros [=]]. split; [done|eauto].
  - rewrite (parse_packet_rejected self _ _ _ _ _ _ Hlen Hhdr Hpid).
    cbn [fst snd]. split; [|eauto]. split; [intros [? [=]]|].
    intros (_ & [= ->] & [= ->]). now exfalso.
Qed.

(** X2: the header fields of the packet stored for an accepted frame are
    the big-endian numbers of bytes 0-1 and 4-5 and the bytes 6 and 7, each
    within the range of its width; the raw data are the hexadecimal digits
    of the whole frame. *)
Theorem stored_packet_header (self : ModbusParser)
  (b0 b1 b4 b5 b6 b7 : byte) (rest : list byte) :
  let packet := b0 :: b1 :: x00 :: x00 :: b4 :: b5 :: b6 :: b7 :: rest in
  exists p,
    (parse_packet self packet).1.1 = Some p /\
    Packet.transaction_id p = 256 * byte_to_Z b0 + byte_to_Z b1 /\
    Packet.protocol_id p = 0 /\
    Packet.length p = 256 * byte_to_Z b4 + byte_to_Z b5 /\
    Packet.unit_id p = byte_to_Z b6 /\
    Packet.function_code p = byte_to_Z b7 /\
    Packet.raw_data p = hex packet /\
    0 <= Packet.transaction_id p < 65536 /\
    0 <= Packet.length p < 65536 /\
    0 <= Packet.unit_id p < 256 /\
    0 <= Packet.function_code p < 256.
Proof.
  intros packet.
  assert (8 <= len packet) as Hlen
    by (unfold len, packet; cbn [length]; lia).
  pose proof (read_header_bytes b0 b1 x00 x00 b4 b5 b6 b7 rest) as Hhdr.
  change (be16 x00 x00) with 0 in Hhdr.
  destruct (parse_packet_accepted self packet _ _ _ _ Hlen Hhdr)
    as (parsed_data & _ & ->).
  eexists. split; [reflexivity|].
  cbn [parsed_packet_of Packet.transaction_id Packet.protocol_id
         Packet.length Packet.unit_id Packet.function_code Packet.raw_data].
  pose proof (be16_bounds b0 b1). pose proof (be16_bounds b4 b5).
  pose proof (byte_to_Z_bounds b6). pose proof (byte_to_Z_bounds b7).
  unfold be16 in *. now split_and!.
Qed.

(** The payload slice of a frame whose length field is the number of
    payload bytes plus 2, with or without bytes after them. *)
Lemma payload_of_exact (header payload extra : list byte) :
  len header = 8 ->
  payload_of (header ++ payload ++ extra) (len payload + 2) = payload.
Proof.
  intros Hh. unfold payload_of. pose proof (len_nonneg payload).
  pose proof (len_nonneg extra).
  rewrite (proj2 (Z.leb_le _ _)) by (rewrite !len_app; lia).
  rewrite slice_take_drop by (rewrite !len_app; lia).
  replace (Z.to_nat 8) with (length header) by (unfold len in Hh; lia).
  rewrite drop_app_length.
  replace (Z.to_nat _) with (length payload) by (unfold len; lia).
  apply take_app_length.
Qed.

(** X3: when the length field of an accepted frame is the number of payload
    bytes plus 2, the stored payload is the decoding of exactly those
    bytes: whatever follows them in the frame is not decoded. *)
Theorem bytes_past_the_length_are_not_decoded (self : ModbusParser)
  (b0 b1 b4 b5 b6 b7 : byte) (payload extra : list byte) :
  be16 b4 b5 = len payload + 2 ->
  exists p,
    (parse_packet self
       (b0 :: b1 :: x00 :: x00 :: b4 :: b5 :: b6 :: b7 :: payload ++ extra))
      .1.1 = Some p /\
    Packet.payload p = (_parse_function (byte_to_Z b7) payload).1.
Proof.
  intros Hfield.
  set (packet := b0 :: b1 :: x00 :: x00 :: b4 :: b5 :: b6 :: b7
                   :: payload ++ extra).
  assert (8 <= len packet) as Hlen.
  { unfold len, packet. cbn [length]. lia. }
  pose proof (read_header_bytes b0 b1 x00 x00 b4 b5 b6 b7 (payload ++ extra))
    as Hhdr.
  change (be16 x00 x00) with 0 in Hhdr. fold packet in Hhdr.
  destruct (parse_packet_accepted self packet _ _ _ _ Hlen Hhdr)
    as (parsed_data & Hbody & ->).
  eexists. split; [reflexivity|].
  cbn [parsed_packet_of Packet.payload].
  rewrite Hfield in Hbody.
  change packet with
    ([b0; b1; x00; x00; b4; b5; b6; b7] ++ payload ++ extra) in Hbody.
  rewrite payload_of_exact in Hbody by reflexivity.
  unfold _parse_function. now rewrite Hbody.
Qed.

Lemma bytes_past_the_length_are_not_decoded_witness :
  be16 x00 x07 = len [x04; x00; x01; x00; xff] + 2 /\
  exists p,
    (parse_packet init (scenario_A ++ [xde; xad])).1.1 = Some p /\
    Packet.payload p = (_parse_function 3 [x04; x00; x01; x00; xff]).1.
Proof.
  assert (be16 x00 x07 = len [x04; x00; x01; x00; xff] + 2) as H1
    by reflexivity.
  split; [exact H1|].
  exact (bytes_past_the_length_are_not_decoded init x00 x01 x00 x07 x01 x03
           [x04; x00; x01; x00; xff] [xde; xad] H1).
Defined.

(** *** Register reads *)

Lemma flat_map_all_nil {A B} (f : A -> list B) (l : list A) :
  (forall x, f x = []) -> flat_map f l = [].
Proof.
  intros Hf. induction l as [|x l IH]; [done|].
  cbn [flat_map]. now rewrite Hf, IH.
Qed.

(** The words a list holds at the even positions below [2 * n]. *)
Lemma words_by_index (n : nat) :
  forall l : list byte,
    flat_map
      (fun k : nat =>
         match l !! (2 * k)%nat, l !! (2 * k + 1)%nat with
         | Some hi, Some lo => [be16 hi lo]
         | _, _ => []
         end)
      (seq 0 n)
    = words (take (2 * n) l).
Proof.
  induction n as [|n IH]; intros l; [done|].
  destruct l as [|hi [|lo l]].
  - rewrite take_nil. apply flat_map_all_nil. intros k.
    now rewrite !lookup_nil.
  - rewrite take_ge by (cbn [length]; lia).
    apply flat_map_all_nil. intros k.
    rewrite (lookup_ge_None_2 [hi] (2 * k + 1)) by (cbn [length]; lia).
    now destruct ([hi] !! (2 * k)%nat).
  - rewrite <- cons_seq, <- fmap_S_seq.
    replace (2 * S n)%nat with (S (S (2 * n))) by lia.
    cbn [take firstn words flat_map].
    change ((hi :: lo :: l) !! (2 * 0)%nat) with (Some hi).
    change ((hi :: lo :: l) !! (2 * 0 + 1)%nat) with (Some lo).
    cbn [app]. f_equal.
    rewrite <- IH. rewrite flat_map_concat_map, <- list_fmap_compose.
    rewrite <- flat_map_concat_map. apply flat_map_ext. intros k.
    unfold compose.
    replace (2 * S k)%nat with (S (S (2 * k))) by lia.
    replace (S (S (2 * k)) + 1)%nat with (S (S (2 * k + 1))) by lia.
    reflexivity.
Qed.

Lemma words_take_all (l : list byte) (n : nat) :
  (length l <= n)%nat -> words (take n l) = words l.
Proof. intros H. now rewrite take_ge. Qed.

(** Induction on a list two elements at a time. *)
Lemma list_pair_ind {A} (P : list A -> Prop) :
  P [] -> (forall x, P [x]) ->
  (forall x y l, P l -> P (x :: y :: l)) ->
  forall l, P l.
Proof.
  intros Hnil Hone Hstep l.
  assert (P l /\ forall x, P (x :: l)) as [H _]; [|exact H].
  induction l as [|y l [IH IH']]; split; auto.
Qed.

Lemma words_bounds (l : list byte) :
  Forall (fun v => 0 <= v < 65536) (words l).
Proof.
  induction l as [|x|hi lo l IH] using list_pair_ind; cbn [words];
    constructor; [apply be16_bounds|exact IH].
Qed.

Lemma words_length (l : list byte) : len (words l) = len l / 2.
Proof.
  induction l as [|x|hi lo l IH] using list_pair_ind; cbn [words];
    try reflexivity.
  unfold len in *. cbn [length].
  replace (Z.of_nat (S (S (length l))))
    with (Z.of_nat (length l) + 1 * 2) by lia.
  rewrite Z.div_add by lia. lia.
Qed.

(** The loop of function codes 3 and 4 on a payload that has its first
    byte. *)
Lemma read_registers_spec (x : byte) (rest : list byte) (byte_count : Z) :
  0 <= byte_count ->
  read_registers (x :: rest) byte_count =
    Ok (words (take (Z.to_nat (2 * ((byte_count + 1) / 2))) rest)).
Proof.
  intros Hbc. unfold read_registers, range_step.
  set (m := Z.min (1 + byte_count) (len (x :: rest))).
  set (n := Z.to_nat ((m - 1 + 2 - 1) / 2)).
  assert (len (x :: rest) = 1 + len rest) as Hlen
    by (unfold len; cbn [length]; lia).
  pose proof (len_nonneg rest) as Hrest.
  rewrite (for__append
             (fun (i : Z) (k : nat) => i = 1 + 2 * Z.of_nat k)
             (fun k : nat =>
                match rest !! (2 * k)%nat, rest !! (2 * k + 1)%nat with
                | Some hi, Some lo => [be16 hi lo]
                | _, _ => []
                end)
             _ _ (seq 0 n)).
  - cbn [app]. rewrite words_by_index. f_equal.
    assert (0 <= (byte_count + 1) / 2) by (apply Z.div_pos; lia).
    destruct (Z.le_gt_cases byte_count (len rest)) as [Hfit|Hcut].
    + f_equal. unfold n, m. rewrite Hlen, Z.min_l by lia.
      replace (1 + byte_count - 1 + 2 - 1) with (byte_count + 1) by lia.
      f_equal. lia.
    + assert (m = 1 + len rest) as Hm by (unfold m; lia).
      assert (len rest <= 2 * ((len rest + 1) / 2)) as Hup.
      { pose proof (Z.div_mod (len rest + 1) 2).
        pose proof (Z.mod_pos_bound (len rest + 1) 2). lia. }
      assert (len rest + 1 <= 2 * ((byte_count + 1) / 2)) as Hup'.
      { pose proof (Z.div_mod (byte_count + 1) 2).
        pose proof (Z.mod_pos_bound (byte_count + 1) 2). lia. }
      rewrite !words_take_all; [done|unfold len in *; lia|].
      unfold n. rewrite Hm.
      replace (1 + len rest - 1 + 2 - 1) with (len rest + 1) by lia.
      assert (0 <= (len rest + 1) / 2) by (apply Z.div_pos; lia).
      unfold len in *. lia.
  - intros i k values ->.
    destruct (Z.ltb_spec (1 + 2 * Z.of_nat k + 1) (len (x :: rest)))
      as [Hin|Hout].
    + destruct (lookup_lt_is_Some_2 rest (2 * k)) as [hi Hhi];
        [unfold len in *; lia|].
      destruct (lookup_lt_is_Some_2 rest (2 * k + 1)) as [lo Hlo];
        [unfold len in *; lia|].
      rewrite Hhi, Hlo.
      rewrite (getitem_lookup (x :: rest) (1 + 2 * Z.of_nat k) hi),
        (getitem_lookup (x :: rest) (1 + 2 * Z.of_nat k + 1) lo);
        [|lia|..|lia|].
      * cbn [mbind exn_bind]. now rewrite lor_shiftl_bytes.
      * replace (Z.to_nat (1 + 2 * Z.of_nat k + 1))
          with (S (2 * k + 1)) by lia. exact Hlo.
      * replace (Z.to_nat (1 + 2 * Z.of_nat k)) with (S (2 * k)) by lia.
        exact Hhi.
    + rewrite (lookup_ge_None_2 rest (2 * k + 1)) by (unfold len in *; lia).
      destruct (rest !! (2 * k)%nat); now rewrite app_nil_r.
  - apply Forall2_fmap_l, Forall_Forall2_diag, Forall_forall.
    intros k _. reflexivity.
Qed.

(** X4: for function code 3 or 4 and a payload with a first byte
    [byte_count], the values are the big-endian 16-bit numbers of the bytes
    that follow, two at a time, over the first [byte_count] of them rounded
    up to an even number and no further than the payload goes; a last byte
    without a partner is dropped. With an even [byte_count] and that many
    bytes in the payload there are [byte_count / 2] values. *)
Theorem register_reads_decode_words (function_code : Z) (x : byte)
  (rest : list byte) :
  function_code = 3 \/ function_code = 4 ->
  let byte_count := byte_to_Z x in
  let values :=
    words (take (Z.to_nat (2 * ((byte_count + 1) / 2))) rest) in
  _parse_function function_code (x :: rest)
    = (ReadPayload byte_count values, []) /\
  Forall (fun v => 0 <= v < 65536) values /\
  (byte_count mod 2 = 0 -> byte_count <= len rest ->
   values = words (take (Z.to_nat byte_count) rest) /\
   len values = byte_count / 2).
Proof.
  intros Hfc byte_count values.
  pose proof (byte_to_Z_bounds x) as Hx. fold byte_count in Hx.
  split_and!.
  - unfold _parse_function, parse_function_body.
    assert (in_list function_code [1; 2; 3; 4] = true) as ->
      by (destruct Hfc as [-> | ->]; reflexivity).
    assert (in_list function_code [1; 2] = false) as ->
      by (destruct Hfc as [-> | ->]; reflexivity).
    assert (in_list function_code [3; 4] = true) as ->
      by (destruct Hfc as [-> | ->]; reflexivity).
    assert (len (x :: rest) = 1 + len rest) as Hlen
      by (unfold len; cbn [length]; lia).
    pose proof (len_nonneg rest).
    rewrite (proj2 (Z.ltb_ge _ _)) by lia.
    rewrite getitem_head. cbn [mbind exn_bind].
    rewrite read_registers_spec by lia. reflexivity.
  - apply words_bounds.
  - intros Heven Hfit.
    assert (2 * ((byte_count + 1) / 2) = byte_count) as Heq.
    { pose proof (Z.div_mod byte_count 2).
      replace (byte_count + 1) with (1 + (byte_count / 2) * 2) by lia.
      rewrite Z.div_add by lia. change (1 / 2) with 0. lia. }
    unfold values. rewrite Heq. split; [reflexivity|].
    rewrite words_length. f_equal. unfold len in *.
    rewrite length_take. lia.
Qed.

Lemma register_reads_decode_words_witness :
  (3 = 3 \/ 3 = 4) /\
  _parse_function 3 [x03; x00; x01; x00; x02; x00; x03]
    = (ReadPayload 3 [1; 2], []).
Proof.
  assert (3 = 3 \/ 3 = 4) as H1 by (left; reflexivity).
  split; [exact H1|].
  exact (proj1 (register_reads_decode_words 3 x03
                  [x00; x01; x00; x02; x00; x03] H1)).
Defined.

(** *** Writes *)

(** X5: for function code 5 or 6 and a payload of at least four bytes, the
    address is the big-endian number of bytes 0-1; for code 6 the value is
    the big-endian number of bytes 2-3, and for code 5 it is 1 when these
    bytes are [FF 00] and 0 otherwise. Bytes after the fourth play no
    part. *)
Theorem write_single_decodes (function_code : Z) (a0 a1 v0 v1 : byte)
  (extra : list byte) :
  function_code = 5 \/ function_code = 6 ->
  exists value,
    _parse_function function_code (a0 :: a1 :: v0 :: v1 :: extra)
      = (WriteSinglePayload (be16 a0 a1) value, []) /\
    (function_code = 6 -> value = be16 v0 v1) /\
    (function_code = 5 ->
     (value = 1 <-> v0 = xff /\ v1 = x00) /\ (value = 0 \/ value = 1)).
Proof.
  intros Hfc.
  exists (if function_code =? 5
          then (if be16 v0 v1 =? 65280 then 1 else 0)
          else be16 v0 v1).
  split_and!.
  - unfold _parse_function, parse_function_body.
    assert (in_list function_code [1; 2; 3; 4] = false) as ->
      by (destruct Hfc as [-> | ->]; reflexivity).
    assert (in_list function_code [5; 6] = true) as ->
      by (destruct Hfc as [-> | ->]; reflexivity).
    assert (len (a0 :: a1 :: v0 :: v1 :: extra) = 4 + len extra) as Hlen
      by (unfold len; cbn [length]; lia).
    pose proof (len_nonneg extra).
    rewrite (proj2 (Z.ltb_ge _ _)) by lia.
    rewrite (getitem_lookup _ 0 a0), (getitem_lookup _ 1 a1),
      (getitem_lookup _ 2 v0), (getitem_lookup _ 3 v1) by (done || lia).
    cbn [mbind exn_bind]. now rewrite !lor_shiftl_bytes.
  - intros ->. reflexivity.
  - intros ->. change (5 =? 5) with true. cbn match.
    pose proof (byte_to_Z_bounds v0). pose proof (byte_to_Z_bounds v1).
    destruct (Z.eqb_spec (be16 v0 v1) 65280) as [Heq|Hne]; unfold be16 in *.
    + split; [|now right]. split; [intros _|done].
      split; apply byte_to_Z_inj.
      * change (byte_to_Z xff) with 255. lia.
      * change (byte_to_Z x00) with 0. lia.
    + split; [|now left]. split; [lia|].
      intros [-> ->]. now contradict Hne.
Qed.

Lemma write_single_decodes_witness :
  (5 = 5 \/ 5 = 6) /\
  exists value,
    _parse_function 5 [x00; x10; xff; x00]
      = (WriteSinglePayload (be16 x00 x10) value, []) /\
    (value = 1 <-> xff = xff /\ x00 = x00).
Proof.
  assert (5 = 5 \/ 5 = 6) as H1 by (left; reflexivity).
  split; [exact H1|].
  destruct (write_single_decodes 5 x00 x10 xff x00 [] H1)
    as (value & Hfun & _ & H5).
  exists value. split; [exact Hfun|exact (proj1 (H5 eq_refl))].
Defined.

(** X6: for function code 15 or 16 and a payload of at least four bytes,
    the address and the quantity are the big-endian numbers of bytes 0-1
    and 2-3; the byte count and the values a request carries after them
    are not looked at. *)
Theorem write_multiple_decodes (function_code : Z) (a0 a1 q0 q1 : byte)
  (extra : list byte) :
  function_code = 15 \/ function_code = 16 ->
  _parse_function function_code (a0 :: a1 :: q0 :: q1 :: extra)
    = (WriteMultiplePayload (be16 a0 a1) (be16 q0 q1), []).
Proof.
  intros Hfc. unfold _parse_function, parse_function_body.
  assert (in_list function_code [1; 2; 3; 4] = false) as ->
    by (destruct Hfc as [-> | ->]; reflexivity).
  assert (in_list function_code [5; 6] = false) as ->
    by (destruct Hfc as [-> | ->]; reflexivity).
  assert (in_list function_code [15; 16] = true) as ->
    by (destruct Hfc as [-> | ->]; reflexivity).
  assert (len (a0 :: a1 :: q0 :: q1 :: extra) = 4 + len extra) as Hlen
    by (unfold len; cbn [length]; lia).
  pose proof (len_nonneg extra).
  rewrite (proj2 (Z.ltb_ge _ _)) by lia.
  rewrite (getitem_lookup _ 0 a0), (getitem_lookup _ 1 a1),
    (getitem_lookup _ 2 q0), (getitem_lookup _ 3 q1) by (done || lia).
  cbn [mbind exn_bind]. now rewrite !lor_shiftl_bytes.
Qed.

Lemma write_multiple_decodes_witness :
  (16 = 15 \/ 16 = 16) /\
  _parse_function 16 [x00; x64; x00; x02; x04; x00; x0a; x00; x0b]
    = (WriteMultiplePayload 100 2, []).
Proof.
  assert (16 = 15 \/ 16 = 16) as H1 by (right; reflexivity).
  split; [exact H1|].
  exact (write_multiple_decodes 16 x00 x64 x00 x02
           [x04; x00; x0a; x00; x0b] H1).
Defined.

(** *** Errors and unknown codes *)

Lemma in_list_false (x : Z) (l : list Z) :
  in_list x l = false -> x ∉ l.
Proof.
  unfold in_list. intros H Hin.
  apply list_elem_of_In in Hin.
  assert (existsb (Z.eqb x) l = true); [|congruence].
  apply existsb_exists. exists x. split; [done|apply Z.eqb_refl].
Qed.

Lemma in_list_true (x : Z) (l : list Z) :
  in_list x l = true -> x ∈ l.
Proof.
  unfold in_list. intros H. apply existsb_exists in H as (y & Hin & Heq).
  apply Z.eqb_eq in Heq as ->. now apply list_elem_of_In.
Qed.

(** The codes with a name are the nine the decoder has a branch for. *)
Lemma FUNCTION_CODES_named (function_code : Z) :
  is_Some (FUNCTION_CODES !! function_code) <->
  function_code ∈ [1; 2; 3; 4; 5; 6; 15; 16; 43].
Proof.
  unfold FUNCTION_CODES. rewrite <- elem_of_dom, dom_list_to_map_L.
  rewrite elem_of_list_to_set. reflexivity.
Qed.

(** The result on a payload long enough for its family. *)
Lemma parse_function_body_long (function_code : Z) (payload : list byte) :
  required_len function_code <= len payload ->
  exists parsed_data,
    parse_function_body function_code payload = Ok parsed_data /\
    match parsed_data with
    | ReadPayload _ _ => function_code ∈ [1; 2; 3; 4]
    | WriteSinglePayload _ _ => function_code ∈ [5; 6]
    | WriteMultiplePayload _ _ => function_code ∈ [15; 16]
    | DeviceIdPayload _ _ _ _ _ _ => function_code = 43
    | RawPayload raw =>
        raw = hex payload /\
        function_code ∉ [1; 2; 3; 4; 5; 6; 15; 16; 43]
    | ErrorPayload _ | ExceptionPayload _ _ => False
    end.
Proof.
  unfold required_len. intros Hlong.
  destruct (parse_function_body_total function_code payload) as [p Hp].
  exists p. split; [exact Hp|]. revert Hp. unfold parse_function_body.
  destruct (in_list function_code [1; 2; 3; 4]) eqn:H1.
  { apply in_list_true in H1.
    rewrite (proj2 (Z.ltb_ge _ _)) by lia.
    destruct (getitem payload 0); cbn [mbind exn_bind]; [|intros [=]].
    destruct (if in_list function_code [1; 2] then _ else _);
      cbn [mbind exn_bind]; intros [= <-]. exact H1. }
  destruct (in_list function_code [5; 6]) eqn:H2.
  { apply in_list_true in H2.
    rewrite (proj2 (Z.ltb_ge _ _)) by lia.
    read_or_raise payload 0. read_or_raise payload 1.
    read_or_raise payload 2. read_or_raise payload 3.
    intros [= <-]. exact H2. }
  destruct (in_list function_code [15; 16]) eqn:H3.
  { apply in_list_true in H3.
    rewrite (proj2 (Z.ltb_ge _ _)) by lia.
    read_or_raise payload 0. read_or_raise payload 1.
    read_or_raise payload 2. read_or_raise payload 3.
    intros [= <-]. exact H3. }
  destruct (Z.eqb_spec function_code 43) as [H4|H4].
  { rewrite (proj2 (Z.ltb_ge _ _)) by lia.
    read_or_raise payload 0. read_or_raise payload 1.
    read_or_raise payload 2. read_or_raise payload 3.
    read_or_raise payload 4. read_or_raise payload 5.
    destruct (read_objects _ _ _ _); cbn [mbind exn_bind]; intros [= <-].
    exact H4. }
  intros [= <-]. split; [reflexivity|].
  apply in_list_false in H1, H2, H3.
  rewrite !elem_of_cons, elem_of_nil in *. tauto.
Qed.

(** X7: [_parse_function] never takes its exception handler and logs
    nothing; it returns an error dictionary exactly when the payload is
    shorter than the function family asks for (1 byte for codes 1 to 4,
    4 for codes 5, 6, 15, 16, 6 for code 43), and otherwise the dictionary
    of the family of the function code. *)
Theorem decode_result_by_family (function_code : Z) (payload : list byte) :
  let r := _parse_function function_code payload in
  r.2 = [] /\
  ((exists msg, r.1 = ErrorPayload msg) <->
   len payload < required_len function_code) /\
  match r.1 with
  | ErrorPayload _ => len payload < required_len function_code
  | ReadPayload _ _ => function_code ∈ [1; 2; 3; 4]
  | WriteSinglePayload _ _ => function_code ∈ [5; 6]
  | WriteMultiplePayload _ _ => function_code ∈ [15; 16]
  | DeviceIdPayload _ _ _ _ _ _ => function_code = 43
  | RawPayload raw =>
      raw = hex payload /\ FUNCTION_CODES !! function_code = None
  | ExceptionPayload _ _ => False
  end.
Proof.
  intros r. subst r. unfold _parse_function.
  destruct (Z.lt_ge_cases (len payload) (required_len function_code))
    as [Hshort|Hlong].
  - destruct (parse_function_body_short _ _ Hshort) as [msg ->].
    cbn [fst snd]. split_and!; [done| |done]. split; [done|eauto].
  - destruct (parse_function_body_long _ _ Hlong) as (p & -> & Hp).
    cbn [fst snd]. split; [done|]. split.
    + split; [|lia]. intros [msg ->]. contradiction.
    + destruct p; try exact Hp; try contradiction.
      destruct Hp as [-> Hnot]. split; [done|].
      apply eq_None_not_Some. now rewrite FUNCTION_CODES_named.
Qed.

(** X8: the function codes without a name in [FUNCTION_CODES] are exactly
    the ones whose payload is kept raw, as the hexadecimal digits of all
    its bytes, whatever the payload is; the name stored for them is
    [Unknown (code)]. *)
Theorem unnamed_codes_are_kept_raw (function_code : Z)
  (payload : list byte) :
  (FUNCTION_CODES !! function_code = None <->
   _parse_function function_code payload = (RawPayload (hex payload), []))
  /\
  (FUNCTION_CODES !! function_code = None ->
   forall packet transaction_id length unit_id parsed_data,
     Packet.function_name
       (parsed_packet_of packet transaction_id length unit_id function_code
          parsed_data)
     = "Unknown (" +:+ pretty function_code +:+ ")").
Proof.
  split.
  - split.
    + intros Hnone. unfold _parse_function, parse_function_body.
      assert (function_code ∉ [1; 2; 3; 4; 5; 6; 15; 16; 43]) as Hnot.
      { rewrite <- FUNCTION_CODES_named, Hnone. now intros [? [=]]. }
      rewrite !elem_of_cons, elem_of_nil in Hnot.
      assert (in_list function_code [1; 2; 3; 4] = false) as ->.
      { apply not_true_is_false. intros H%in_list_true.
        rewrite !elem_of_cons, elem_of_nil in H. tauto. }
      assert (in_list function_code [5; 6] = false) as ->.
      { apply not_true_is_false. intros H%in_list_true.
        rewrite !elem_of_cons, elem_of_nil in H. tauto. }
      assert (in_list function_code [15; 16] = false) as ->.
      { apply not_true_is_false. intros H%in_list_true.
        rewrite !elem_of_cons, elem_of_nil in H. tauto. }
      destruct (Z.eqb_spec function_code 43); [tauto|reflexivity].
    + intros Hraw.
      destruct (Z.lt_ge_cases (len payload) (required_len function_code))
        as [Hshort|Hlong].
      * destruct (parse_function_body_short _ _ Hshort) as [msg Hmsg].
        unfold _parse_function in Hraw. now rewrite Hmsg in Hraw.
      * destruct (parse_function_body_long _ _ Hlong) as (p & Hbody & Hp).
        unfold _parse_function in Hraw. rewrite Hbody in Hraw.
        injection Hraw as ->. destruct Hp as [_ Hnot].
        apply eq_None_not_Some. now rewrite FUNCTION_CODES_named.
  - intros Hnone packet transaction_id length unit_id parsed_data.
    cbn [parsed_packet_of Packet.function_name]. now rewrite Hnone.
Qed.

(** *** Raw data *)

Lemma hex_digit_inj (n m : Z) :
  0 <= n < 16 -> 0 <= m < 16 -> hex_digit n = hex_digit m -> n = m.
Proof.
  intros Hn Hm H. apply (f_equal nat_of_ascii) in H. revert H.
  unfold hex_digit.
  destruct (Z.ltb_spec n 10), (Z.ltb_spec m 10);
    rewrite !nat_ascii_embedding by lia; lia.
Qed.

Lemma hex_inj (b b' : list byte) : hex b = hex b' -> b = b'.
Proof.
  revert b'. induction b as [|x b IH]; intros [|y b']; cbn [hex];
    try discriminate; [done|].
  intros [= Hhi Hlo Hrest]. f_equal; [|now apply IH].
  pose proof (byte_to_Z_bounds x) as Hx.
  pose proof (byte_to_Z_bounds y) as Hy.
  apply byte_to_Z_inj.
  apply hex_digit_inj in Hhi;
    [|split; [apply Z.div_pos|apply Z.div_lt_upper_bound]; lia..].
  apply hex_digit_inj in Hlo; [|apply Z.mod_pos_bound; lia..].
  rewrite (Z.div_mod (byte_to_Z x) 16), (Z.div_mod (byte_to_Z y) 16) by lia.
  now rewrite Hhi, Hlo.
Qed.

Lemma hex_length (b : list byte) :
  String.length (hex b) = (2 * length b)%nat.
Proof.
  induction b as [|x b IH]; cbn [hex String.length length]; [done|].
  rewrite IH. lia.
Qed.

Lemma parse_packet_raw_data (self : ModbusParser) (packet : list byte)
  (p : Packet.t) :
  (parse_packet self packet).1.1 = Some p -> Packet.raw_data p = hex packet.
Proof.
  unfold parse_packet.
  destruct (_ || _); [intros [=]|].
  destruct (read_header packet) as [[[[[? ?] ?] ?] ?]|]; [|intros [=]].
  destruct (negb _); [intros [=]|].
  destruct (_parse_function _ _). cbn [fst]. now intros [= <-].
Qed.

(** X9: the raw data of a stored packet are two hexadecimal digits per byte
    of its frame and identify the frame: two packets with the same raw
    data, from whatever instances, come from the same frame and agree on
    every field. *)
Theorem raw_data_identifies_the_frame (self self' : ModbusParser)
  (packet packet' : list byte) (p p' : Packet.t) :
  (parse_packet self packet).1.1 = Some p ->
  (parse_packet self' packet').1.1 = Some p' ->
  String.length (Packet.raw_data p) = (2 * length packet)%nat /\
  (Packet.raw_data p = Packet.raw_data p' -> packet = packet' /\ p = p').
Proof.
  intros Hp Hp'.
  pose proof (parse_packet_raw_data _ _ _ Hp) as Hraw.
  pose proof (parse_packet_raw_data _ _ _ Hp') as Hraw'.
  split; [rewrite Hraw; apply hex_length|].
  intros Heq. rewrite Hraw, Hraw' in Heq. apply hex_inj in Heq as <-.
  split; [done|].
  destruct (parse_packet_independent self self' packet) as [Hsame _].
  rewrite Hp, Hp' in Hsame. now injection Hsame.
Qed.

Lemma raw_data_identifies_the_frame_witness :
  exists p,
    (parse_packet init scenario_A).1.1 = Some p /\
    String.length (Packet.raw_data p) = (2 * length scenario_A)%nat.
Proof.
  destruct (parse_packet init scenario_A) as [[[p|] self'] logged] eqn:Hcall;
    [|vm_compute in Hcall; discriminate Hcall].
  exists p. split; [reflexivity|].
  assert ((parse_packet init scenario_A).1.1 = Some p) as Hp
    by (now rewrite Hcall).
  exact (proj1 (raw_data_identifies_the_frame init init scenario_A
                  scenario_A p p Hp Hp)).
Defined.

(** ** Further properties of the statistics *)

Lemma len_filter_snoc {A} (f : A -> bool) (l : list A) (x : A) :
  len (List.filter f (l ++ [x]))
    = len (List.filter f l) + (if f x then 1 else 0).
Proof.
  rewrite List.filter_app, len_app. cbn [List.filter].
  now destruct (f x).
Qed.

(** The count kept for a function code is the number of packets with that
    code; a code that no packet has is not a key. *)
Lemma function_counts_lookup (l : list Packet.t) (fc : Z) :
  function_counts (count_packets l) !! fc =
    let n := len (List.filter (fun p => Packet.function_code p =? fc) l) in
    if n =? 0 then None else Some n.
Proof.
  induction l as [|p l IH] using rev_ind; [done|].
  rewrite count_packets_snoc, len_filter_snoc.
  unfold count_packet. cbn [function_counts]. cbn zeta in *.
  set (n := len (List.filter (fun p => Packet.function_code p =? fc) l))
    in *.
  assert (0 <= n) by apply len_nonneg.
  destruct (Z.eqb_spec (Packet.function_code p) fc) as [->|Hne].
  - rewrite lookup_insert_eq, IH.
    destruct (Z.eqb_spec n 0) as [Hn|Hn]; cbn [from_option Datatypes.id].
    + now rewrite Hn.
    + destruct (Z.eqb_spec (n + 1) 0); [lia|]. f_equal.
  - rewrite lookup_insert_ne by done. rewrite IH.
    now rewrite Z.add_0_r.
Qed.

Lemma unit_ids_of_store (l : list Packet.t) :
  unit_ids (count_packets l) = list_to_set (Packet.unit_id <$> l).
Proof.
  induction l as [|p l IH] using rev_ind; [done|].
  rewrite count_packets_snoc, fmap_app, list_to_set_app_L.
  unfold count_packet. cbn [unit_ids]. rewrite IH.
  cbn [fmap list_fmap list_to_set]. now rewrite union_empty_r_L.
Qed.

Lemma read_write_counts (l : list Packet.t) :
  read_operations (count_packets l) = len (List.filter is_read l) /\
  write_operations (count_packets l) = len (List.filter is_write l).
Proof.
  induction l as [|p l [IHr IHw]] using rev_ind; [done|].
  rewrite count_packets_snoc, !len_filter_snoc.
  unfold count_packet. cbn [read_operations write_operations].
  rewrite IHr, IHw. unfold is_read, is_write.
  destruct (in_list (Packet.function_code p) [1; 2; 3; 4]) eqn:Hr.
  - split; [reflexivity|].
    assert (in_list (Packet.function_code p) [5; 6; 15; 16] = false) as ->;
      [|lia].
    apply not_true_is_false. intros Hw.
    apply in_list_true in Hr, Hw.
    rewrite !elem_of_cons, elem_of_nil in Hr, Hw. lia.
  - split; [lia|].
    destruct (in_list (Packet.function_code p) [5; 6; 15; 16]); lia.
Qed.

(** X10: in the snapshot of an instance with a non-empty store, the count
    of [function_codes] for a code is the number of stored packets with
    that code, and a code no stored packet has is not a key. *)
Theorem function_codes_count_stored_packets (self : ModbusParser) :
  packets self <> [] ->
  exists d,
    get_statistics self !! "function_codes" = Some (CountsValue d) /\
    forall fc,
      let n :=
        len (List.filter (fun p => Packet.function_code p =? fc)
               (packets self)) in
      d !! fc = if n =? 0 then None else Some n.
Proof.
  intros Hne. rewrite get_statistics_full by done.
  eexists. split; [apply statistics_of_lookup|].
  intros fc. apply function_counts_lookup.
Qed.

Lemma function_codes_count_stored_packets_witness :
  packets (parse_all init [scenario_A; scenario_C]).1.2 <> [] /\
  exists d,
    get_statistics (parse_all init [scenario_A; scenario_C]).1.2
      !! "function_codes" = Some (CountsValue d) /\
    d !! 3 = Some 2 /\ d !! 5 = None.
Proof.
  assert (packets (parse_all init [scenario_A; scenario_C]).1.2 <> [])
    as H1 by (vm_compute; discriminate).
  split; [exact H1|].
  destruct (function_codes_count_stored_packets _ H1) as (d & Hd & Hcount).
  exists d. split; [exact Hd|]. split; [exact (Hcount 3)|exact (Hcount 5)].
Defined.

(** X11: in the snapshot of an instance with a non-empty store, [unit_ids]
    lists each unit id of a stored packet once and nothing else. *)
Theorem unit_ids_list_each_unit_once (self : ModbusParser) :
  packets self <> [] ->
  exists us,
    get_statistics self !! "unit_ids" = Some (ListValue us) /\
    NoDup us /\
    forall u, u ∈ us <-> exists p, p ∈ packets self /\ Packet.unit_id p = u.
Proof.
  intros Hne. rewrite get_statistics_full by done.
  eexists. split; [apply statistics_of_lookup|].
  split; [apply NoDup_elements|].
  intros u. rewrite elem_of_elements, unit_ids_of_store.
  rewrite elem_of_list_to_set, list_elem_of_fmap.
  split; intros (p & H1 & H2); exists p; split; congruence.
Qed.

Lemma unit_ids_list_each_unit_once_witness :
  packets (parse_all init [scenario_A; scenario_C]).1.2 <> [] /\
  exists us,
    get_statistics (parse_all init [scenario_A; scenario_C]).1.2
      !! "unit_ids" = Some (ListValue us) /\
    NoDup us.
Proof.
  assert (packets (parse_all init [scenario_A; scenario_C]).1.2 <> [])
    as H1 by (vm_compute; discriminate).
  split; [exact H1|].
  destruct (unit_ids_list_each_unit_once _ H1) as (us & Hus & Hnodup & _).
  exists us. split; [exact Hus|exact Hnodup].
Defined.

(** X12: in the snapshot of an instance with a non-empty store,
    [read_operations] is the number of stored packets with function code
    1, 2, 3 or 4 and [write_operations] the number with code 5, 6, 15 or
    16; a packet with any other code, 43 included, is in neither, so that
    the two add up to the number of stored packets exactly when every
    stored packet is a read or a write. *)
Theorem read_and_write_operations_count_by_code (self : ModbusParser) :
  packets self <> [] ->
  exists r w,
    get_statistics self !! "read_operations" = Some (IntValue r) /\
    get_statistics self !! "write_operations" = Some (IntValue w) /\
    r = len (List.filter is_read (packets self)) /\
    w = len (List.filter is_write (packets self)) /\
    (r + w = len (packets self) <->
     Forall (fun p => is_read p || is_write p = true) (packets self)).
Proof.
  intros Hne. rewrite get_statistics_full by done.
  destruct (read_write_counts (packets self)) as [Hr Hw].
  do 2 eexists. split; [apply statistics_of_lookup|].
  split; [apply statistics_of_lookup|].
  split; [exact Hr|]. split; [exact Hw|].
  rewrite Hr, Hw. clear. induction (packets self) as [|p l IH].
  - split; [constructor|reflexivity].
  - rewrite Forall_cons, <- IH. cbn [List.filter].
    assert (len (List.filter is_read l) + len (List.filter is_write l)
            <= len l) as Hle.
    { destruct (read_write_counts l) as [<- <-].
      apply count_packets_totals. }
    assert (is_read p = true -> is_write p = false) as Hexcl.
    { unfold is_read, is_write. intros Hr.
      apply not_true_is_false. intros Hw.
      apply in_list_true in Hr, Hw.
      rewrite !elem_of_cons, elem_of_nil in Hr, Hw. lia. }
    unfold len in *. cbn [length].
    destruct (is_read p) eqn:Hr; [rewrite Hexcl by done|];
      [|destruct (is_write p)]; cbn [length orb]; split;
      try (intros [? ?]); try split; try done; lia.
Qed.

Lemma read_and_write_operations_count_by_code_witness :
  packets (parse_all init [scenario_A; scenario_C]).1.2 <> [] /\
  exists r w,
    get_statistics (parse_all init [scenario_A; scenario_C]).1.2
      !! "read_operations" = Some (IntValue r) /\
    get_statistics (parse_all init [scenario_A; scenario_C]).1.2
      !! "write_operations" = Some (IntValue w) /\
    r = 2 /\ w = 0.
Proof.
  assert (packets (parse_all init [scenario_A; scenario_C]).1.2 <> [])
    as H1 by (vm_compute; discriminate).
  split; [exact H1|].
  destruct (read_and_write_operations_count_by_code _ H1)
    as (r & w & Hr & Hw & Hrn & Hwn & _).
  exists r, w. split_and!; [exact Hr|exact Hw|exact Hrn|exact Hwn].
Defined.

Lemma len_filter_Permutation {A} (f : A -> bool) (l l' : list A) :
  l ≡ₚ l' -> len (List.filter f l) = len (List.filter f l').
Proof.
  unfold len. induction 1 as [|x l l' _ IH|x y l|l l' l'' _ IH _ IH'];
    cbn [List.filter].
  - reflexivity.
  - destruct (f x); cbn [length]; lia.
  - destruct (f x), (f y); reflexivity.
  - lia.
Qed.

Lemma Counters_eq (c c' : Counters) :
  function_counts c = function_counts c' ->
  unit_ids c = unit_ids c' ->
  write_operations c = write_operations c' ->
  read_operations c = read_operations c' ->
  c = c'.
Proof. destruct c, c'. cbn. now intros -> -> -> ->. Qed.

(** X13: the counters [get_statistics] computes depend on which packets
    are stored and not on the order they arrived in: two stores that are
    permutations of each other give the same counts per function code, the
    same set of unit ids and the same numbers of reads and writes. *)
Theorem counters_ignore_arrival_order (l l' : list Packet.t) :
  l ≡ₚ l' -> count_packets l = count_packets l'.
Proof.
  intros Hperm. apply Counters_eq.
  - apply map_eq. intros fc. rewrite !function_counts_lookup. cbn zeta.
    now rewrite (len_filter_Permutation _ l l').
  - rewrite !unit_ids_of_store. apply list_to_set_perm_L.
    now apply fmap_Permutation.
  - destruct (read_write_counts l) as [_ ->].
    destruct (read_write_counts l') as [_ ->].
    now apply len_filter_Permutation.
  - destruct (read_write_counts l) as [-> _].
    destruct (read_write_counts l') as [-> _].
    now apply len_filter_Permutation.
Qed.

Lemma counters_ignore_arrival_order_witness :
  exists p q,
    [p; q] ≡ₚ [q; p] /\ count_packets [p; q] = count_packets [q; p].
Proof.
  exists (parsed_packet_of scenario_A 1 7 1 3 (ReadPayload 4 [1; 255])),
    (parsed_packet_of scenario_C 1 2 1 3 (ErrorPayload "")).
  assert ([parsed_packet_of scenario_A 1 7 1 3 (ReadPayload 4 [1; 255]);
           parsed_packet_of scenario_C 1 2 1 3 (ErrorPayload "")]
          ≡ₚ [parsed_packet_of scenario_C 1 2 1 3 (ErrorPayload "");
              parsed_packet_of scenario_A 1 7 1 3 (ReadPayload 4 [1; 255])])
    as H1 by apply perm_swap.
  split; [exact H1|].
  exact (counters_ignore_arrival_order _ _ H1).
Defined.

(** ** Further properties of sequences of calls *)

Lemma parse_all_spec (frames : list (list byte)) :
  forall self,
    (parse_all self frames).1.1
      = omap (fun packet => (parse_packet init packet).1.1) frames /\
    packets (parse_all self frames).1.2
      = packets self ++ (parse_all self frames).1.1 /\
    transaction_count (parse_all self frames).1.2
      = transaction_count self + len (parse_all self frames).1.1.
Proof.
  induction frames as [|packet frames IH]; intros self.
  - cbn [parse_all fst snd omap list_omap]. rewrite app_nil_r.
    change (len []) with 0. split_and!; [done..|lia].
  - cbn [parse_all omap list_omap].
    destruct (parse_packet_independent self init packet) as [Hsame _].
    rewrite <- Hsame.
    destruct (parse_packet_cases self packet)
      as [[logged Hcall]|(p & logged & Hcall)]; rewrite Hcall.
    + destruct (IH self) as (Hres & Hstore & Hcount).
      destruct (parse_all self frames) as [[results self''] logged'].
      cbn [fst snd] in *. done.
    + destruct (IH (stored self p)) as (Hres & Hstore & Hcount).
      destruct (parse_all (stored self p) frames)
        as [[results self''] logged'].
      cbn [fst snd] in *. rewrite Hres, Hstore, Hcount. subst results.
      unfold stored. cbn [packets transaction_count].
      split_and!; [done|now rewrite <- app_assoc|].
      unfold len. cbn [length]. lia.
Qed.

(** X14: a run of [parse_packet] calls on one instance decodes each frame
    on its own and keeps arrival order: the packets returned are the
    packets a fresh instance returns for each frame, without the frames
    turned away; the store grows by exactly these packets, in that order,
    and [transaction_count] by their number. *)
Theorem frames_are_decoded_independently_in_order (self : ModbusParser)
  (frames : list (list byte)) :
  let results := (parse_all self frames).1.1 in
  let self' := (parse_all self frames).1.2 in
  results = omap (fun packet => (parse_packet init packet).1.1) frames /\
  packets self' = packets self ++ results /\
  transaction_count self' = transaction_count self + len results /\
  len results <= len frames.
Proof.
  intros results self'. subst results self'.
  destruct (parse_all_spec frames self) as (Hres & Hstore & Hcount).
  split_and!; [done..|]. rewrite Hres. unfold len. apply inj_le.
  clear. induction frames as [|packet frames IH]; [done|].
  cbn [omap list_omap length].
  destruct ((parse_packet init packet).1.1); cbn [length]; lia.
Qed.

(** ** The capture reader *)

(** The loop of [load_pcap] over packets that all have a TCP layer. *)
Lemma load_pcap_body_tcp (layers : list Scapy.TCP) :
  forall modbus_packets,
    for_ (Some <$> layers)
      (fun packet modbus_packets =>
         selected ← on_modbus_port packet;
         if (selected : bool) then
           layer ← Scapy.getlayer packet;
           if negb (len (Scapy.payload layer) =? 0)
           then Ok (Next (modbus_packets ++ [Scapy.payload layer]))
           else Ok (Next modbus_packets)
         else Ok (Next modbus_packets))
      modbus_packets
    = Ok (modbus_packets
            ++ (Scapy.payload <$> List.filter modbus_segment layers)).
Proof.
  induction layers as [|layer layers IH]; intros acc.
  - cbn. now rewrite app_nil_r.
  - cbn [fmap list_fmap for_ List.filter]. unfold on_modbus_port at 1.
    rewrite bool_decide_eq_true_2 by eauto.
    unfold modbus_segment at 1. cbn [Scapy.getlayer mbind exn_bind].
    destruct (Scapy.dport layer =? 502); cbn [mbind exn_bind orb andb].
    + destruct (len (Scapy.payload layer) =? 0); cbn [negb fmap list_fmap];
        rewrite IH; [done|now rewrite <- app_assoc].
    + destruct (Scapy.sport layer =? 502); cbn [andb].
      * destruct (len (Scapy.payload layer) =? 0);
          cbn [negb fmap list_fmap];
          rewrite IH; [done|now rewrite <- app_assoc].
      * now rewrite IH.
Qed.

(** The loop of [load_pcap] over packets one of which has no TCP layer. *)
Lemma load_pcap_body_not_tcp (packets : list Scapy.Packet) :
  None ∈ packets ->
  forall modbus_packets,
    for_ packets
      (fun packet modbus_packets =>
         selected ← on_modbus_port packet;
         if (selected : bool) then
           layer ← Scapy.getlayer packet;
           if negb (len (Scapy.payload layer) =? 0)
           then Ok (Next (modbus_packets ++ [Scapy.payload layer]))
           else Ok (Next modbus_packets)
         else Ok (Next modbus_packets))
      modbus_packets
    = Raise "Layer [TCP] not found".
Proof.
  induction packets as [|packet packets IH]; intros Hin acc.
  - now apply elem_of_nil in Hin.
  - cbn [for_]. destruct packet as [layer|].
    + apply elem_of_cons in Hin as [[=]|Hin].
      unfold on_modbus_port. rewrite bool_decide_eq_true_2 by eauto.
      cbn [Scapy.getlayer mbind exn_bind].
      destruct (Scapy.dport layer =? 502); cbn [mbind exn_bind].
      * destruct (negb _); now apply IH.
      * destruct (Scapy.sport layer =? 502);
          [destruct (negb _)|]; now apply IH.
    + unfold on_modbus_port.
      rewrite bool_decide_eq_false_2 by (intros [? [=]]).
      reflexivity.
Qed.

(** X15: on a capture whose packets all have a TCP layer, [load_pcap]
    returns, in capture order, the payloads of the segments that carry data
    and have 502 as destination or source port, and logs nothing; none of
    the frames it returns is empty. *)
Theorem load_pcap_keeps_modbus_segments (layers : list Scapy.TCP) :
  load_pcap (Ok (Some <$> layers))
    = (Scapy.payload <$> List.filter modbus_segment layers, []) /\
  Forall (fun frame => 0 < len frame) (load_pcap (Ok (Some <$> layers))).1.
Proof.
  assert (load_pcap (Ok (Some <$> layers))
          = (Scapy.payload <$> List.filter modbus_segment layers, []))
    as Hload.
  { unfold load_pcap, load_pcap_body. cbn [mbind exn_bind].
    now rewrite load_pcap_body_tcp. }
  split; [exact Hload|]. rewrite Hload. cbn [fst].
  apply Forall_fmap, Forall_forall. intros layer Hin.
  apply list_elem_of_In, List.filter_In in Hin as [_ Hseg].
  unfold modbus_segment in Hseg. apply andb_true_iff in Hseg as [_ Hdata].
  apply negb_true_iff, Z.eqb_neq in Hdata. cbn.
  pose proof (len_nonneg (Scapy.payload layer)). lia.
Qed.

(** X16: one packet without a TCP layer anywhere in the capture makes
    [load_pcap] return no frame at all: the condition of the loop looks at
    the source port of that packet, the lookup of the layer raises, and the
    handler logs the error and returns the empty list, the segments
    gathered before that packet included. *)
Theorem load_pcap_gives_up_on_a_packet_without_tcp
  (packets : list Scapy.Packet) :
  None ∈ packets ->
  load_pcap (Ok packets)
    = ([], [Log ERROR "Error loading pcap file: Layer [TCP] not found"]).
Proof.
  intros Hin. unfold load_pcap, load_pcap_body. cbn [mbind exn_bind].
  now rewrite load_pcap_body_not_tcp.
Qed.

Lemma load_pcap_gives_up_on_a_packet_without_tcp_witness :
  None ∈ [Some {| Scapy.dport := 502; Scapy.sport := 40000;
                  Scapy.payload := scenario_A |};
          None] /\
  load_pcap
    (Ok [Some {| Scapy.dport := 502; Scapy.sport := 40000;
                 Scapy.payload := scenario_A |};
         None])
    = ([], [Log ERROR "Error loading pcap file: Layer [TCP] not found"]).
Proof.
  assert (None ∈ [Some {| Scapy.dport := 502; Scapy.sport := 40000;
                          Scapy.payload := scenario_A |};
                  None]) as H1.
  { rewrite !elem_of_cons. right. now left. }
  split; [exact H1|].
  exact (load_pcap_gives_up_on_a_packet_without_tcp _ H1).
Defined.

(** X17: the number of transactions the command line reports for a capture
    is the number of packets it has to print or save, whatever the capture
    is, also when it cannot be read or no frame is accepted. *)
Theorem main_pcap_reports_the_number_of_results
  (rdpcap : exn (list Scapy.Packet)) :
  (main_pcap rdpcap).2 !! "transaction_count"
    = Some (IntValue (len (main_pcap rdpcap).1)).
Proof.
  unfold main_pcap. destruct (load_pcap rdpcap) as [frames logged].
  destruct (parse_all_spec frames init) as (_ & Hstore & Hcount).
  destruct (parse_all init frames) as [[results self] logged'].
  cbn [fst snd] in *. cbn [init packets transaction_count app] in *.
  destruct (packets self) as [|p l] eqn:Hpackets.
  - rewrite get_statistics_empty by done. now subst results.
  - rewrite get_statistics_full by (rewrite Hpackets; done).
    rewrite Hcount. apply statistics_of_lookup.
Qed.

(** ** Further properties of device identification *)

Lemma DeviceObject_eq (o o' : DeviceObject) :
  id o = id o' -> value o = value o' -> o = o'.
Proof. destruct o, o'. cbn. now intros -> ->. Qed.

(** An object that is laid out at [off] does not overrun the payload. *)
Lemma overruns_no_object (payload : list byte) (off : Z) (o : DeviceObject) :
  overruns payload off ->
  off + 2 + len (value o) <= len payload ->
  getitem payload (off + 1) = Ok (len (value o)) ->
  False.
Proof.
  intros [Hshort|(object_len & Hget & Hover)] Hfit Hlen.
  - pose proof (len_nonneg (value o)). lia.
  - rewrite Hget in Hlen. injection Hlen as ->. lia.
Qed.

(** The layout and the place it stops at leave no choice. *)
Lemma objects_at_unique (payload : list byte) (off : Z)
  (objs : list DeviceObject) (end_off : Z) :
  objects_at payload off objs end_off ->
  forall (n : Z) (objs' : list DeviceObject) (end_off' : Z),
    objects_at payload off objs' end_off' ->
    len objs <= n -> len objs' <= n ->
    len objs = n \/ overruns payload end_off ->
    len objs' = n \/ overruns payload end_off' ->
    objs = objs'.
Proof.
  induction 1 as [off|off o os end_off Hoff Hfit Hid Hlen Hval _ IH];
    intros n objs' end_off' Hat' Hle Hle' Hstop Hstop';
    inversion Hat' as [|? o' os' ? Hoff' Hfit' Hid' Hlen' Hval' Hrest'];
    subst.
  - reflexivity.
  - exfalso. destruct Hstop as [Hn|Hover].
    + unfold len in *. cbn [length] in *. lia.
    + exact (overruns_no_object _ _ _ Hover Hfit' Hlen').
  - exfalso. destruct Hstop' as [Hn|Hover].
    + unfold len in *. cbn [length] in *. lia.
    + exact (overruns_no_object _ _ _ Hover Hfit Hlen).
  - assert (len (value o) = len (value o')) as Hsame
      by (rewrite Hlen in Hlen'; now injection Hlen').
    assert (o = o') as <-.
    { apply DeviceObject_eq; [rewrite Hid in Hid'; now injection Hid'|].
      rewrite Hval, Hval'. now rewrite Hsame. }
    f_equal. apply (IH (n - 1) os' end_off'); try done.
    + unfold len in *. cbn [length] in *. lia.
    + unfold len in *. cbn [length] in *. lia.
    + destruct Hstop as [Hn|Hover]; [left|now right].
      unfold len in *. cbn [length] in *. lia.
    + destruct Hstop' as [Hn|Hover]; [left|now right].
      unfold len in *. cbn [length] in *. lia.
Qed.

(** The result of function code 43 on a payload that has its six header
    bytes. *)
Lemma parse_device_identification (payload : list byte) :
  6 <= len payload ->
  exists x0 x1 x2 x3 x4 n objects end_off,
    getitem payload 5 = Ok (byte_to_Z n) /\
    _parse_function 43 payload =
      (DeviceIdPayload (byte_to_Z x0) (byte_to_Z x1) (byte_to_Z x2)
         (byte_to_Z x3) (byte_to_Z x4) objects, []) /\
    objects_at payload 6 objects end_off /\
    len objects <= byte_to_Z n /\
    (len objects = byte_to_Z n \/ overruns payload end_off).
Proof.
  intros Hlen. unfold _parse_function, parse_function_body.
  change (in_list 43 [1; 2; 3; 4]) with false.
  change (in_list 43 [5; 6]) with false.
  change (in_list 43 [15; 16]) with false.
  change (43 =? 43) with true. cbn match.
  rewrite (proj2 (Z.ltb_ge _ _)) by lia.
  destruct (getitem_ok payload 0) as (x0 & _ & ->); [lia|].
  destruct (getitem_ok payload 1) as (x1 & _ & ->); [lia|].
  destruct (getitem_ok payload 2) as (x2 & _ & ->); [lia|].
  destruct (getitem_ok payload 3) as (x3 & _ & ->); [lia|].
  destruct (getitem_ok payload 4) as (x4 & _ & ->); [lia|].
  destruct (getitem_ok payload 5) as (n & _ & ->); [lia|].
  cbn [mbind exn_bind].
  destruct (read_objects_spec payload (byte_to_Z n) 6 [])
    as (offset' & objects & end_off & -> & Hat & _ & Hle & Hstop); [lia|].
  cbn [mbind exn_bind snd app].
  pose proof (byte_to_Z_bounds n) as Hn.
  rewrite Z.max_r in Hle, Hstop by lia.
  exists x0, x1, x2, x3, x4, n, objects, end_off. now split_and!.
Qed.

(** X18: the objects function code 43 returns are the only possible ones:
    any list of at most [object_count] objects that is laid out in the
    payload from offset 6, one after the other, and that either has
    [object_count] entries or stops in front of an object that overruns the
    payload, is the list returned. *)
Theorem device_identification_returns_the_layout (payload : list byte)
  (object_count : Z) (objects : list DeviceObject) (end_off : Z) :
  6 <= len payload ->
  getitem payload 5 = Ok object_count ->
  objects_at payload 6 objects end_off ->
  len objects <= object_count ->
  len objects = object_count \/ overruns payload end_off ->
  exists mei_type reading_device_id conformity_level more_follows
         next_object_id,
    _parse_function 43 payload =
      (DeviceIdPayload mei_type reading_device_id conformity_level
         more_follows next_object_id objects, []).
Proof.
  intros Hlen Hcount Hat Hle Hstop.
  destruct (parse_device_identification payload Hlen)
    as (x0 & x1 & x2 & x3 & x4 & n & objects' & end_off'
        & Hn & -> & Hat' & Hle' & Hstop').
  rewrite Hn in Hcount. injection Hcount as <-.
  rewrite (objects_at_unique _ _ _ _ Hat _ _ _ Hat' Hle Hle' Hstop Hstop').
  eauto 6.
Qed.

Lemma device_identification_returns_the_layout_witness :
  6 <= len scenario_D /\
  getitem scenario_D 5 = Ok 2 /\
  objects_at scenario_D 6 [{| id := 0; value := [65; 66; 67] |}] 11 /\
  len [{| id := 0; value := [65; 66; 67] |}] <= 2 /\
  overruns scenario_D 11 /\
  exists mei_type reading_device_id conformity_level more_follows
         next_object_id,
    _parse_function 43 scenario_D =
      (DeviceIdPayload mei_type reading_device_id conformity_level
         more_follows next_object_id
         [{| id := 0; value := [65; 66; 67] |}], []).
Proof.
  assert (6 <= len scenario_D) as H1 by (vm_compute; discriminate).
  assert (getitem scenario_D 5 = Ok 2) as H2 by reflexivity.
  assert (objects_at scenario_D 6 [{| id := 0; value := [65; 66; 67] |}] 11)
    as H3.
  { apply (objects_at_cons scenario_D 6
             {| id := 0; value := [65; 66; 67] |} [] 11);
      try reflexivity; try (vm_compute; discriminate).
    apply objects_at_nil. }
  assert (len [{| id := 0; value := [65; 66; 67] |}] <= 2) as H4
    by (vm_compute; discriminate).
  assert (overruns scenario_D 11) as H5.
  { right. exists 5. split; [reflexivity|]. vm_compute. reflexivity. }
  split_and!; try assumption.
  exact (device_identification_returns_the_layout scenario_D 2 _ 11
           H1 H2 H3 H4 (or_intror H5)).
Defined.

(** X19: the text of every object function code 43 returns is made of ASCII
    code points and of U+FFFD, the replacement of a byte that is not
    ASCII. *)
Theorem device_identification_text_is_ascii (payload : list byte)
  (mei_type reading_device_id conformity_level more_follows
   next_object_id : Z) (objects : list DeviceObject) :
  (_parse_function 43 payload).1 =
    DeviceIdPayload mei_type reading_device_id conformity_level
      more_follows next_object_id objects ->
  Forall
    (fun o => Forall (fun c => 0 <= c < 128 \/ c = 65533) (value o))
    objects.
Proof.
  intros Hres.
  destruct (Z.lt_ge_cases (len payload) 6) as [Hshort|Hlen].
  { destruct (parse_function_body_short 43 payload Hshort) as [msg Hmsg].
    unfold _parse_function in Hres. now rewrite Hmsg in Hres. }
  destruct (parse_device_identification payload Hlen)
    as (x0 & x1 & x2 & x3 & x4 & n & objects' & end_off
        & _ & Hfun & Hat & _).
  rewrite Hfun in Hres. injection Hres as _ _ _ _ _ <-.
  clear Hfun Hlen.
  induction Hat as [|off o os end_off _ _ _ _ Hval _ IH]; [constructor|].
  constructor; [|exact IH].
  rewrite Hval. unfold decode_ascii_replace.
  apply Forall_fmap, Forall_forall. intros b _. cbn.
  pose proof (byte_to_Z_bounds b).
  destruct (Z.ltb_spec (byte_to_Z b) 128); [left; lia|now right].
Qed.

Lemma device_identification_text_is_ascii_witness :
  (_parse_function 43 scenario_D).1 =
    DeviceIdPayload 14 1 1 0 0 [{| id := 0; value := [65; 66; 67] |}] /\
  Forall
    (fun o => Forall (fun c => 0 <= c < 128 \/ c = 65533) (value o))
    [{| id := 0; value := [65; 66; 67] |}].
Proof.
  assert ((_parse_function 43 scenario_D).1 =
            DeviceIdPayload 14 1 1 0 0
              [{| id := 0; value := [65; 66; 67] |}]) as H1 by reflexivity.
  split; [exact H1|].
  exact (device_identification_text_is_ascii scenario_D 14 1 1 0 0 _ H1).
Defined.

(** ** The simulated server and the parser *)

Lemma byte_of_to_Z (x : byte) : byte_of_Z (byte_to_Z x) = x.
Proof.
  unfold byte_of_Z, byte_to_Z. now rewrite N2Z.id, Byte.of_to_N.
Qed.

Lemma byte_to_of_Z (v : Z) : 0 <= v < 256 -> byte_to_Z (byte_of_Z v) = v.
Proof.
  intros Hv. unfold byte_of_Z, byte_to_Z.
  destruct (Byte.of_N (Z.to_N v)) as [b|] eqn:Hb.
  - apply Byte.to_of_N in Hb. cbn. rewrite Hb. lia.
  - apply Byte.of_N_None_iff in Hb. lia.
Qed.

Lemma pack_H_be16 (hi lo : byte) : pack_H (be16 hi lo) = Ok [hi; lo].
Proof.
  unfold pack_H, be16.
  pose proof (byte_to_Z_bounds hi). pose proof (byte_to_Z_bounds lo).
  destruct (Z.leb_spec 0 (256 * byte_to_Z hi + byte_to_Z lo)); [|lia].
  destruct (Z.leb_spec (256 * byte_to_Z hi + byte_to_Z lo) 65535); [|lia].
  cbn [andb].
  replace ((256 * byte_to_Z hi + byte_to_Z lo) / 256) with (byte_to_Z hi)
    by (apply Z.div_unique with (byte_to_Z lo); lia).
  replace ((256 * byte_to_Z hi + byte_to_Z lo) mod 256) with (byte_to_Z lo)
    by (apply Z.mod_unique with (byte_to_Z hi); lia).
  now rewrite !byte_of_to_Z.
Qed.

(** The two bytes [struct.pack] makes of a number that fits. *)
Lemma pack_H_ok (v : Z) :
  0 <= v <= 65535 ->
  pack_H v = Ok [byte_of_Z (v / 256); byte_of_Z (v mod 256)] /\
  be16 (byte_of_Z (v / 256)) (byte_of_Z (v mod 256)) = v.
Proof.
  intros Hv. unfold pack_H, be16.
  destruct (Z.leb_spec 0 v); [|lia].
  destruct (Z.leb_spec v 65535); [|lia].
  split; [reflexivity|].
  assert (0 <= v / 256 < 256)
    by (split; [apply Z.div_pos|apply Z.div_lt_upper_bound]; lia).
  pose proof (Z.mod_pos_bound v 256).
  rewrite !byte_to_of_Z by lia.
  pose proof (Z.div_mod v 256). lia.
Qed.

Lemma pack_H_raises (v : Z) :
  ~ 0 <= v <= 65535 -> exists e, pack_H v = Raise e.
Proof.
  intros Hv. unfold pack_H.
  destruct (Z.leb_spec 0 v), (Z.leb_spec v 65535); cbn [andb]; eauto; lia.
Qed.

Lemma bytearray_append_byte (response : list byte) (x : byte) :
  bytearray_append response (byte_to_Z x) = Ok (response ++ [x]).
Proof.
  unfold bytearray_append. pose proof (byte_to_Z_bounds x).
  destruct (Z.leb_spec 0 (byte_to_Z x)); [|lia].
  destruct (Z.ltb_spec (byte_to_Z x) 256); [|lia].
  cbn [andb]. now rewrite byte_of_to_Z.
Qed.

Lemma bytearray_append_ok (response : list byte) (v : Z) :
  0 <= v < 256 ->
  bytearray_append response v = Ok (response ++ [byte_of_Z v]).
Proof.
  intros Hv. unfold bytearray_append.
  destruct (Z.leb_spec 0 v); [|lia].
  now destruct (Z.ltb_spec v 256); [|lia].
Qed.

Lemma flat_map_singleton {A B} (g : A -> B) (l : list A) :
  flat_map (fun x => [g x]) l = g <$> l.
Proof. induction l as [|x l IH]; [done|]. cbn. now rewrite IH. Qed.

(** The register values the server reads for a request. *)
Lemma response_data_spec (server : SimpleModbusServer.t)
  (start_addr quantity : Z) :
  SimpleModbusServer.response_data server start_addr quantity =
    Ok ((fun i =>
           default 0
             (SimpleModbusServer.holding_registers server
                !! (start_addr + i)))
          <$> range 0 quantity).
Proof.
  unfold SimpleModbusServer.response_data.
  rewrite (for__append (fun i j : Z => i = j)
             (fun i =>
                [default 0
                   (SimpleModbusServer.holding_registers server
                      !! (start_addr + i))])
             _ _ (range 0 quantity)).
  - cbn [app]. now rewrite flat_map_singleton.
  - now intros i ? values <-.
  - apply Forall_Forall2_diag, Forall_forall. now intros.
Qed.

(** The loop that appends the register values to the response. *)
Lemma extend_values_spec (values : list Z) :
  Forall (fun v => 0 <= v <= 65535) values ->
  forall response,
    for_ values
      (fun value response =>
         b ← pack_H value; Ok (Next (bytearray_extend response b)))
      response
    = Ok (response
            ++ flat_map
                 (fun v => [byte_of_Z (v / 256); byte_of_Z (v mod 256)])
                 values).
Proof.
  induction 1 as [|v values Hv _ IH]; intros response; cbn [for_ flat_map].
  - now rewrite app_nil_r.
  - destruct (pack_H_ok v Hv) as [-> _]. cbn [mbind exn_bind].
    rewrite IH. unfold bytearray_extend. now rewrite <- app_assoc.
Qed.

Lemma extend_values_raises (values : list Z) :
  ~ Forall (fun v => 0 <= v <= 65535) values ->
  forall response,
    exists e,
      for_ values
        (fun value response =>
           b ← pack_H value; Ok (Next (bytearray_extend response b)))
        response
      = Raise e.
Proof.
  induction values as [|v values IH]; intros Hbad response.
  - contradict Hbad. constructor.
  - cbn [for_].
    destruct (decide (0 <= v <= 65535)) as [Hv|Hv].
    + destruct (pack_H_ok v Hv) as [-> _]. cbn [mbind exn_bind].
      apply IH. contradict Hbad. now constructor.
    + destruct (pack_H_raises v Hv) as [e ->]. cbn [mbind exn_bind]. eauto.
Qed.

Lemma words_encode (values : list Z) :
  Forall (fun v => 0 <= v <= 65535) values ->
  words (flat_map (fun v => [byte_of_Z (v / 256); byte_of_Z (v mod 256)])
           values)
  = values.
Proof.
  induction 1 as [|v values Hv _ IH]; [done|].
  cbn [flat_map app words]. rewrite IH.
  now destruct (pack_H_ok v Hv) as [_ ->].
Qed.

Lemma len_encode (values : list Z) :
  len (flat_map (fun v => [byte_of_Z (v / 256); byte_of_Z (v mod 256)])
         values)
  = 2 * len values.
Proof.
  unfold len. induction values as [|v values IH]; [done|].
  cbn [flat_map app length]. lia.
Qed.

(** The register reads of the decoder, on a payload that has its first
    byte. *)
Lemma parse_function_body_registers (function_code : Z) (x : byte)
  (rest : list byte) :
  function_code = 3 \/ function_code = 4 ->
  parse_function_body function_code (x :: rest) =
    Ok (ReadPayload (byte_to_Z x)
          (words (take (Z.to_nat (2 * ((byte_to_Z x + 1) / 2))) rest))).
Proof.
  intros Hfc. unfold parse_function_body.
  assert (in_list function_code [1; 2; 3; 4] = true) as ->
    by (destruct Hfc as [-> | ->]; reflexivity).
  assert (in_list function_code [1; 2] = false) as ->
    by (destruct Hfc as [-> | ->]; reflexivity).
  assert (in_list function_code [3; 4] = true) as ->
    by (destruct Hfc as [-> | ->]; reflexivity).
  assert (len (x :: rest) = 1 + len rest) as Hlen
    by (unfold len; cbn [length]; lia).
  pose proof (len_nonneg rest). pose proof (byte_to_Z_bounds x).
  rewrite (proj2 (Z.ltb_ge _ _)) by lia.
  rewrite getitem_head. cbn [mbind exn_bind].
  rewrite read_registers_spec by lia. reflexivity.
Qed.

(** The response to a read holding registers request the server can
    answer. *)
Lemma handle_read_holding_registers (server : SimpleModbusServer.t)
  (d0 d1 d2 d3 d4 d5 d6 s0 s1 q0 q1 : byte) (more : list byte) :
  let data :=
    d0 :: d1 :: d2 :: d3 :: d4 :: d5 :: d6 :: x03
       :: s0 :: s1 :: q0 :: q1 :: more in
  let quantity := be16 q0 q1 in
  let values :=
    (fun i =>
       default 0
         (SimpleModbusServer.holding_registers server !! (be16 s0 s1 + i)))
      <$> range 0 quantity in
  quantity <= 127 ->
  Forall (fun v => 0 <= v <= 65535) values ->
  SimpleModbusServer._handle_modbus_request server data =
    Some ([d0; d1; x00; x00;
           byte_of_Z ((3 + quantity * 2) / 256);
           byte_of_Z ((3 + quantity * 2) mod 256);
           d6; x03; byte_of_Z (quantity * 2)]
            ++ flat_map
                 (fun v => [byte_of_Z (v / 256); byte_of_Z (v mod 256)])
                 values).
Proof.
  intros data quantity values Hq Hvalues.
  pose proof (be16_bounds q0 q1) as Hqb. fold quantity in Hqb.
  assert (len data = 12 + len more) as Hlen
    by (unfold len, data; cbn [length]; lia).
  pose proof (len_nonneg more) as Hmore.
  assert (len values = quantity) as Hcount.
  { unfold values, len. rewrite length_fmap, range_length. lia. }
  unfold SimpleModbusServer._handle_modbus_request,
    SimpleModbusServer.handle_modbus_request_body.
  rewrite (proj2 (Z.ltb_ge _ _)) by lia.
  assert (slice data 0 2 = [d0; d1]) as ->
    by (rewrite slice_take_drop by lia; reflexivity).
  assert (slice data 2 4 = [d2; d3]) as ->
    by (rewrite slice_take_drop by lia; reflexivity).
  assert (slice data 4 6 = [d4; d5]) as ->
    by (rewrite slice_take_drop by lia; reflexivity).
  assert (slice data 8 10 = [s0; s1]) as ->
    by (rewrite slice_take_drop by lia; reflexivity).
  assert (slice data 10 12 = [q0; q1]) as ->
    by (rewrite slice_take_drop by lia; reflexivity).
  cbn [unpack_H mbind exn_bind].
  rewrite (getitem_lookup data 6 d6), (getitem_lookup data 7 x03)
    by (done || lia).
  cbn [mbind exn_bind]. change (byte_to_Z x03 =? 3) with true. cbn match.
  rewrite Z.geb_leb, (proj2 (Z.leb_le _ _)) by lia.
  change (256 * byte_to_Z s0 + byte_to_Z s1) with (be16 s0 s1).
  change (256 * byte_to_Z q0 + byte_to_Z q1) with quantity.
  change (256 * byte_to_Z d0 + byte_to_Z d1) with (be16 d0 d1).
  rewrite response_data_spec. fold values. cbn [mbind exn_bind].
  rewrite pack_H_be16. cbn [mbind exn_bind].
  change (pack_H 0) with (Ok (A := list byte) [x00; x00]).
  cbn [mbind exn_bind]. rewrite Hcount.
  destruct (pack_H_ok (3 + quantity * 2)) as [-> _]; [lia|].
  cbn [mbind exn_bind]. unfold bytearray_extend. cbn [app].
  rewrite bytearray_append_byte. cbn [mbind exn_bind app].
  change (byte_to_Z x03) with 3.
  rewrite (bytearray_append_ok _ 3) by lia. cbn [mbind exn_bind app].
  change (byte_of_Z 3) with x03.
  rewrite (bytearray_append_ok _ (quantity * 2)) by lia.
  cbn [mbind exn_bind app].
  pose proof (extend_values_spec values Hvalues) as Hloop.
  unfold bytearray_extend in Hloop. rewrite Hloop.
  cbn [mbind exn_bind app]. reflexivity.
Qed.

(** The parser on a frame made of a header with length field
    [3 + 2 * n], a byte count of [2 * n] and the two bytes of each of [n]
    register values. *)
Lemma parse_register_response (self : ModbusParser) (d0 d1 d6 : byte)
  (quantity : Z) (values : list Z) :
  len values = quantity -> quantity <= 127 ->
  Forall (fun v => 0 <= v <= 65535) values ->
  (parse_packet self
     ([d0; d1; x00; x00;
       byte_of_Z ((3 + quantity * 2) / 256);
       byte_of_Z ((3 + quantity * 2) mod 256);
       d6; x03; byte_of_Z (quantity * 2)]
        ++ flat_map (fun v => [byte_of_Z (v / 256); byte_of_Z (v mod 256)])
             values)).1.1
  = Some (parsed_packet_of
            ([d0; d1; x00; x00;
              byte_of_Z ((3 + quantity * 2) / 256);
              byte_of_Z ((3 + quantity * 2) mod 256);
              d6; x03; byte_of_Z (quantity * 2)]
               ++ flat_map
                    (fun v => [byte_of_Z (v / 256); byte_of_Z (v mod 256)])
                    values)
            (be16 d0 d1) (3 + quantity * 2) (byte_to_Z d6) 3
            (ReadPayload (quantity * 2) values)).
Proof.
  intros Hcount Hq Hvalues.
  pose proof (len_nonneg values) as Hnonneg.
  set (encoded :=
         flat_map (fun v => [byte_of_Z (v / 256); byte_of_Z (v mod 256)])
           values).
  assert (len encoded = 2 * quantity) as Hencoded
    by (unfold encoded; rewrite len_encode; lia).
  set (hi := byte_of_Z ((3 + quantity * 2) / 256)).
  set (lo := byte_of_Z ((3 + quantity * 2) mod 256)).
  set (count := byte_of_Z (quantity * 2)).
  set (response := [d0; d1; x00; x00; hi; lo; d6; x03; count] ++ encoded).
  assert (be16 hi lo = 3 + quantity * 2) as Hfield
    by (apply pack_H_ok; lia).
  assert (8 <= len response) as Hlen.
  { unfold response. rewrite len_app. change (len [_; _; _; _; _; _; _; _; _])
      with 9. lia. }
  pose proof (read_header_bytes d0 d1 x00 x00 hi lo d6 x03
                (count :: encoded)) as Hhdr.
  change (be16 x00 x00) with 0 in Hhdr. change (byte_to_Z x03) with 3 in Hhdr.
  rewrite Hfield in Hhdr.
  destruct (parse_packet_accepted self response _ _ _ _ Hlen Hhdr)
    as (parsed_data & Hbody & ->).
  cbn [fst]. do 2 f_equal.
  assert (payload_of response (3 + quantity * 2) = count :: encoded) as Hp.
  { pose proof (payload_of_exact [d0; d1; x00; x00; hi; lo; d6; x03]
                  (count :: encoded) [] eq_refl) as Hexact.
    rewrite app_nil_r in Hexact.
    replace (len (count :: encoded) + 2) with (3 + quantity * 2) in Hexact
      by (unfold len in *; cbn [length]; lia).
    exact Hexact. }
  rewrite Hp, parse_function_body_registers in Hbody by (now left).
  injection Hbody as <-. unfold count.
  rewrite byte_to_of_Z by lia. f_equal.
  replace (2 * ((quantity * 2 + 1) / 2)) with (2 * quantity).
  - rewrite take_ge by (unfold len in *; lia).
    now apply words_encode.
  - replace (quantity * 2 + 1) with (1 + quantity * 2) by lia.
    rewrite Z.div_add by lia. change (1 / 2) with 0. lia.
Qed.

(** X20: the parser reads back what the simulated server answers. For a
    read holding registers request (function code 3, at least 12 bytes) for
    at most 127 registers whose values fit in 16 bits, the server returns a
    frame that [parse_packet] accepts, with the transaction id and the unit
    id of the request, function code 3, a length field of three plus twice
    the quantity, and as values the registers asked for, a register that
    is not in the dictionary being 0. *)
Theorem server_register_response_is_read_back
  (server : SimpleModbusServer.t) (self : ModbusParser)
  (d0 d1 d2 d3 d4 d5 d6 s0 s1 q0 q1 : byte) (more : list byte) :
  let data :=
    d0 :: d1 :: d2 :: d3 :: d4 :: d5 :: d6 :: x03
       :: s0 :: s1 :: q0 :: q1 :: more in
  let start_addr := be16 s0 s1 in
  let quantity := be16 q0 q1 in
  let values :=
    (fun i =>
       default 0
         (SimpleModbusServer.holding_registers server !! (start_addr + i)))
      <$> range 0 quantity in
  quantity <= 127 ->
  Forall (fun v => 0 <= v <= 65535) values ->
  exists response p,
    SimpleModbusServer._handle_modbus_request server data = Some response /\
    (parse_packet self response).1.1 = Some p /\
    Packet.transaction_id p = be16 d0 d1 /\
    Packet.protocol_id p = 0 /\
    Packet.length p = 3 + 2 * quantity /\
    Packet.unit_id p = byte_to_Z d6 /\
    Packet.function_code p = 3 /\
    Packet.payload p = ReadPayload (2 * quantity) values.
Proof.
  intros data start_addr quantity values Hq Hvalues.
  assert (len values = quantity) as Hcount.
  { pose proof (be16_bounds q0 q1). unfold values, len.
    rewrite length_fmap, range_length. unfold quantity. lia. }
  do 2 eexists. split.
  - now apply handle_read_holding_registers.
  - rewrite parse_register_response by done.
    split; [reflexivity|].
    cbn [parsed_packet_of Packet.transaction_id Packet.protocol_id
           Packet.length Packet.unit_id Packet.function_code
           Packet.payload].
    fold quantity start_addr values.
    replace (quantity * 2) with (2 * quantity) by lia. now split_and!.
Qed.

Lemma server_register_response_is_read_back_witness :
  be16 x00 x02 <= 127 /\
  Forall (fun v => 0 <= v <= 65535)
    ((fun i => default 0 (({[ 1000 := 50; 1001 := 45 ]} : gmap Z Z)
                            !! (be16 x03 xe8 + i)))
       <$> range 0 (be16 x00 x02)) /\
  exists response p,
    SimpleModbusServer._handle_modbus_request
      {| SimpleModbusServer.holding_registers :=
           {[ 1000 := 50; 1001 := 45 ]};
         SimpleModbusServer.coils := ∅ |}
      [x00; x07; x00; x00; x00; x06; x01; x03; x03; xe8; x00; x02]
      = Some response /\
    (parse_packet init response).1.1 = Some p /\
    Packet.payload p
      = ReadPayload (2 * be16 x00 x02)
          ((fun i => default 0 (({[ 1000 := 50; 1001 := 45 ]} : gmap Z Z)
                                  !! (be16 x03 xe8 + i)))
             <$> range 0 (be16 x00 x02)).
Proof.
  assert (be16 x00 x02 <= 127) as H1 by (vm_compute; discriminate).
  assert (Forall (fun v => 0 <= v <= 65535)
            ((fun i => default 0 (({[ 1000 := 50; 1001 := 45 ]} : gmap Z Z)
                                    !! (be16 x03 xe8 + i)))
               <$> range 0 (be16 x00 x02))) as H2.
  { change (range 0 (be16 x00 x02)) with [0; 1].
    cbn [fmap list_fmap]. repeat constructor; vm_compute; discriminate. }
  split; [exact H1|]. split; [exact H2|].
  destruct (server_register_response_is_read_back
              {| SimpleModbusServer.holding_registers :=
                   {[ 1000 := 50; 1001 := 45 ]};
                 SimpleModbusServer.coils := ∅ |}
              init x00 x07 x00 x00 x00 x06 x01 x03 xe8 x00 x02 [] H1 H2)
    as (response & p & Hresp & Hp & _ & _ & _ & _ & _ & Hpayload).
  exists response, p. split_and!; [exact Hresp|exact Hp|exact Hpayload].
Defined.

(** X21: the server answers a read holding registers request of at least
    12 bytes exactly when it is for at most 127 registers and every value
    to send fits in 16 bits; otherwise packing the response raises and the
    function returns [None]. *)
Theorem server_answers_small_register_reads
  (server : SimpleModbusServer.t)
  (d0 d1 d2 d3 d4 d5 d6 s0 s1 q0 q1 : byte) (more : list byte) :
  let data :=
    d0 :: d1 :: d2 :: d3 :: d4 :: d5 :: d6 :: x03
       :: s0 :: s1 :: q0 :: q1 :: more in
  let values :=
    (fun i =>
       default 0
         (SimpleModbusServer.holding_registers server !! (be16 s0 s1 + i)))
      <$> range 0 (be16 q0 q1) in
  is_Some (SimpleModbusServer._handle_modbus_request server data) <->
  be16 q0 q1 <= 127 /\ Forall (fun v => 0 <= v <= 65535) values.
Proof.
  intros data values. split.
  2:{ intros [Hq Hvalues]. unfold data.
      rewrite (handle_read_holding_registers server d0 d1 d2 d3 d4 d5 d6
                 s0 s1 q0 q1 more Hq Hvalues). eauto. }
  pose proof (be16_bounds q0 q1) as Hqb.
  assert (len data = 12 + len more) as Hlen
    by (unfold len, data; cbn [length]; lia).
  pose proof (len_nonneg more) as Hmore.
  assert (len values = be16 q0 q1) as Hcount.
  { unfold values, len. rewrite length_fmap, range_length. lia. }
  unfold SimpleModbusServer._handle_modbus_request,
    SimpleModbusServer.handle_modbus_request_body.
  rewrite (proj2 (Z.ltb_ge _ _)) by lia.
  assert (slice data 0 2 = [d0; d1]) as ->
    by (rewrite slice_take_drop by lia; reflexivity).
  assert (slice data 2 4 = [d2; d3]) as ->
    by (rewrite slice_take_drop by lia; reflexivity).
  assert (slice data 4 6 = [d4; d5]) as ->
    by (rewrite slice_take_drop by lia; reflexivity).
  assert (slice data 8 10 = [s0; s1]) as ->
    by (rewrite slice_take_drop by lia; reflexivity).
  assert (slice data 10 12 = [q0; q1]) as ->
    by (rewrite slice_take_drop by lia; reflexivity).
  cbn [unpack_H mbind exn_bind].
  rewrite (getitem_lookup data 6 d6), (getitem_lookup data 7 x03)
    by (done || lia).
  cbn [mbind exn_bind]. change (byte_to_Z x03 =? 3) with true. cbn match.
  rewrite Z.geb_leb, (proj2 (Z.leb_le _ _)) by lia.
  change (256 * byte_to_Z s0 + byte_to_Z s1) with (be16 s0 s1).
  change (256 * byte_to_Z q0 + byte_to_Z q1) with (be16 q0 q1).
  change (256 * byte_to_Z d0 + byte_to_Z d1) with (be16 d0 d1).
  rewrite response_data_spec. fold values. cbn [mbind exn_bind].
  rewrite pack_H_be16. cbn [mbind exn_bind].
  change (pack_H 0) with (Ok (A := list byte) [x00; x00]).
  cbn [mbind exn_bind]. rewrite Hcount.
  destruct (decide (0 <= 3 + be16 q0 q1 * 2 <= 65535)) as [Hfit|Hfit].
  2:{ destruct (pack_H_raises _ Hfit) as [e ->]. cbn [mbind exn_bind].
      now intros [? [=]]. }
  destruct (pack_H_ok _ Hfit) as [-> _]. cbn [mbind exn_bind].
  rewrite bytearray_append_byte. cbn [mbind exn_bind].
  change (byte_to_Z x03) with 3.
  rewrite (bytearray_append_ok _ 3) by lia. cbn [mbind exn_bind].
  destruct (Z.le_gt_cases (be16 q0 q1) 127) as [Hq|Hq].
  - rewrite (bytearray_append_ok _ (be16 q0 q1 * 2)) by lia.
    cbn [mbind exn_bind].
    destruct (decide (Forall (fun v => 0 <= v <= 65535) values))
      as [Hvalues|Hvalues]; [done|].
    match goal with
    | |- context [for_ values _ ?response] =>
        destruct (extend_values_raises values Hvalues response) as [e ->]
    end.
    cbn [mbind exn_bind]. now intros [? [=]].
  - unfold bytearray_append at 1.
    rewrite (proj2 (Z.ltb_ge _ _)) by lia.
    rewrite andb_false_r. cbn [mbind exn_bind]. now intros [? [=]].
Qed.

(** *** Coils *)

(** A loop that neither raises nor breaks is a fold. *)
Lemma for__fold_left {A S} (g : S -> A -> S)
  (body : A -> S -> exn (flow S)) (xs : list A) :
  (forall x s, In x xs -> body x s = Ok (Next (g s x))) ->
  forall s, for_ xs body s = Ok (fold_left g xs s).
Proof.
  induction xs as [|x xs IH]; intros Hbody s; [done|].
  cbn [for_ fold_left]. rewrite Hbody by now left.
  apply IH. intros y s' Hy. apply Hbody. now right.
Qed.

(** The bits of a number built by setting bit [j] for the [j] of a list
    where [c j] holds. *)
Lemma fold_lor_bits (c : Z -> bool) (js : list Z) :
  Forall (fun j => 0 <= j) js ->
  forall acc k,
    0 <= acc -> 0 <= k ->
    0 <= fold_left (fun byte_val j =>
                      if c j then Z.lor byte_val (Z.shiftl 1 j)
                      else byte_val) js acc /\
    Z.testbit
      (fold_left (fun byte_val j =>
                    if c j then Z.lor byte_val (Z.shiftl 1 j) else byte_val)
         js acc) k
    = Z.testbit acc k || (existsb (Z.eqb k) js && c k).
Proof.
  induction 1 as [|j js Hj _ IH]; intros acc k Hacc Hk; cbn [fold_left].
  - cbn. now rewrite orb_false_r.
  - assert (0 <= Z.shiftl 1 j) by (apply Z.shiftl_nonneg; lia).
    destruct (IH (if c j then Z.lor acc (Z.shiftl 1 j) else acc) k)
      as [Hnonneg ->]; [|done|].
    { destruct (c j); [apply Z.lor_nonneg|]; lia. }
    split; [exact Hnonneg|]. cbn [existsb].
    destruct (c j) eqn:Hc.
    + rewrite Z.lor_spec, Z.shiftl_1_l, Z.pow2_bits_eqb by lia.
      rewrite (Z.eqb_sym j k).
      destruct (Z.eqb_spec k j) as [->|Hne]; [rewrite Hc|];
        cbn [orb andb]; destruct (Z.testbit acc _), (existsb _ js), (c _);
        reflexivity.
    + destruct (Z.eqb_spec k j) as [->|Hne]; [rewrite Hc|];
        cbn [orb andb]; now rewrite ?andb_false_r.
Qed.

Lemma byte_of_bits_testbit (c : Z -> bool) (k : Z) :
  0 <= k ->
  Z.testbit (byte_of_bits c) k = existsb (Z.eqb k) [0; 1; 2; 3; 4; 5; 6; 7]
                                 && c k.
Proof.
  intros Hk. unfold byte_of_bits.
  destruct (fold_lor_bits c [0; 1; 2; 3; 4; 5; 6; 7]) with (acc := 0) (k := k)
    as [_ ->]; try lia.
  - repeat constructor; lia.
  - now rewrite Z.bits_0.
Qed.

Lemma byte_of_bits_bounds (c : Z -> bool) : 0 <= byte_of_bits c < 256.
Proof.
  assert (0 <= byte_of_bits c) as Hnonneg.
  { unfold byte_of_bits.
    apply (fold_lor_bits c [0; 1; 2; 3; 4; 5; 6; 7]) with (k := 0);
      try lia. repeat constructor; lia. }
  split; [exact Hnonneg|].
  assert (byte_of_bits c = byte_of_bits c mod 2 ^ 8) as ->.
  { apply Z.bits_inj'. intros k Hk.
    destruct (Z.lt_ge_cases k 8).
    - now rewrite Z.mod_pow2_bits_low.
    - rewrite Z.mod_pow2_bits_high, byte_of_bits_testbit by lia.
      assert (existsb (Z.eqb k) [0; 1; 2; 3; 4; 5; 6; 7] = false) as ->;
        [|done].
      cbn [existsb].
      rewrite !(proj2 (Z.eqb_neq k _)) by lia. reflexivity. }
  apply Z.mod_pos_bound. reflexivity.
Qed.

(** The decoder reads back the bits a byte was built from. *)
Lemma bits_lsb_first_byte_of_bits (c : Z -> bool) :
  bits_lsb_first (byte_of_Z (byte_of_bits c))
  = (fun j => Z.b2z (c j)) <$> [0; 1; 2; 3; 4; 5; 6; 7].
Proof.
  unfold bits_lsb_first.
  rewrite byte_to_of_Z by apply byte_of_bits_bounds.
  cbn [map fmap list_fmap].
  rewrite !byte_of_bits_testbit by lia. reflexivity.
Qed.

(** The bytes the server builds for a read coils response. *)
Lemma coil_bytes_spec (server : SimpleModbusServer.t)
  (start_addr quantity byte_count : Z) :
  SimpleModbusServer.coil_bytes server start_addr quantity byte_count =
    Ok ((fun i =>
           byte_of_bits
             (fun j => coil_asked server start_addr quantity (i * 8 + j)))
          <$> range 0 byte_count).
Proof.
  unfold SimpleModbusServer.coil_bytes.
  rewrite (for__append (fun i i' : Z => i = i')
             (fun i =>
                [byte_of_bits
                   (fun j =>
                      coil_asked server start_addr quantity (i * 8 + j))])
             _ _ (range 0 byte_count)).
  - cbn [app]. now rewrite flat_map_singleton.
  - intros i ? coil_bytes <-.
    rewrite (for__fold_left
               (fun byte_val j =>
                  if coil_asked server start_addr quantity (i * 8 + j)
                  then Z.lor byte_val (Z.shiftl 1 j) else byte_val)).
    + reflexivity.
    + intros j byte_val _. unfold coil_asked.
      replace (start_addr + (i * 8 + j)) with (start_addr + i * 8 + j)
        by lia.
      destruct (Z.ltb_spec (start_addr + i * 8 + j)
                  (start_addr + quantity)),
        (Z.ltb_spec (i * 8 + j) quantity); try lia; cbn [andb];
        [|reflexivity].
      now destruct (default false _).
  - apply Forall_Forall2_diag, Forall_forall. now intros.
Qed.

(** The loop that appends the coil bytes to the response. *)
Lemma extend_bytes_spec (bytes : list Z) :
  Forall (fun v => 0 <= v < 256) bytes ->
  forall response,
    for_ bytes
      (fun byte_val response =>
         response ← bytearray_append response byte_val;
         Ok (Next response))
      response
    = Ok (response ++ (byte_of_Z <$> bytes)).
Proof.
  induction 1 as [|v bytes Hv _ IH]; intros response;
    cbn [for_ fmap list_fmap].
  - now rewrite app_nil_r.
  - rewrite bytearray_append_ok by done. cbn [mbind exn_bind].
    rewrite IH. now rewrite <- app_assoc.
Qed.

(** The response to a read coils request the server can answer. *)
Lemma handle_read_coils (server : SimpleModbusServer.t)
  (d0 d1 d2 d3 d4 d5 d6 s0 s1 q0 q1 : byte) (more : list byte) :
  let data :=
    d0 :: d1 :: d2 :: d3 :: d4 :: d5 :: d6 :: x01
       :: s0 :: s1 :: q0 :: q1 :: more in
  let quantity := be16 q0 q1 in
  let byte_count := (quantity + 7) / 8 in
  quantity <= 2040 ->
  SimpleModbusServer._handle_modbus_request server data =
    Some ([d0; d1; x00; x00;
           byte_of_Z ((3 + byte_count) / 256);
           byte_of_Z ((3 + byte_count) mod 256);
           d6; x01; byte_of_Z byte_count]
            ++ (byte_of_Z <$>
                  ((fun i =>
                      byte_of_bits
                        (fun j =>
                           coil_asked server (be16 s0 s1) quantity
                             (i * 8 + j)))
                     <$> range 0 byte_count))).
Proof.
  intros data quantity byte_count Hq.
  pose proof (be16_bounds q0 q1) as Hqb. fold quantity in Hqb.
  assert (0 <= byte_count <= 255) as Hbc.
  { unfold byte_count. split; [apply Z.div_pos; lia|].
    apply Z.lt_succ_r, Z.div_lt_upper_bound; lia. }
  assert (len data = 12 + len more) as Hlen
    by (unfold len, data; cbn [length]; lia).
  pose proof (len_nonneg more) as Hmore.
  unfold SimpleModbusServer._handle_modbus_request,
    SimpleModbusServer.handle_modbus_request_body.
  rewrite (proj2 (Z.ltb_ge _ _)) by lia.
  assert (slice data 0 2 = [d0; d1]) as ->
    by (rewrite slice_take_drop by lia; reflexivity).
  assert (slice data 2 4 = [d2; d3]) as ->
    by (rewrite slice_take_drop by lia; reflexivity).
  assert (slice data 4 6 = [d4; d5]) as ->
    by (rewrite slice_take_drop by lia; reflexivity).
  assert (slice data 8 10 = [s0; s1]) as ->
    by (rewrite slice_take_drop by lia; reflexivity).
  assert (slice data 10 12 = [q0; q1]) as ->
    by (rewrite slice_take_drop by lia; reflexivity).
  cbn [unpack_H mbind exn_bind].
  rewrite (getitem_lookup data 6 d6), (getitem_lookup data 7 x01)
    by (done || lia).
  cbn [mbind exn_bind]. change (byte_to_Z x01 =? 3) with false.
  change (byte_to_Z x01 =? 1) with true. cbn match.
  rewrite Z.geb_leb, (proj2 (Z.leb_le _ _)) by lia.
  change (256 * byte_to_Z s0 + byte_to_Z s1) with (be16 s0 s1).
  change (256 * byte_to_Z q0 + byte_to_Z q1) with quantity.
  change (256 * byte_to_Z d0 + byte_to_Z d1) with (be16 d0 d1).
  fold byte_count. rewrite coil_bytes_spec. cbn [mbind exn_bind].
  rewrite pack_H_be16. cbn [mbind exn_bind].
  change (pack_H 0) with (Ok (A := list byte) [x00; x00]).
  cbn [mbind exn_bind].
  destruct (pack_H_ok (3 + byte_count)) as [-> _]; [lia|].
  cbn [mbind exn_bind]. unfold bytearray_extend. cbn [app].
  rewrite bytearray_append_byte. cbn [mbind exn_bind app].
  change (byte_to_Z x01) with 1.
  rewrite (bytearray_append_ok _ 1) by lia. cbn [mbind exn_bind app].
  change (byte_of_Z 1) with x01.
  rewrite (bytearray_append_ok _ byte_count) by lia.
  cbn [mbind exn_bind app].
  rewrite extend_bytes_spec.
  - cbn [mbind exn_bind app]. reflexivity.
  - apply Forall_fmap, Forall_forall. intros i _.
    apply byte_of_bits_bounds.
Qed.

(** X22: the parser reads back the coils the simulated server answers. For
    a read coils request (function code 1, at least 12 bytes) for at most
    2040 coils, the server returns a frame that [parse_packet] accepts,
    with the transaction id and the unit id of the request, function code
    1, and as values eight bits per response byte in request order: bit
    [k] is 1 exactly when [k] is below the quantity asked and the coil at
    [start_addr + k] is on, a coil that is not in the dictionary being
    off. *)
Theorem server_coil_response_is_read_back
  (server : SimpleModbusServer.t) (self : ModbusParser)
  (d0 d1 d2 d3 d4 d5 d6 s0 s1 q0 q1 : byte) (more : list byte) :
  let data :=
    d0 :: d1 :: d2 :: d3 :: d4 :: d5 :: d6 :: x01
       :: s0 :: s1 :: q0 :: q1 :: more in
  let start_addr := be16 s0 s1 in
  let quantity := be16 q0 q1 in
  let byte_count := (quantity + 7) / 8 in
  quantity <= 2040 ->
  exists response p,
    SimpleModbusServer._handle_modbus_request server data = Some response /\
    (parse_packet self response).1.1 = Some p /\
    Packet.transaction_id p = be16 d0 d1 /\
    Packet.length p = 3 + byte_count /\
    Packet.unit_id p = byte_to_Z d6 /\
    Packet.function_code p = 1 /\
    Packet.payload p =
      ReadPayload byte_count
        (flat_map
           (fun i =>
              (fun j =>
                 Z.b2z (coil_asked server start_addr quantity (i * 8 + j)))
                <$> [0; 1; 2; 3; 4; 5; 6; 7])
           (range 0 byte_count)).
Proof.
  intros data start_addr quantity byte_count Hq.
  pose proof (be16_bounds q0 q1) as Hqb. fold quantity in Hqb.
  assert (0 <= byte_count <= 255) as Hbc.
  { unfold byte_count. split; [apply Z.div_pos; lia|].
    apply Z.lt_succ_r, Z.div_lt_upper_bound; lia. }
  set (bytes :=
         (fun i =>
            byte_of_bits
              (fun j => coil_asked server start_addr quantity (i * 8 + j)))
           <$> range 0 byte_count).
  set (hi := byte_of_Z ((3 + byte_count) / 256)).
  set (lo := byte_of_Z ((3 + byte_count) mod 256)).
  set (count := byte_of_Z byte_count).
  set (response :=
         [d0; d1; x00; x00; hi; lo; d6; x01; count] ++ (byte_of_Z <$> bytes)).
  assert (SimpleModbusServer._handle_modbus_request server data
          = Some response) as Hresponse
    by (now apply handle_read_coils).
  exists response. 
  assert (len bytes = byte_count) as Hbytes.
  { unfold bytes, len. rewrite length_fmap, range_length. lia. }
  assert (be16 hi lo = 3 + byte_count) as Hfield
    by (apply pack_H_ok; lia).
  assert (8 <= len response) as Hlen.
  { unfold response. rewrite len_app.
    change (len [_; _; _; _; _; _; _; _; _]) with 9.
    pose proof (len_nonneg (byte_of_Z <$> bytes)). lia. }
  pose proof (read_header_bytes d0 d1 x00 x00 hi lo d6 x01
                (count :: (byte_of_Z <$> bytes))) as Hhdr.
  change (be16 x00 x00) with 0 in Hhdr. change (byte_to_Z x01) with 1 in Hhdr.
  rewrite Hfield in Hhdr.
  destruct (parse_packet_accepted self response _ _ _ _ Hlen Hhdr)
    as (parsed_data & Hbody & Hcall).
  eexists. split; [exact Hresponse|]. rewrite Hcall. cbn [fst].
  split; [reflexivity|].
  cbn [parsed_packet_of Packet.transaction_id Packet.length Packet.unit_id
         Packet.function_code Packet.payload].
  split_and!; try reflexivity.
  assert (payload_of response (3 + byte_count)
          = count :: (byte_of_Z <$> bytes)) as Hp.
  { pose proof (payload_of_exact [d0; d1; x00; x00; hi; lo; d6; x01]
                  (count :: (byte_of_Z <$> bytes)) [] eq_refl) as Hexact.
    rewrite app_nil_r in Hexact.
    replace (len (count :: (byte_of_Z <$> bytes)) + 2)
      with (3 + byte_count) in Hexact
      by (unfold len in *; cbn [length]; rewrite length_fmap; lia).
    exact Hexact. }
  rewrite Hp, parse_function_body_bits in Hbody by (now left).
  injection Hbody as <-. unfold count.
  rewrite byte_to_of_Z by lia. f_equal.
  rewrite take_ge by (rewrite length_fmap; unfold len in *; lia).
  unfold unpack_bits, bytes.
  rewrite <- list_fmap_compose, flat_map_concat_map, <- list_fmap_compose.
  rewrite <- flat_map_concat_map. apply flat_map_ext. intros i.
  unfold compose. apply bits_lsb_first_byte_of_bits.
Qed.

Lemma server_coil_response_is_read_back_witness :
  be16 x00 x03 <= 2040 /\
  exists response p,
    SimpleModbusServer._handle_modbus_request
      {| SimpleModbusServer.holding_registers := ∅;
         SimpleModbusServer.coils := {[ 2000 := true; 2002 := true ]} |}
      [x00; x09; x00; x00; x00; x06; x01; x01; x07; xd0; x00; x03]
      = Some response /\
    (parse_packet init response).1.1 = Some p /\
    Packet.function_code p = 1.
Proof.
  assert (be16 x00 x03 <= 2040) as H1 by (vm_compute; discriminate).
  split; [exact H1|].
  destruct (server_coil_response_is_read_back
              {| SimpleModbusServer.holding_registers := ∅;
                 SimpleModbusServer.coils :=
                   {[ 2000 := true; 2002 := true ]} |}
              init x00 x09 x00 x00 x00 x06 x01 x07 xd0 x00 x03 [] H1)
    as (response & p & Hresp & Hp & _ & _ & _ & Hfc & _).
  exists response, p. split_and!; [exact Hresp|exact Hp|exact Hfc].
Defined.

(** The coils of the witness, read back: three coils asked, the first and
    the third on, five bits of padding. *)
Example server_coils_read_back :
  exists response,
    SimpleModbusServer._handle_modbus_request
      {| SimpleModbusServer.holding_registers := ∅;
         SimpleModbusServer.coils := {[ 2000 := true; 2002 := true ]} |}
      [x00; x09; x00; x00; x00; x06; x01; x01; x07; xd0; x00; x03]
      = Some response /\
    response = [x00; x09; x00; x00; x00; x04; x01; x01; x01; x05] /\
    (_parse_function 1 (drop 8 response)).1
      = ReadPayload 1 [1; 0; 1; 0; 0; 0; 0; 0].
Proof. eexists. split_and!; vm_compute; reflexivity. Qed.

(** X23: the server function answers nothing but read holding registers
    and read coils requests of at least 12 bytes: on a shorter request, or
    with any function code other than 3 and 1, it returns [None]. *)
Theorem server_answers_only_reads (server : SimpleModbusServer.t)
  (data : list byte) :
  is_Some (SimpleModbusServer._handle_modbus_request server data) ->
  12 <= len data /\
  (data !! 7%nat = Some x03 \/ data !! 7%nat = Some x01).
Proof.
  unfold SimpleModbusServer._handle_modbus_request.
  destruct (Z.ltb_spec (len data) 8) as [Hshort|Hlen];
    [now intros [? [=]]|].
  destruct (eight_bytes data Hlen)
    as (b0 & b1 & b2 & b3 & b4 & b5 & b6 & b7 & rest & ->).
  set (data := b0 :: b1 :: b2 :: b3 :: b4 :: b5 :: b6 :: b7 :: rest) in *.
  unfold SimpleModbusServer.handle_modbus_request_body.
  assert (slice data 0 2 = [b0; b1]) as ->
    by (rewrite slice_take_drop by lia; reflexivity).
  assert (slice data 2 4 = [b2; b3]) as ->
    by (rewrite slice_take_drop by lia; reflexivity).
  assert (slice data 4 6 = [b4; b5]) as ->
    by (rewrite slice_take_drop by lia; reflexivity).
  cbn [unpack_H mbind exn_bind].
  rewrite (getitem_lookup data 6 b6), (getitem_lookup data 7 b7)
    by (done || lia).
  cbn [mbind exn_bind]. change (data !! 7%nat) with (Some b7).
  rewrite !Z.geb_leb.
  destruct (Z.eqb_spec (byte_to_Z b7) 3) as [H3|_].
  { destruct (Z.leb_spec 12 (len data)); [|now intros [? [=]]].
    intros _. split; [done|]. left. f_equal. now apply byte_to_Z_inj. }
  destruct (Z.eqb_spec (byte_to_Z b7) 1) as [H1|_];
    [|now intros [? [=]]].
  destruct (Z.leb_spec 12 (len data)); [|now intros [? [=]]].
  intros _. split; [done|]. right. f_equal. now apply byte_to_Z_inj.
Qed.

Lemma server_answers_only_reads_witness :
  is_Some
    (SimpleModbusServer._handle_modbus_request
       {| SimpleModbusServer.holding_registers := ∅;
          SimpleModbusServer.coils := ∅ |}
       [x00; x09; x00; x00; x00; x06; x01; x01; x07; xd0; x00; x03]) /\
  12 <= len [x00; x09; x00; x00; x00; x06; x01; x01; x07; xd0; x00; x03].
Proof.
  assert (is_Some
            (SimpleModbusServer._handle_modbus_request
               {| SimpleModbusServer.holding_registers := ∅;
                  SimpleModbusServer.coils := ∅ |}
               [x00; x09; x00; x00; x00; x06; x01; x01; x07; xd0; x00; x03]))
    as H1 by (vm_compute; eauto).
  split; [exact H1|].
  exact (proj1 (server_answers_only_reads _ _ H1)).
Defined.

(** ** The claims on malformed and truncated frames *)

(** An error dictionary is returned below the thresholds of the guards and
    nowhere else. *)
Lemma parse_function_body_error_iff (function_code : Z)
  (payload : list byte) (parsed_data : Payload) :
  parse_function_body function_code payload = Ok parsed_data ->
  ((exists msg, parsed_data = ErrorPayload msg) <->
   len payload < required_len function_code) /\
  (forall e raw, parsed_data <> ExceptionPayload e raw).
Proof.
  intros Hbody.
  destruct (Z.lt_ge_cases (len payload) (required_len function_code))
    as [Hshort|Hlong].
  - destruct (parse_function_body_short _ _ Hshort) as [msg Hmsg].
    rewrite Hmsg in Hbody. injection Hbody as <-.
    split; [|discriminate]. split; [done|eauto].
  - destruct (parse_function_body_long _ _ Hlong) as (p & Hp & Hshape).
    rewrite Hp in Hbody. injection Hbody as <-. split.
    + split; [|lia]. intros [msg ->]. contradiction.
    + intros e raw ->. contradiction.
Qed.

(** The snapshot after one more packet is stored, entry by entry. *)
Lemma statistics_after_store (self : ModbusParser) (p : Packet.t) :
  let c := count_packets (packets self) in
  let stats := get_statistics (stored self p) in
  stats !! "transaction_count"
    = Some (IntValue (transaction_count self + 1)) /\
  stats !! "function_codes"
    = Some (CountsValue
              (<[Packet.function_code p :=
                   default 0 (function_counts c !! Packet.function_code p)
                   + 1]>
                 (function_counts c))) /\
  (exists us,
     stats !! "unit_ids" = Some (ListValue us) /\
     NoDup us /\
     forall u, u ∈ us <-> u = Packet.unit_id p \/ u ∈ unit_ids c) /\
  stats !! "read_operations"
    = Some (IntValue
              (read_operations c +
               if in_list (Packet.function_code p) [1; 2; 3; 4]
               then 1 else 0)) /\
  stats !! "write_operations"
    = Some (IntValue
              (write_operations c +
               if in_list (Packet.function_code p) [5; 6; 15; 16]
               then 1 else 0)).
Proof.
  intros c stats. subst stats. rewrite get_statistics_stored. fold c.
  destruct (statistics_of_lookup (transaction_count self + 1)
              (count_packet c p)) as (-> & -> & -> & -> & ->).
  unfold count_packet.
  cbn [function_counts unit_ids read_operations write_operations].
  split_and!; try reflexivity.
  - eexists. split; [reflexivity|]. split; [apply NoDup_elements|].
    intros u. rewrite elem_of_elements, elem_of_union, elem_of_singleton.
    tauto.
  - destruct (in_list (Packet.function_code p) [1; 2; 3; 4]);
      do 2 f_equal; lia.
  - destruct (in_list (Packet.function_code p) [1; 2; 3; 4]) eqn:Hread.
    + assert (in_list (Packet.function_code p) [5; 6; 15; 16] = false)
        as ->; [|do 2 f_equal; lia].
      apply not_true_is_false. intros Hwrite.
      apply in_list_true in Hread, Hwrite.
      rewrite !elem_of_cons, elem_of_nil in Hread, Hwrite. lia.
    + destruct (in_list (Packet.function_code p) [5; 6; 15; 16]);
        do 2 f_equal; lia.
Qed.

(** *** Malformed frames and the statistics *)

(** C1, as stated, fails on the frame of scenario C: function code 3 with no
    payload byte decodes to an error dictionary, and yet the frame is
    counted in every one of the five statistics. *)
Lemma C1_malformed_frame_is_counted :
  exists parsed_packet self',
    parse_packet init scenario_C
      = (Some parsed_packet, self', [LogParsed parsed_packet]) /\
    Packet.payload parsed_packet
      = ErrorPayload "Payload too short for read response" /\
    get_statistics init !! "transaction_count" = Some (IntValue 0) /\
    get_statistics self' !! "transaction_count" = Some (IntValue 1) /\
    get_statistics self' !! "function_codes"
      = Some (CountsValue {[ 3 := 1 ]}) /\
    get_statistics self' !! "unit_ids" = Some (ListValue [1]) /\
    get_statistics self' !! "read_operations" = Some (IntValue 1) /\
    get_statistics self' !! "write_operations" = Some (IntValue 0).
Proof.
  do 2 eexists. split; [vm_compute; reflexivity|].
  split_and!; vm_compute; reflexivity.
Qed.

(** C1, amended: the statistics reflect every accepted frame, whatever its
    payload decoded to. A frame of at least 8 bytes with protocol id 0 is
    decoded, with an error dictionary exactly when its payload is below
    the threshold of its function code, and in every case it is counted:
    [transaction_count] and the count of its function code go up by one,
    its unit id joins [unit_ids], and [read_operations] (codes 1 to 4) or
    [write_operations] (codes 5, 6, 15, 16) goes up by one. A frame of
    less than 8 bytes, or with another protocol id, leaves the instance,
    and with it the statistics, as they were. *)
Theorem C1_statistics_count_every_accepted_frame (self : ModbusParser)
  (packet : list byte) :
  (len packet < 8 ->
   (parse_packet self packet).1.1 = None /\
   (parse_packet self packet).1.2 = self) /\
  (forall transaction_id protocol_id length unit_id function_code,
     8 <= len packet ->
     read_header packet =
       Ok (transaction_id, protocol_id, length, unit_id, function_code) ->
     protocol_id <> 0 ->
     (parse_packet self packet).1.1 = None /\
     (parse_packet self packet).1.2 = self) /\
  (forall transaction_id length unit_id function_code,
     8 <= len packet ->
     read_header packet =
       Ok (transaction_id, 0, length, unit_id, function_code) ->
     exists parsed_data self',
       parse_packet self packet =
         (Some (parsed_packet_of packet transaction_id length unit_id
                  function_code parsed_data),
          self',
          [LogParsed (parsed_packet_of packet transaction_id length unit_id
                        function_code parsed_data)]) /\
       ((exists msg, parsed_data = ErrorPayload msg) <->
        len (payload_of packet length) < required_len function_code) /\
       let c := count_packets (packets self) in
       get_statistics self' !! "transaction_count"
         = Some (IntValue (transaction_count self + 1)) /\
       get_statistics self' !! "function_codes"
         = Some (CountsValue
                   (<[function_code :=
                        default 0 (function_counts c !! function_code) + 1]>
                      (function_counts c))) /\
       (exists us,
          get_statistics self' !! "unit_ids" = Some (ListValue us) /\
          NoDup us /\
          forall u, u ∈ us <-> u = unit_id \/ u ∈ unit_ids c) /\
       get_statistics self' !! "read_operations"
         = Some (IntValue
                   (read_operations c +
                    if in_list function_code [1; 2; 3; 4] then 1 else 0)) /\
       get_statistics self' !! "write_operations"
         = Some (IntValue
                   (write_operations c +
                    if in_list function_code [5; 6; 15; 16]
                    then 1 else 0))).
Proof.
  split_and!.
  - intros Hshort. now rewrite parse_packet_short.
  - intros transaction_id protocol_id length unit_id function_code
      Hlen Hhdr Hpid.
    now rewrite (parse_packet_rejected self packet _ _ _ _ _ Hlen Hhdr Hpid).
  - intros transaction_id length unit_id function_code Hlen Hhdr.
    destruct (parse_packet_accepted self packet _ _ _ _ Hlen Hhdr)
      as (parsed_data & Hbody & Hcall).
    exists parsed_data. eexists. split; [exact Hcall|].
    split; [now apply parse_function_body_error_iff|].
    exact (statistics_after_store self
             (parsed_packet_of packet transaction_id length unit_id
                function_code parsed_data)).
Qed.

Lemma C1_statistics_count_every_accepted_frame_witness :
  8 <= len scenario_C /\
  read_header scenario_C = Ok (1, 0, 2, 1, 3) /\
  len (payload_of scenario_C 2) < required_len 3 /\
  exists parsed_data self',
    parse_packet init scenario_C =
      (Some (parsed_packet_of scenario_C 1 2 1 3 parsed_data), self',
       [LogParsed (parsed_packet_of scenario_C 1 2 1 3 parsed_data)]) /\
    (exists msg, parsed_data = ErrorPayload msg) /\
    get_statistics self' !! "transaction_count" = Some (IntValue 1) /\
    get_statistics self' !! "read_operations" = Some (IntValue 1).
Proof.
  assert (8 <= len scenario_C) as H1 by (vm_compute; discriminate).
  assert (read_header scenario_C = Ok (1, 0, 2, 1, 3)) as H2 by reflexivity.
  assert (len (payload_of scenario_C 2) < required_len 3) as H3
    by reflexivity.
  split_and!; try assumption.
  destruct (C1_statistics_count_every_accepted_frame init scenario_C)
    as (_ & _ & Haccepted).
  destruct (Haccepted 1 2 1 3 H1 H2)
    as (parsed_data & self' & Hcall & Herror & Htc & _ & _ & Hread & _).
  exists parsed_data, self'.
  split_and!; [exact Hcall|exact (proj2 Herror H3)|exact Htc|exact Hread].
Defined.

(** *** The length field *)

Lemma in_list_reads (function_code : Z) :
  in_list function_code [1; 2; 3; 4]
    = in_list function_code [1; 2] || in_list function_code [3; 4].
Proof.
  unfold in_list. cbn [existsb].
  destruct (function_code =? 1), (function_code =? 2),
    (function_code =? 3), (function_code =? 4); reflexivity.
Qed.

(** Where the object loop stops: behind the objects it added, or two bytes
    further when it has read the header of an object that overruns the
    payload. *)
Lemma read_objects_offset (payload : list byte) (object_count : Z) :
  forall offset objects,
    0 <= offset <= len payload ->
    exists offset' more,
      read_objects payload object_count offset objects
        = Ok (offset', objects ++ more) /\
      offset' <= len payload /\
      (offset' = offset + objects_size more \/
       offset' = offset + objects_size more + 2 /\
       exists object_len,
         getitem payload (offset' - 1) = Ok object_len /\
         offset' + object_len > len payload).
Proof.
  unfold read_objects.
  induction (range 0 object_count) as [|x xs IH]; intros offset objects Hoff.
  - exists offset, []. rewrite app_nil_r. cbn [for_ objects_size foldr].
    split_and!; [done|lia|left; lia].
  - cbn [for_]. rewrite Z.geb_leb.
    destruct (Z.leb_spec (len payload) (offset + 1)) as [Hshort|Hhdr].
    { exists offset, []. rewrite app_nil_r. cbn [objects_size foldr].
      split_and!; [done|lia|left; lia]. }
    destruct (getitem_ok payload offset) as (xi & _ & Hid); [lia|].
    destruct (getitem_ok payload (offset + 1)) as (xl & _ & Hlen); [lia|].
    rewrite Hid, Hlen. cbn [mbind exn_bind]. rewrite Z.gtb_ltb.
    pose proof (byte_to_Z_bounds xl) as Hxl.
    destruct (Z.ltb_spec (len payload) (offset + 2 + byte_to_Z xl))
      as [Hover|Hfit].
    { exists (offset + 2), []. rewrite app_nil_r. cbn [objects_size foldr].
      split_and!; [done|lia|]. right. split; [lia|].
      exists (byte_to_Z xl). replace (offset + 2 - 1) with (offset + 1) by lia.
      split; [done|lia]. }
    set (o := {| id := byte_to_Z xi;
                 value := decode_ascii_replace
                            (slice payload (offset + 2)
                               (offset + 2 + byte_to_Z xl)) |}).
    assert (len (value o) = byte_to_Z xl) as Hvo.
    { unfold o. cbn [value].
      rewrite decode_ascii_replace_length, slice_length; lia. }
    destruct (IH (offset + 2 + byte_to_Z xl) (objects ++ [o]))
      as (offset' & more & -> & Hend & Hstop); [lia|].
    exists offset', (o :: more).
    rewrite <- app_assoc. cbn [app objects_size foldr].
    fold (objects_size more). rewrite Hvo.
    split_and!; [done|lia|].
    destruct Hstop as [->|[-> Hover]]; [left; lia|right].
    split; [lia|]. exact Hover.
Qed.

(** The consumed bytes are bytes of the payload, and they are the ones the
    decoded dictionary stands for. *)
Lemma payload_byte_length_spec (function_code : Z) (payload : list byte)
  (parsed_data : Payload) :
  parse_function_body function_code payload = Ok parsed_data ->
  0 <= payload_byte_length function_code payload <= len payload /\
  match parsed_data with
  | ErrorPayload _ | RawPayload _ =>
      payload_byte_length function_code payload = len payload
  | ReadPayload byte_count values =>
      if in_list function_code [1; 2]
      then payload_byte_length function_code payload
             = Z.min (1 + byte_count) (len payload) /\
           len values
             = 8 * (payload_byte_length function_code payload - 1)
      else payload_byte_length function_code payload = 1 + 2 * len values
  | WriteSinglePayload _ _ | WriteMultiplePayload _ _ =>
      payload_byte_length function_code payload = 4
  | DeviceIdPayload _ _ _ _ _ objects =>
      payload_byte_length function_code payload = 6 + objects_size objects \/
      payload_byte_length function_code payload
        = 6 + objects_size objects + 2
  | ExceptionPayload _ _ => False
  end.
Proof.
  pose proof (len_nonneg payload) as Hnonneg.
  unfold payload_byte_length, required_len, parse_function_body.
  rewrite in_list_reads.
  destruct (in_list function_code [1; 2]) eqn:Hbits; cbn [orb].
  { destruct (Z.ltb_spec (len payload) 1) as [Hshort|Hlong].
    { intros [= <-]. lia. }
    destruct (getitem_ok payload 0) as (x & _ & ->); [lia|].
    cbn [mbind exn_bind]. pose proof (byte_to_Z_bounds x).
    rewrite read_bits_spec by lia. cbn [mbind exn_bind].
    intros [= <-]. split; [lia|]. split; [done|].
    rewrite unpack_bits_length, slice_length; lia. }
  destruct (in_list function_code [3; 4]) eqn:Hwords.
  { destruct (Z.ltb_spec (len payload) 1) as [Hshort|Hlong].
    { intros [= <-]. lia. }
    destruct payload as [|x rest]; [unfold len in *; cbn [length] in *; lia|].
    rewrite getitem_head. cbn [mbind exn_bind].
    pose proof (byte_to_Z_bounds x).
    rewrite read_registers_spec by lia. cbn [mbind exn_bind].
    intros [= <-]. split; [|done].
    rewrite words_length.
    set (k := Z.to_nat (2 * ((byte_to_Z x + 1) / 2))).
    assert (len (take k rest) <= len rest) as Htake
      by (unfold len; rewrite length_take; lia).
    assert (len (x :: rest) = 1 + len rest) as ->
      by (unfold len; cbn [length]; lia).
    pose proof (len_nonneg (take k rest)).
    pose proof (Z.mul_div_le (len (take k rest)) 2).
    pose proof (Z.div_pos (len (take k rest)) 2). lia. }
  destruct (in_list function_code [5; 6]).
  { destruct (Z.ltb_spec (len payload) 4) as [Hshort|Hlong].
    { intros [= <-]. lia. }
    read_or_raise payload 0. read_or_raise payload 1.
    read_or_raise payload 2. read_or_raise payload 3.
    intros [= <-]. lia. }
  destruct (in_list function_code [15; 16]).
  { destruct (Z.ltb_spec (len payload) 4) as [Hshort|Hlong].
    { intros [= <-]. lia. }
    read_or_raise payload 0. read_or_raise payload 1.
    read_or_raise payload 2. read_or_raise payload 3.
    intros [= <-]. lia. }
  destruct (function_code =? 43).
  { destruct (Z.ltb_spec (len payload) 6) as [Hshort|Hlong].
    { intros [= <-]. lia. }
    read_or_raise payload 0. read_or_raise payload 1.
    read_or_raise payload 2. read_or_raise payload 3.
    read_or_raise payload 4.
    destruct (getitem_ok payload 5) as (n & _ & ->); [lia|].
    cbn [mbind exn_bind].
    destruct (read_objects_offset payload (byte_to_Z n) 6 [])
      as (offset' & more & -> & Hend & Hstop); [lia|].
    cbn [mbind exn_bind app snd]. intros [= <-].
    pose proof (len_nonneg more).
    assert (0 <= objects_size more) as Hsize.
    { clear. induction more as [|o more IH]; cbn [objects_size foldr];
        [lia|]. fold (objects_size more). pose proof (len_nonneg (value o)).
      lia. }
    split; [lia|]. destruct Hstop as [->|[-> _]]; [now left|now right]. }
  rewrite (proj2 (Z.ltb_ge _ _)) by lia. intros [= <-]. lia.
Qed.

(** C2, as stated, fails in two ways. On a frame whose length field
    announces more than the frame holds, the stored packet keeps the length
    7 of the wire while the raw remainder of its error result has no byte.
    On a complete frame of function code 16 with nine payload bytes, the
    length field is 11 and the decoder reads four bytes, address and
    quantity. *)
Lemma C2_length_is_not_consumed_bytes_plus_two :
  (exists parsed_packet self',
     parse_packet init truncated_frame
       = (Some parsed_packet, self', [LogParsed parsed_packet]) /\
     packets self' = [parsed_packet] /\
     Packet.payload parsed_packet
       = ErrorPayload "Payload too short for read response" /\
     payload_of truncated_frame 7 = [] /\
     payload_byte_length 3 (payload_of truncated_frame 7) = 0 /\
     Packet.length parsed_packet = 7 /\
     Packet.length parsed_packet
       <> payload_byte_length 3 (payload_of truncated_frame 7) + 2) /\
  (exists parsed_packet self',
     parse_packet init write_multiple_request_frame
       = (Some parsed_packet, self', [LogParsed parsed_packet]) /\
     packets self' = [parsed_packet] /\
     Packet.payload parsed_packet = WriteMultiplePayload 100 2 /\
     len write_multiple_request_frame = 8 + 11 - 2 /\
     len (payload_of write_multiple_request_frame 11) = 9 /\
     payload_byte_length 16 (payload_of write_multiple_request_frame 11)
       = 4 /\
     Packet.length parsed_packet = 11 /\
     Packet.length parsed_packet
       <> payload_byte_length 16
            (payload_of write_multiple_request_frame 11) + 2).
Proof.
  split.
  - do 2 eexists. split; [vm_compute; reflexivity|].
    split_and!; try reflexivity. vm_compute. discriminate.
  - do 2 eexists. split; [vm_compute; reflexivity|].
    split_and!; try reflexivity. vm_compute. discriminate.
Qed.

(** C2, amended: the [length] of a stored packet is the length field as it
    is on the wire, whatever the decoder then reads. With
    [payload_byte_length] the number of payload bytes consumed for the
    function family (the whole payload for an error result and for an
    unknown code), this number is within the payload, and [length] is at
    least [payload_byte_length + 2] as soon as the field is 2 or more. The
    two are equal exactly when the field is at least 2, the frame holds
    all the bytes it announces and the decoder consumes the whole payload.
    For an error result and an unknown code, that is exactly when the
    field is at least 2 and the frame is complete; when the field
    announces more than the frame holds, the payload is [frame[8:]] and
    [payload_byte_length + 2] is below [length]. *)
Theorem C2_length_field_of_stored_packet (self : ModbusParser)
  (packet : list byte) (transaction_id length unit_id function_code : Z) :
  8 <= len packet ->
  read_header packet =
    Ok (transaction_id, 0, length, unit_id, function_code) ->
  let consumed :=
    payload_byte_length function_code (payload_of packet length) in
  exists parsed_packet,
    parse_packet self packet =
      (Some parsed_packet, stored self parsed_packet,
       [LogParsed parsed_packet]) /\
    Packet.payload parsed_packet
      = (_parse_function function_code (payload_of packet length)).1 /\
    Packet.length parsed_packet = length /\
    0 <= consumed <= len (payload_of packet length) /\
    match Packet.payload parsed_packet with
    | ErrorPayload _ | RawPayload _ =>
        consumed = len (payload_of packet length)
    | ReadPayload byte_count values =>
        if in_list function_code [1; 2]
        then consumed
               = Z.min (1 + byte_count) (len (payload_of packet length)) /\
             len values = 8 * (consumed - 1)
        else consumed = 1 + 2 * len values
    | WriteSinglePayload _ _ | WriteMultiplePayload _ _ => consumed = 4
    | DeviceIdPayload _ _ _ _ _ objects =>
        consumed = 6 + objects_size objects \/
        consumed = 6 + objects_size objects + 2
    | ExceptionPayload _ _ => False
    end /\
    (2 <= length -> consumed + 2 <= Packet.length parsed_packet) /\
    (Packet.length parsed_packet = consumed + 2 <->
     2 <= length /\ 8 + length - 2 <= len packet /\
     consumed = len (payload_of packet length)) /\
    (Packet.length parsed_packet = len (payload_of packet length) + 2 <->
     2 <= length /\ 8 + length - 2 <= len packet) /\
    (8 + length - 2 > len packet ->
     payload_of packet length = drop 8 packet /\
     len (payload_of packet length) + 2 < Packet.length parsed_packet /\
     consumed + 2 < Packet.length parsed_packet).
Proof.
  intros Hlen Hhdr consumed.
  pose proof (read_header_length_nonneg _ _ _ _ _ _ Hhdr) as Hnonneg.
  destruct (parse_packet_accepted self packet _ _ _ _ Hlen Hhdr)
    as (parsed_data & Hbody & Hcall).
  destruct (payload_byte_length_spec _ _ _ Hbody) as [Hbounds Hshape].
  fold consumed in Hbounds, Hshape.
  assert (Packet.length
            (parsed_packet_of packet transaction_id length unit_id
               function_code parsed_data)
            = len (payload_of packet length) + 2 <->
          2 <= length /\ 8 + length - 2 <= len packet) as Hslice.
  { cbn [Packet.length parsed_packet_of]. split.
    - intros Heq.
      destruct (Z.lt_ge_cases length 2) as [Hsmall|Hbig].
      { rewrite payload_of_no_payload in Heq by lia.
        change (len []) with 0 in Heq. lia. }
      split; [done|].
      destruct (Z.le_gt_cases (8 + length - 2) (len packet)); [done|].
      destruct (payload_of_truncated packet length) as [_ Hl]; lia.
    - intros [Hbig Hfit]. rewrite payload_of_complete; lia. }
  assert (2 <= length -> len (payload_of packet length) + 2 <= length)
    as Hle.
  { intros Hbig.
    destruct (Z.le_gt_cases (8 + length - 2) (len packet)).
    - rewrite payload_of_complete; lia.
    - destruct (payload_of_truncated packet length) as [_ Hl]; lia. }
  eexists. split; [exact Hcall|].
  cbn [Packet.payload Packet.length parsed_packet_of] in *.
  split_and!.
  - unfold _parse_function. now rewrite Hbody.
  - reflexivity.
  - lia.
  - lia.
  - exact Hshape.
  - lia.
  - split.
    + intros Heq.
      destruct (Z.lt_ge_cases length 2) as [Hsmall|Hbig].
      { rewrite payload_of_no_payload in Hbounds by lia.
        change (len []) with 0 in Hbounds. lia. }
      assert (consumed = len (payload_of packet length)) as Hall by lia.
      split; [done|]. split; [|done]. apply Hslice. lia.
    + intros (Hbig & Hfit & ->). now apply Hslice.
  - exact Hslice.
  - intros Hover.
    destruct (payload_of_truncated packet length) as [Hp Hl]; [lia..|].
    split; [done|lia].
Qed.

Lemma C2_length_field_of_stored_packet_witness :
  8 <= len scenario_A /\
  read_header scenario_A = Ok (1, 0, 7, 1, 3) /\
  payload_byte_length 3 (payload_of scenario_A 7) = 5 /\
  exists parsed_packet,
    parse_packet init scenario_A =
      (Some parsed_packet, stored init parsed_packet,
       [LogParsed parsed_packet]) /\
    Packet.length parsed_packet
      = payload_byte_length 3 (payload_of scenario_A 7) + 2.
Proof.
  assert (8 <= len scenario_A) as H1 by (vm_compute; discriminate).
  assert (read_header scenario_A = Ok (1, 0, 7, 1, 3)) as H2 by reflexivity.
  split_and!; try assumption; [reflexivity|].
  destruct (C2_length_field_of_stored_packet init scenario_A 1 7 1 3 H1 H2)
    as (p & Hcall & _ & _ & _ & _ & _ & Hiff & _).
  exists p. split; [exact Hcall|].
  apply Hiff. split_and!; vm_compute; try discriminate. reflexivity.
Defined.

(** *** Short payloads *)

(** C9, as stated, fails on a read response cut short of the data its byte
    count announces. Function code 3 with the payload [04 00 01] holds two
    of its four data bytes, and function code 1 with the payload [02 ff]
    one of its two: both decode to the values that are there, with no
    error. *)
Lemma C9_short_read_data_is_not_reported :
  (exists parsed_packet self',
     parse_packet init short_registers_frame
       = (Some parsed_packet, self', [LogParsed parsed_packet]) /\
     payload_of short_registers_frame 5 = [x04; x00; x01] /\
     _parse_function 3 [x04; x00; x01] = (ReadPayload 4 [1], []) /\
     len [x00; x01] < 4 /\
     Packet.payload parsed_packet = ReadPayload 4 [1] /\
     forall msg, Packet.payload parsed_packet <> ErrorPayload msg) /\
  (exists parsed_packet self',
     parse_packet init short_coils_frame
       = (Some parsed_packet, self', [LogParsed parsed_packet]) /\
     payload_of short_coils_frame 4 = [x02; xff] /\
     _parse_function 1 [x02; xff]
       = (ReadPayload 2 [1; 1; 1; 1; 1; 1; 1; 1], []) /\
     len [xff] < 2 /\
     Packet.payload parsed_packet = ReadPayload 2 [1; 1; 1; 1; 1; 1; 1; 1] /\
     forall msg, Packet.payload parsed_packet <> ErrorPayload msg).
Proof.
  split.
  - do 2 eexists. split; [vm_compute; reflexivity|].
    split_and!; try reflexivity. cbn [Packet.payload]. discriminate.
  - do 2 eexists. split; [vm_compute; reflexivity|].
    split_and!; try reflexivity. cbn [Packet.payload]. discriminate.
Qed.

(** C9, amended: the payload of an accepted frame decodes to an error
    dictionary exactly when it is below the threshold of its function
    code: no byte for codes 1 to 4, less than 4 bytes for codes 5, 6, 15
    and 16, less than 6 for code 43. A read response that has its first
    byte and fewer data bytes than the byte count announces is no error:
    the values that are there are decoded. In every case nothing is raised
    (the exception handler is not entered, nothing is logged by
    [_parse_function], and [parse_packet] returns and stores the packet),
    and the parser goes on: whatever frame comes next is decoded, and
    logged, as a fresh instance would decode it. *)
Theorem C9_payload_below_threshold_is_reported (self : ModbusParser)
  (packet : list byte) (transaction_id length unit_id function_code : Z) :
  8 <= len packet ->
  read_header packet =
    Ok (transaction_id, 0, length, unit_id, function_code) ->
  exists parsed_data,
    _parse_function function_code (payload_of packet length)
      = (parsed_data, []) /\
    ((exists msg, parsed_data = ErrorPayload msg) <->
     len (payload_of packet length) < required_len function_code) /\
    (forall e raw, parsed_data <> ExceptionPayload e raw) /\
    (forall (x : byte) (rest : list byte),
       payload_of packet length = x :: rest ->
       (function_code = 1 \/ function_code = 2 ->
        parsed_data =
          ReadPayload (byte_to_Z x)
            (unpack_bits (take (Z.to_nat (byte_to_Z x)) rest))) /\
       (function_code = 3 \/ function_code = 4 ->
        parsed_data =
          ReadPayload (byte_to_Z x)
            (words (take (Z.to_nat (2 * ((byte_to_Z x + 1) / 2))) rest)))) /\
    let parsed_packet :=
      parsed_packet_of packet transaction_id length unit_id function_code
        parsed_data in
    parse_packet self packet =
      (Some parsed_packet, stored self parsed_packet,
       [LogParsed parsed_packet]) /\
    forall next : list byte,
      (parse_packet (stored self parsed_packet) next).1.1
        = (parse_packet init next).1.1 /\
      (parse_packet (stored self parsed_packet) next).2
        = (parse_packet init next).2.
Proof.
  intros Hlen Hhdr.
  destruct (parse_packet_accepted self packet _ _ _ _ Hlen Hhdr)
    as (parsed_data & Hbody & Hcall).
  destruct (parse_function_body_error_iff _ _ _ Hbody) as [Herror Hexn].
  exists parsed_data.
  split; [unfold _parse_function; now rewrite Hbody|].
  split; [exact Herror|]. split; [exact Hexn|]. split.
  - intros x rest Hpayload. rewrite Hpayload in Hbody. split; intros Hfc.
    + rewrite parse_function_body_bits in Hbody by exact Hfc.
      now injection Hbody as <-.
    + rewrite parse_function_body_registers in Hbody by exact Hfc.
      now injection Hbody as <-.
  - intros parsed_packet. split; [exact Hcall|].
    intros next. apply parse_packet_independent.
Qed.

Lemma C9_payload_below_threshold_is_reported_witness :
  8 <= len scenario_C /\
  read_header scenario_C = Ok (1, 0, 2, 1, 3) /\
  len (payload_of scenario_C 2) < required_len 3 /\
  exists parsed_data,
    _parse_function 3 (payload_of scenario_C 2) = (parsed_data, []) /\
    (exists msg, parsed_data = ErrorPayload msg) /\
    (parse_packet
       (stored init (parsed_packet_of scenario_C 1 2 1 3 parsed_data))
       scenario_A).1.1
      = (parse_packet init scenario_A).1.1.
Proof.
  assert (8 <= len scenario_C) as H1 by (vm_compute; discriminate).
  assert (read_header scenario_C = Ok (1, 0, 2, 1, 3)) as H2 by reflexivity.
  assert (len (payload_of scenario_C 2) < required_len 3) as H3
    by reflexivity.
  split_and!; try assumption.
  destruct (C9_payload_below_threshold_is_reported init scenario_C 1 2 1 3
              H1 H2)
    as (parsed_data & Hfun & Herror & _ & _ & _ & Hnext).
  exists parsed_data.
  split_and!;
    [exact Hfun|exact (proj2 Herror H3)|exact (proj1 (Hnext scenario_A))].
Defined.

(** Scenario C followed by scenario A on one instance: both are returned,
    the first with its error dictionary. *)
Example scenario_C_then_scenario_A :
  exists malformed decoded self' logged,
    parse_all init [scenario_C; scenario_A]
      = ([malformed; decoded], self', logged) /\
    Packet.payload malformed
      = ErrorPayload "Payload too short for read response" /\
    Packet.payload decoded = ReadPayload 4 [1; 255] /\
    transaction_count self' = 2.
Proof.
  do 4 eexists. split; [vm_compute; reflexivity|]. now split_and!.
Qed.

(** *** A length field beyond the end of the frame *)

(** C10: when the length field announces more bytes than the frame holds,
    the payload is all that follows the header, [frame[8:]]; the frame is
    decoded, its packet is returned, appended to the store and counted in
    the statistics: [transaction_count] and the count of its function code
    go up by one, its unit id is in [unit_ids], and [read_operations] or
    [write_operations] goes up by one for a read or a write code. The only
    call of the logger is the debug call for the packet: no warning and no
    error, and no record written. *)
Theorem C10_length_beyond_frame_falls_back (self : ModbusParser)
  (packet : list byte) (transaction_id length unit_id function_code : Z) :
  8 <= len packet ->
  read_header packet =
    Ok (transaction_id, 0, length, unit_id, function_code) ->
  8 + length - 2 > len packet ->
  exists parsed_data,
    payload_of packet length = drop 8 packet /\
    _parse_function function_code (drop 8 packet) = (parsed_data, []) /\
    let parsed_packet :=
      parsed_packet_of packet transaction_id length unit_id function_code
        parsed_data in
    let self' := stored self parsed_packet in
    let c := count_packets (packets self) in
    parse_packet self packet
      = (Some parsed_packet, self', [LogParsed parsed_packet]) /\
    emitted (parse_packet self packet).2 = [] /\
    packets self' = packets self ++ [parsed_packet] /\
    transaction_count self' = transaction_count self + 1 /\
    get_statistics self' =
      statistics_of (transaction_count self + 1)
        (count_packet (count_packets (packets self)) parsed_packet) /\
    get_statistics self' !! "transaction_count"
      = Some (IntValue (transaction_count self + 1)) /\
    get_statistics self' !! "function_codes"
      = Some (CountsValue
                (<[function_code :=
                     default 0 (function_counts c !! function_code) + 1]>
                   (function_counts c))) /\
    (exists us,
       get_statistics self' !! "unit_ids" = Some (ListValue us) /\
       NoDup us /\
       forall u, u ∈ us <-> u = unit_id \/ u ∈ unit_ids c) /\
    get_statistics self' !! "read_operations"
      = Some (IntValue
                (read_operations c +
                 if in_list function_code [1; 2; 3; 4] then 1 else 0)) /\
    get_statistics self' !! "write_operations"
      = Some (IntValue
                (write_operations c +
                 if in_list function_code [5; 6; 15; 16] then 1 else 0)).
Proof.
  intros Hlen Hhdr Hover.
  destruct (payload_of_truncated packet length) as [Hp _]; [lia..|].
  destruct (parse_packet_accepted self packet _ _ _ _ Hlen Hhdr)
    as (parsed_data & Hbody & Hcall).
  exists parsed_data. split; [exact Hp|]. rewrite Hp in Hbody.
  split; [unfold _parse_function; now rewrite Hbody|].
  intros parsed_packet self' c. subst self'.
  destruct (statistics_after_store self parsed_packet)
    as (Htc & Hcodes & Hunits & Hread & Hwrite).
  split; [exact Hcall|]. split; [now rewrite Hcall|].
  split; [reflexivity|]. split; [reflexivity|].
  split; [apply get_statistics_stored|].
  split; [exact Htc|]. split; [exact Hcodes|]. split; [exact Hunits|].
  split; [exact Hread|exact Hwrite].
Qed.

Lemma C10_length_beyond_frame_falls_back_witness :
  8 <= len overlong_frame /\
  read_header overlong_frame = Ok (2, 0, 9, 1, 3) /\
  8 + 9 - 2 > len overlong_frame /\
  exists parsed_data,
    payload_of overlong_frame 9 = [x04; x00; x01] /\
    _parse_function 3 [x04; x00; x01] = (parsed_data, []) /\
    parse_packet init overlong_frame
      = (Some (parsed_packet_of overlong_frame 2 9 1 3 parsed_data),
         stored init (parsed_packet_of overlong_frame 2 9 1 3 parsed_data),
         [LogParsed (parsed_packet_of overlong_frame 2 9 1 3 parsed_data)]) /\
    get_statistics
      (stored init (parsed_packet_of overlong_frame 2 9 1 3 parsed_data))
      !! "read_operations" = Some (IntValue 1).
Proof.
  assert (8 <= len overlong_frame) as H1 by (vm_compute; discriminate).
  assert (read_header overlong_frame = Ok (2, 0, 9, 1, 3)) as H2
    by reflexivity.
  assert (8 + 9 - 2 > len overlong_frame) as H3 by reflexivity.
  split_and!; try assumption.
  destruct (C10_length_beyond_frame_falls_back init overlong_frame 2 9 1 3
              H1 H2 H3)
    as (parsed_data & Hp & Hfun & Hcall & _ & _ & _ & _ & _ & _ & _
        & Hread & _).
  exists parsed_data.
  split_and!; [exact Hp|exact Hfun|exact Hcall|exact Hread].
Defined.

(** The overlong frame decodes the one register that is there, and is
    counted as a read of unit 1. *)
Example overlong_frame_decodes :
  exists self',
    parse_packet init overlong_frame
      = (Some (parsed_packet_of overlong_frame 2 9 1 3 (ReadPayload 4 [1])),
         self',
         [LogParsed
            (parsed_packet_of overlong_frame 2 9 1 3 (ReadPayload 4 [1]))]) /\
    get_statistics self' !! "transaction_count" = Some (IntValue 1) /\
    get_statistics self' !! "function_codes"
      = Some (CountsValue {[ 3 := 1 ]}) /\
    get_statistics self' !! "unit_ids" = Some (ListValue [1]) /\
    get_statistics self' !! "read_operations" = Some (IntValue 1) /\
    get_statistics self' !! "write_operations" = Some (IntValue 0).
Proof.
  eexists. split; [vm_compute; reflexivity|].
  split_and!; vm_compute; reflexivity.
Qed.

(** ** What the parser logs *)

(** X24: every call of [parse_packet] calls the logger exactly once: with a
    warning when the frame is turned away, with the debug message of the
    packet when it is returned. Under the level [INFO] of the module the
    warning is written and the debug message is not, so an accepted frame
    writes no record. The logger is never called with an error: neither
    of the two exception handlers is reached on any frame. *)
Theorem parse_packet_logs_one_record (self : ModbusParser)
  (packet : list byte) :
  exists record,
    (parse_packet self packet).2 = [record] /\
    match record with
    | Log WARNING _ =>
        (parse_packet self packet).1.1 = None /\
        emitted (parse_packet self packet).2 = [record]
    | LogParsed p =>
        (parse_packet self packet).1.1 = Some p /\
        emitted (parse_packet self packet).2 = []
    | Log _ _ => False
    end.
Proof.
  destruct (Z.lt_ge_cases (len packet) 8) as [Hshort|Hlen].
  { rewrite parse_packet_short by done. eexists. now split. }
  destruct (eight_bytes packet) as
    (b0 & b1 & b2 & b3 & b4 & b5 & b6 & b7 & rest & ->); [lia|].
  pose proof (read_header_bytes b0 b1 b2 b3 b4 b5 b6 b7 rest) as Hhdr.
  destruct (Z.eq_dec (be16 b2 b3) 0) as [Hzero|Hpid].
  - rewrite Hzero in Hhdr.
    destruct (parse_packet_accepted self _ _ _ _ _ Hlen Hhdr)
      as (parsed_data & _ & ->).
    eexists. now split.
  - rewrite (parse_packet_rejected self _ _ _ _ _ _ Hlen Hhdr Hpid).
    eexists. now split.
Qed.
